(** * Bybit exchange adapter (src/bybit.py): a shallow embedding and its properties

    The adapter translates Bybit's REST and WebSocket payloads into the
    bot's normalized ticks, positions and orders.  The embedding follows
    the Python source function by function:

    - JSON payloads and Python values are the inductive type [pyval];
      a [dict] is an association list in insertion order with the
      update-in-place behaviour of a Python dict;
    - floats are IEEE-754 binary64 values ([spec_float] with precision 53
      and maximal exponent 1024);
    - a raised exception is the [Raise] branch of [outcome], or its
      [RaiseBase] branch when the exception is outside [Exception];
      printing, the clock and the HTTP session are threaded through the
      monad [M] over a [world];
    - collaborators that live outside src/bybit.py (dateutil, the jitted
      pnl functions, the transport) are the fields of the class
      [Externals]. *)

From Stdlib Require Import ZArith List String Ascii Bool Lia.
From Stdlib Require Import SpecFloat DecimalString Sorted Permutation.
Import ListNotations.

Local Open Scope string_scope.
Local Open Scope list_scope.
Local Open Scope Z_scope.

Set Implicit Arguments.
Set Warnings "-register-all".

(* ================================================================= *)
(** ** Exceptions and outcomes *)

(** The subclasses of [Exception] the adapter can meet.  [External] is an
    exception raised inside a collaborator (transport, date parser, pnl
    function); its tag is whatever the collaborator reports. *)
Inductive exn : Type :=
| KeyError (k : string)
| IndexError
| TypeError
| ValueError
| AttributeError
| OverflowError
| UnboundLocalError
| External (tag : string).

(** The exceptions that derive from [BaseException] and not from
    [Exception]: an [except Exception] clause lets them pass, a bare
    [except:] catches them.  [CancelledError] is what a cancelled task
    meets at the [await] it is suspended on. *)
Inductive base_exn : Type :=
| CancelledError
| KeyboardInterrupt
| SystemExit
| GeneratorExit.

Inductive outcome (A : Type) : Type :=
| Ok (a : A)
| Raise (e : exn)
| RaiseBase (b : base_exn).

Arguments Ok {A} a.
Arguments Raise {A} e.
Arguments RaiseBase {A} b.

Definition obind {A B} (x : outcome A) (f : A -> outcome B) : outcome B :=
  match x with
  | Ok a => f a
  | Raise e => Raise e
  | RaiseBase b => RaiseBase b
  end.

Notation "'let?' x ':=' c 'in' k" := (obind c (fun x => k))
  (at level 10, x name, c at level 100, k at level 200).

Definition of_option {A} (e : exn) (x : option A) : outcome A :=
  match x with
  | Some a => Ok a
  | None => Raise e
  end.

Definition is_ok {A} (x : outcome A) : bool :=
  match x with
  | Ok _ => true
  | _ => false
  end.

(** [map] of a function that may raise: the first exception aborts the
    whole traversal, as in [list(map(f, xs))] and in a list comprehension. *)
Fixpoint omap {A B} (f : A -> outcome B) (xs : list A) : outcome (list B) :=
  match xs with
  | [] => Ok []
  | x :: xs' =>
      let? y := f x in
      let? ys := omap f xs' in
      Ok (y :: ys)
  end.

(** [[g(e) for e in xs if c(e)]]: the condition is evaluated first. *)
Fixpoint ofilter_map {A B} (c : A -> outcome bool) (g : A -> outcome B)
  (xs : list A) : outcome (list B) :=
  match xs with
  | [] => Ok []
  | x :: xs' =>
      let? b := c x in
      if b then
        let? y := g x in
        let? ys := ofilter_map c g xs' in
        Ok (y :: ys)
      else ofilter_map c g xs'
  end.

(* ================================================================= *)
(** ** Floats and Python values *)

Definition float : Type := spec_float.

Definition prec : Z := 53.
Definition emax : Z := 1024.

Definition fzero : float := S754_zero false.
Definition fadd : float -> float -> float := SFadd prec emax.
Definition fmul : float -> float -> float := SFmul prec emax.
Definition fdiv : float -> float -> float := SFdiv prec emax.
Definition fneg : float -> float := SFopp.
Definition feqb : float -> float -> bool := SFeqb.

(** [float(z)] for an integer [z] of any size, rounded to nearest even. *)
Definition float_of_Z (z : Z) : float := binary_normalize prec emax z 0 false.

Definition dict (A : Type) : Type := list (string * A).

Inductive pyval : Type :=
| PNone
| PBool (b : bool)
| PInt (z : Z)
| PFloat (f : float)
| PStr (s : string)
| PList (l : list pyval)
| PDict (d : list (string * pyval)).

(* ----------------------------------------------------------------- *)
(** *** Dicts *)

Fixpoint dict_get {A} (d : dict A) (k : string) : option A :=
  match d with
  | [] => None
  | (k', v) :: d' => if String.eqb k' k then Some v else dict_get d' k
  end.

(** [d[k] = v]: an existing key keeps its position, a new key is appended. *)
Fixpoint dict_set {A} (d : dict A) (k : string) (v : A) : dict A :=
  match d with
  | [] => [(k, v)]
  | (k', v') :: d' =>
      if String.eqb k' k then (k', v) :: d' else (k', v') :: dict_set d' k v
  end.

(** [d.update(other)] *)
Definition dict_update {A} (d other : dict A) : dict A :=
  fold_left (fun acc kv => dict_set acc (fst kv) (snd kv)) other d.

Definition dict_keys {A} (d : dict A) : list string := map fst d.

Definition dict_wf {A} (d : dict A) : Prop := NoDup (dict_keys d).

(** [v[k]] for a string key [k]. *)
Definition subscript (v : pyval) (k : string) : outcome pyval :=
  match v with
  | PDict d => of_option (KeyError k) (dict_get d k)
  | _ => Raise TypeError
  end.

(** [d[k]] on a dict of the adapter itself (endpoints, an order). *)
Definition lookup {A} (d : dict A) (k : string) : outcome A :=
  of_option (KeyError k) (dict_get d k).

(** [xs[0]] *)
Definition first {A} (xs : list A) : outcome A :=
  match xs with
  | x :: _ => Ok x
  | [] => Raise IndexError
  end.

(* ----------------------------------------------------------------- *)
(** *** String builtins *)

Definition is_upper (c : ascii) : bool :=
  let n := N_of_ascii c in (65 <=? n)%N && (n <=? 90)%N.

Definition lower_char (c : ascii) : ascii :=
  if is_upper c then ascii_of_N (N_of_ascii c + 32) else c.

(** [s.lower()] on ASCII letters; other bytes are kept. *)
Fixpoint lower (s : string) : string :=
  match s with
  | EmptyString => EmptyString
  | String c s' => String (lower_char c) (lower s')
  end.

(** [s.endswith(suffix)] *)
Definition endswith (s suffix : string) : bool :=
  let n := String.length s in
  let m := String.length suffix in
  if (m <=? n)%nat then String.eqb (substring (n - m) m s) suffix else false.

(** [sub in s] for two strings. *)
Fixpoint contains (sub s : string) : bool :=
  prefix sub s ||
  match s with
  | EmptyString => false
  | String _ s' => contains sub s'
  end.

(** The propositional readings used in the statements. *)
Definition ends_with (s suffix : string) : Prop :=
  exists p, s = (p ++ suffix)%string.

Definition has_substring (sub s : string) : Prop :=
  exists a b, s = (a ++ sub ++ b)%string.

(** [v == 'text'] for a literal string. *)
Definition eq_str (v : pyval) (text : string) : bool :=
  match v with
  | PStr s => String.eqb s text
  | _ => false
  end.

(** [v == n] for a small literal integer: Python compares numbers by
    value, so [1.0 == 1] and [True == 1] hold. *)
Definition eq_int (v : pyval) (n : Z) : bool :=
  match v with
  | PInt z => Z.eqb z n
  | PBool b => Z.eqb (if b then 1 else 0) n
  | PFloat f => feqb f (float_of_Z n)
  | _ => false
  end.

(** [text in v] for a literal string [text]. *)
Definition str_in (text : string) (v : pyval) : outcome bool :=
  match v with
  | PStr s => Ok (contains text s)
  | PList l => Ok (existsb (fun x => eq_str x text) l)
  | PDict d => Ok (existsb (String.eqb text) (dict_keys d))
  | _ => Raise TypeError
  end.

(** [v.lower()] *)
Definition str_lower (v : pyval) : outcome string :=
  match v with
  | PStr s => Ok (lower s)
  | _ => Raise AttributeError
  end.

(** Iteration ([for e in v], [map(f, v)]): a list yields its elements, a
    dict its keys, a string its characters; anything else is not iterable. *)
Definition iterate (v : pyval) : outcome (list pyval) :=
  match v with
  | PList l => Ok l
  | PDict d => Ok (map PStr (dict_keys d))
  | PStr s => Ok (map (fun c => PStr (String c EmptyString)) (list_ascii_of_string s))
  | _ => Raise TypeError
  end.

(* ----------------------------------------------------------------- *)
(** *** Numbers from text: [int(s)] and [float(s)] *)

Definition is_space (c : ascii) : bool :=
  let n := N_of_ascii c in
  ((9 <=? n)%N && (n <=? 13)%N) || ((28 <=? n)%N && (n <=? 32)%N).

Definition is_digit (c : ascii) : bool :=
  let n := N_of_ascii c in (48 <=? n)%N && (n <=? 57)%N.

Definition digit_value (c : ascii) : Z := Z.of_N (N_of_ascii c) - 48.

Fixpoint drop_spaces (cs : list ascii) : list ascii :=
  match cs with
  | c :: cs' => if is_space c then drop_spaces cs' else cs
  | [] => []
  end.

(** [s.strip()] *)
Definition strip (cs : list ascii) : list ascii :=
  rev (drop_spaces (rev (drop_spaces cs))).

(** The digits after the first one of a digit part; an underscore is
    accepted only between two digits.  Returns the value read so far, the
    number of digits and the unread rest. *)
Fixpoint digitpart_rest (cs : list ascii) (acc n : Z) : Z * Z * list ascii :=
  match cs with
  | c :: cs' =>
      if is_digit c then digitpart_rest cs' (10 * acc + digit_value c) (n + 1)
      else if Ascii.eqb c "_" then
        match cs' with
        | d :: cs'' =>
            if is_digit d then digitpart_rest cs'' (10 * acc + digit_value d) (n + 1)
            else (acc, n, cs)
        | [] => (acc, n, cs)
        end
      else (acc, n, cs)
  | [] => (acc, n, cs)
  end.

Definition digitpart (cs : list ascii) : option (Z * Z * list ascii) :=
  match cs with
  | c :: cs' => if is_digit c then Some (digitpart_rest cs' (digit_value c) 1) else None
  | [] => None
  end.

(** An optional sign: [true] is minus. *)
Definition read_sign (cs : list ascii) : bool * list ascii :=
  match cs with
  | c :: cs' =>
      if Ascii.eqb c "-" then (true, cs')
      else if Ascii.eqb c "+" then (false, cs')
      else (false, cs)
  | [] => (false, cs)
  end.

(** [int(s)] for a string, base 10. *)
Definition int_of_string (s : string) : option Z :=
  let (neg, cs) := read_sign (strip (list_ascii_of_string s)) in
  match digitpart cs with
  | Some (v, _, []) => Some (if neg then - v else v)
  | _ => None
  end.

(** The decimal [m * 10^e] with sign [neg], correctly rounded to binary64. *)
Definition float_of_decimal (neg : bool) (m e : Z) : float :=
  match m with
  | Zpos p =>
      if 0 <=? e then binary_round prec emax neg (p * Z.to_pos (10 ^ e)) 0
      else
        let '(mz, ez, lz) := SFdiv_core_binary prec emax (Zpos p) 0 (10 ^ (- e)) 0 in
        binary_round_aux prec emax neg mz ez lz
  | _ => S754_zero neg
  end.

(** The mantissa and the decimal exponent of [digits [. digits]] or
    [. digits], and the unread rest. *)
Definition read_mantissa (cs : list ascii) : option (Z * Z * list ascii) :=
  match digitpart cs with
  | Some (ip, _, r1) =>
      match r1 with
      | c :: r2 =>
          if Ascii.eqb c "." then
            match digitpart r2 with
            | Some (fp, fn, r3) => Some (ip * 10 ^ fn + fp, - fn, r3)
            | None => Some (ip, 0, r2)
            end
          else Some (ip, 0, r1)
      | [] => Some (ip, 0, r1)
      end
  | None =>
      match cs with
      | c :: r2 =>
          if Ascii.eqb c "." then
            match digitpart r2 with
            | Some (fp, fn, r3) => Some (fp, - fn, r3)
            | None => None
            end
          else None
      | [] => None
      end
  end.

(** An optional exponent part [e[+-]digits]; the text must end there. *)
Definition read_exponent (cs : list ascii) : option Z :=
  match cs with
  | [] => Some 0
  | c :: cs' =>
      if Ascii.eqb (lower_char c) "e" then
        let (neg, cs'') := read_sign cs' in
        match digitpart cs'' with
        | Some (v, _, []) => Some (if neg then - v else v)
        | _ => None
        end
      else None
  end.

(** [float(s)] for a string: surrounding whitespace, a sign, then
    [inf], [infinity], [nan] in any case or a decimal literal. *)
Definition float_of_string (s : string) : option float :=
  let (neg, cs) := read_sign (strip (list_ascii_of_string s)) in
  let word := lower (string_of_list_ascii cs) in
  if String.eqb word "inf" || String.eqb word "infinity" then Some (S754_infinity neg)
  else if String.eqb word "nan" then Some S754_nan
  else
    match read_mantissa cs with
    | Some (m, e, rest) =>
        match read_exponent rest with
        | Some x => Some (float_of_decimal neg m (e + x))
        | None => None
        end
    | None => None
    end.

(** [float(v)] *)
Definition py_float (v : pyval) : outcome float :=
  match v with
  | PFloat f => Ok f
  | PInt z =>
      match float_of_Z z with
      | S754_infinity _ => Raise OverflowError
      | f => Ok f
      end
  | PBool b => Ok (float_of_Z (if b then 1 else 0))
  | PStr s => of_option ValueError (float_of_string s)
  | _ => Raise TypeError
  end.

(** [int(f)] for a float: truncation towards zero. *)
Definition int_of_float (f : float) : outcome Z :=
  match f with
  | S754_zero _ => Ok 0
  | S754_finite s m e =>
      Ok (cond_Zopp s (if 0 <=? e then Zpos m * 2 ^ e else Zpos m / 2 ^ (- e)))
  | S754_infinity _ => Raise OverflowError
  | S754_nan => Raise ValueError
  end.

(** [int(v)] *)
Definition py_int (v : pyval) : outcome Z :=
  match v with
  | PInt z => Ok z
  | PBool b => Ok (if b then 1 else 0)
  | PFloat f => int_of_float f
  | PStr s => of_option ValueError (int_of_string s)
  | _ => Raise TypeError
  end.

(** [str(z)] for an integer. *)
Definition str_of_Z (z : Z) : string := NilZero.string_of_int (Z.to_int z).

(* ----------------------------------------------------------------- *)
(** *** URL encoding ([urllib.parse]) *)

Definition hex_digit (n : N) : ascii :=
  if (n <? 10)%N then ascii_of_N (48 + n) else ascii_of_N (55 + n).

Definition is_unreserved (c : ascii) : bool :=
  let n := N_of_ascii c in
  is_digit c || is_upper c || ((97 <=? n)%N && (n <=? 122)%N)
  || Ascii.eqb c "_" || Ascii.eqb c "." || Ascii.eqb c "-" || Ascii.eqb c "~".

(** [quote_plus(s)]: unreserved bytes are kept, a space becomes [+], every
    other byte of the UTF-8 text becomes [%XX] in upper-case hexadecimal. *)
Fixpoint quote_plus (s : string) : string :=
  match s with
  | EmptyString => EmptyString
  | String c s' =>
      if is_unreserved c then String c (quote_plus s')
      else if Ascii.eqb c " " then String "+" (quote_plus s')
      else
        let n := N_of_ascii c in
        String "%" (String (hex_digit (n / 16)) (String (hex_digit (n mod 16)) (quote_plus s')))
  end.

(* ================================================================= *)
(** ** HMAC-SHA256 ([hmac] and [hashlib]) *)

(** SHA-256 of FIPS 180-4 on byte strings, with 32-bit words as [Z] and
    the wrap-around written out. *)
Module Sha256.

Definition w32 (x : Z) : Z := x mod 2 ^ 32.

Definition add32 (x y : Z) : Z := w32 (x + y).

Definition rotr (n x : Z) : Z :=
  Z.lor (Z.shiftr x n) (w32 (Z.shiftl x (32 - n))).

Definition Ch (x y z : Z) : Z :=
  Z.lxor (Z.land x y) (Z.land (w32 (Z.lnot x)) z).

Definition Maj (x y z : Z) : Z :=
  Z.lxor (Z.lxor (Z.land x y) (Z.land x z)) (Z.land y z).

Definition Sigma0 (x : Z) : Z := Z.lxor (Z.lxor (rotr 2 x) (rotr 13 x)) (rotr 22 x).
Definition Sigma1 (x : Z) : Z := Z.lxor (Z.lxor (rotr 6 x) (rotr 11 x)) (rotr 25 x).
Definition sigma0 (x : Z) : Z := Z.lxor (Z.lxor (rotr 7 x) (rotr 18 x)) (Z.shiftr x 3).
Definition sigma1 (x : Z) : Z := Z.lxor (Z.lxor (rotr 17 x) (rotr 19 x)) (Z.shiftr x 10).

Definition K : list Z :=
  [
   1116352408; 1899447441; 3049323471; 3921009573; 961987163; 1508970993;
   2453635748; 2870763221; 3624381080; 310598401; 607225278; 1426881987;
   1925078388; 2162078206; 2614888103; 3248222580; 3835390401; 4022224774;
   264347078; 604807628; 770255983; 1249150122; 1555081692; 1996064986;
   2554220882; 2821834349; 2952996808; 3210313671; 3336571891; 3584528711;
   113926993; 338241895; 666307205; 773529912; 1294757372; 1396182291;
   1695183700; 1986661051; 2177026350; 2456956037; 2730485921; 2820302411;
   3259730800; 3345764771; 3516065817; 3600352804; 4094571909; 275423344;
   430227734; 506948616; 659060556; 883997877; 958139571; 1322822218;
   1537002063; 1747873779; 1955562222; 2024104815; 2227730452; 2361852424;
   2428436474; 2756734187; 3204031479; 3329325298
  ].

Definition H0 : list Z :=
  [
   1779033703; 3144134277; 1013904242; 2773480762; 1359893119; 2600822924;
   528734635; 1541459225
  ].

Definition bytes_of_string (s : string) : list Z :=
  map (fun c => Z.of_N (N_of_ascii c)) (list_ascii_of_string s).

(** The [n] low bytes of [x], most significant first. *)
Fixpoint big_endian (n : nat) (x : Z) : list Z :=
  match n with
  | O => []
  | S n' => big_endian n' (x / 256) ++ [x mod 256]
  end.

(** The message, the byte [0x80], zero bytes up to 56 modulo 64, and the
    bit length on eight bytes. *)
Definition pad (msg : list Z) : list Z :=
  let len := Z.of_nat (List.length msg) in
  let zeros := Z.to_nat ((55 - len) mod 64) in
  msg ++ [128] ++ repeat 0 zeros ++ big_endian 8 (8 * len).

Fixpoint words (n : nat) (bs : list Z) : list Z :=
  match n, bs with
  | S n', a :: b :: c :: d :: bs' =>
      (((a * 256 + b) * 256 + c) * 256 + d) :: words n' bs'
  | _, _ => []
  end.

(** The message schedule, most recent word first. *)
Fixpoint schedule (n : nat) (rev_w : list Z) : list Z :=
  match n with
  | O => rev_w
  | S n' =>
      let w := add32 (add32 (sigma1 (nth 1 rev_w 0)) (nth 6 rev_w 0))
                     (add32 (sigma0 (nth 14 rev_w 0)) (nth 15 rev_w 0)) in
      schedule n' (w :: rev_w)
  end.

Definition round (st : list Z) (kw : Z * Z) : list Z :=
  match st with
  | [a; b; c; d; e; f; g; h] =>
      let t1 := add32 (add32 (add32 h (Sigma1 e)) (add32 (Ch e f g) (fst kw))) (snd kw) in
      let t2 := add32 (Sigma0 a) (Maj a b c) in
      [add32 t1 t2; a; b; c; add32 d t1; e; f; g]
  | _ => st
  end.

Definition compress (st : list Z) (block : list Z) : list Z :=
  let w := rev (schedule 48 (rev (words 16 block))) in
  map (fun p => add32 (fst p) (snd p))
      (combine st (fold_left round (combine K w) st)).

Fixpoint blocks (n : nat) (st : list Z) (bs : list Z) : list Z :=
  match n with
  | O => st
  | S n' => blocks n' (compress st (firstn 64 bs)) (skipn 64 bs)
  end.

Definition digest (msg : list Z) : list Z :=
  let padded := pad msg in
  flat_map (big_endian 4) (blocks (List.length padded / 64) H0 padded).

Definition hex_lower (n : Z) : ascii :=
  if n <? 10 then ascii_of_N (Z.to_N (48 + n)) else ascii_of_N (Z.to_N (87 + n)).

Definition hex (bs : list Z) : string :=
  string_of_list_ascii (flat_map (fun b => [hex_lower (b / 16); hex_lower (b mod 16)]) bs).

(** HMAC of RFC 2104 with SHA-256: block size 64. *)
Definition hmac (key msg : list Z) : list Z :=
  let key := if (64 <? List.length key)%nat then digest key else key in
  let key := key ++ repeat 0 (64 - List.length key) in
  digest (map (Z.lxor 92) key ++ digest (map (Z.lxor 54) key ++ msg)).

End Sha256.

(** [hmac.new(key.encode('utf-8'), msg.encode('utf-8'),
    hashlib.sha256).hexdigest()] *)
Definition hmac_sha256_hexdigest (key msg : string) : string :=
  Sha256.hex (Sha256.hmac (Sha256.bytes_of_string key) (Sha256.bytes_of_string msg)).

(* ================================================================= *)
(** ** Collaborators outside src/bybit.py *)

(** What the adapter calls but does not define.  Each field is the
    behaviour of one collaborator, as a function of what it is given:
    a value, or the exception it raises. *)
Class Externals : Type := {
  (** [int(time() * 1000)] at the n-th reading of the wall clock *)
  now_ms : nat -> Z;
  (** the n-th request of the aiohttp session: [getattr(session, type_)]
      on the URL with the query parameters, then [response.text()] and
      [json.loads] *)
  http : nat -> string -> string -> dict pyval -> outcome pyval;
  (** [dateutil.parser.parse(date).timestamp()] *)
  parse_timestamp : pyval -> outcome float;
  (** [passivbot.ts_to_date] *)
  ts_to_date : float -> outcome string;
  (** [jitted.calc_long_pnl] and [jitted.calc_shrt_pnl], called with the
      entry price, the last price, the signed size, [xk['inverse']] and
      [xk['contract_multiplier']] *)
  calc_long_pnl : float -> float -> float -> pyval -> pyval -> outcome float;
  calc_shrt_pnl : float -> float -> float -> pyval -> pyval -> outcome float;
  (** [str(f)] for a float *)
  float_str : float -> string;
  (** [str(v)] for a list or a dict *)
  container_str : pyval -> string;
  (** of the two requests [asyncio.gather] has in flight together, the
      first of them being the n-th request of the session: whether that
      one is the first to complete *)
  settles_first : nat -> bool
}.

(* ================================================================= *)
(** ** The world: standard output, the clock and the session *)

Inductive item : Type :=
| Val (v : pyval)
| Exn (e : exn).

(** One call of [print(a, b, ...)] or of passivbot's [print_([a, b, ...])]. *)
Inductive line : Type :=
| Printed (args : list item)
| Printed_ (args : list item).

Record world : Type := {
  stdout : list line;
  clock_reads : nat;
  requests : nat
}.

Definition M (A : Type) : Type := world -> outcome A * world.

Definition ret {A} (a : A) : M A := fun w => (Ok a, w).

Definition bind {A B} (m : M A) (f : A -> M B) : M B :=
  fun w =>
    match m w with
    | (Ok a, w') => f a w'
    | (Raise e, w') => (Raise e, w')
    | (RaiseBase b, w') => (RaiseBase b, w')
    end.

Notation "x <- c ;; k" := (bind c (fun x => k))
  (at level 61, c at next level, right associativity).
Notation "c ;; k" := (bind c (fun _ => k))
  (at level 61, right associativity).

Definition lift {A} (x : outcome A) : M A := fun w => (x, w).

(** [try: body / except Exception as e: handler(e)]: an exception
    outside [Exception] is not caught. *)
Definition try_except {A} (body : M A) (handler : exn -> M A) : M A :=
  fun w =>
    match body w with
    | (Ok a, w') => (Ok a, w')
    | (Raise e, w') => handler e w'
    | (RaiseBase b, w') => (RaiseBase b, w')
    end.

(** [try: body / except: handler]: the bare clause catches every
    exception and does not name it. *)
Definition try_except_all {A} (body : M A) (handler : M A) : M A :=
  fun w =>
    match body w with
    | (Ok a, w') => (Ok a, w')
    | (_, w') => handler w'
    end.

Definition print (l : line) : M unit :=
  fun w => (Ok tt, {| stdout := stdout w ++ [l];
                      clock_reads := clock_reads w;
                      requests := requests w |}).

(** [await asyncio.gather(a, b)]: both coroutines are started, [a] first,
    and each runs up to its request.  The two results come back in the
    order of the arguments; an exception is propagated as soon as it is
    raised, so that when both coroutines fail the caller meets the
    exception of the one that completes first. *)
Definition gather {E : Externals} {A B} (a : M A) (b : M B) : M (A * B) :=
  fun w =>
    let (ra, w1) := a w in
    let (rb, w2) := b w1 in
    (if settles_first (requests w)
     then let? x := ra in let? y := rb in Ok (x, y)
     else let? y := rb in let? x := ra in Ok (x, y),
     w2).

(* ================================================================= *)
(** ** The adapter *)

(** The attributes of a [Bybit] instance the modelled methods read or
    write.  [price], [xk], [coin], [quot], [key] and [secret] are set by
    the base class and by [_init]. *)
Record Bybit : Type := {
  symbol : string;
  key : string;
  secret : string;
  coin : string;
  quot : string;
  price : float;
  xk : dict pyval;
  config : dict pyval;
  inverse : bool;
  hedge_mode : bool;
  base_endpoint : string;
  endpoints : dict string;
  market_type : string
}.

(** [position['long']] and [position['shrt']]: the keys [size], [price]
    (here [entry_price]), [leverage], [liquidation_price] and [upnl]. *)
Record SubPosition : Type := {
  size : float;
  entry_price : float;
  leverage : float;
  liquidation_price : float;
  upnl : float
}.

(** The dict [fetch_position] returns: the keys [wallet_balance], [long],
    [shrt] and [equity]. *)
Record Position : Type := {
  wallet_balance : float;
  long : SubPosition;
  shrt : SubPosition;
  equity : float
}.

(** The attributes [init_market_type] assigns. *)
Definition with_market (self : Bybit) (mt : string) (inv : bool)
  (hedge : bool) (eps : dict string) : Bybit :=
  {| symbol := symbol self; key := key self; secret := secret self;
     coin := coin self; quot := quot self; price := price self;
     xk := xk self;
     config := dict_set (config self) "inverse" (PBool inv);
     inverse := inv;
     hedge_mode := hedge;
     base_endpoint := base_endpoint self;
     endpoints := dict_set eps "balance" "/v2/private/wallet/balance";
     market_type := mt |}.

Definition linear_endpoints : dict string :=
  [("position", "/private/linear/position/list");
   ("open_orders", "/private/linear/order/search");
   ("create_order", "/private/linear/order/create");
   ("cancel_order", "/private/linear/order/cancel");
   ("ticks", "/public/linear/recent-trading-records");
   ("websocket", "wss://stream.bybit.com/realtime_public");
   ("created_at_key", "created_time")].

Definition inverse_perpetual_endpoints : dict string :=
  [("position", "/v2/private/position/list");
   ("open_orders", "/v2/private/order");
   ("create_order", "/v2/private/order/create");
   ("cancel_order", "/v2/private/order/cancel");
   ("ticks", "/v2/public/trading-records");
   ("websocket", "wss://stream.bybit.com/realtime");
   ("created_at_key", "created_at")].

Definition inverse_futures_endpoints : dict string :=
  [("position", "/futures/private/position/list");
   ("open_orders", "/futures/private/order");
   ("create_order", "/futures/private/order/create");
   ("cancel_order", "/futures/private/order/cancel");
   ("ticks", "/v2/public/trading-records");
   ("websocket", "wss://stream.bybit.com/realtime");
   ("created_at_key", "created_at")].

(** [Bybit.init_market_type] (lines 58-96): the instance after the call. *)
Definition init_market_type (self : Bybit) : M Bybit :=
  if endswith (symbol self) "USDT" then
    print (Printed [Val (PStr "linear perpetual")]) ;;
    ret (with_market self "linear_perpetual" false (hedge_mode self) linear_endpoints)
  else if endswith (symbol self) "USD" then
    print (Printed [Val (PStr "inverse perpetual")]) ;;
    ret (with_market self "inverse_perpetual" true false inverse_perpetual_endpoints)
  else
    print (Printed [Val (PStr "inverse futures")]) ;;
    ret (with_market self "inverse_futures" true (hedge_mode self) inverse_futures_endpoints).

(** The spec's MarketType, read off the [market_type] attribute. *)
Inductive MarketType : Type :=
| LinearPerpetual
| InversePerpetual
| InverseFutures.

Definition market_type_name (m : MarketType) : string :=
  match m with
  | LinearPerpetual => "linear_perpetual"
  | InversePerpetual => "inverse_perpetual"
  | InverseFutures => "inverse_futures"
  end.

(** [Bybit.determine_pos_side] (lines 98-114) *)
Definition determine_pos_side (o : pyval) : outcome string :=
  let? raw := subscript o "side" in
  let? side := str_lower raw in
  if String.eqb side "buy" then
    let? id := subscript o "order_link_id" in
    let? entry := str_in "entry" id in
    if entry then Ok "long"
    else
      let? id := subscript o "order_link_id" in
      let? close := str_in "close" id in
      if close then Ok "shrt" else Ok "unknown"
  else
    let? id := subscript o "order_link_id" in
    let? entry := str_in "entry" id in
    if entry then Ok "shrt"
    else
      let? id := subscript o "order_link_id" in
      let? close := str_in "close" id in
      if close then Ok "long" else Ok "both".

Section Adapter.

Context {E : Externals}.

(** [time()], already scaled and truncated as [int(time() * 1000)]. *)
Definition time_ms : M Z :=
  fun w => (Ok (now_ms (clock_reads w)),
            {| stdout := stdout w;
               clock_reads := S (clock_reads w);
               requests := requests w |}).

(** One request of the session and the decoding of its body. *)
Definition request (type_ url : string) (params : dict pyval) : M pyval :=
  fun w => (http (requests w) type_ url params,
            {| stdout := stdout w;
               clock_reads := clock_reads w;
               requests := S (requests w) |}).

(** [str(v)] as [urlencode] applies it to a value. *)
Definition py_str (v : pyval) : string :=
  match v with
  | PStr s => s
  | PInt z => str_of_Z z
  | PBool b => if b then "True" else "False"
  | PNone => "None"
  | PFloat f => float_str f
  | _ => container_str v
  end.

(** [urlencode(d)] for a dict with string keys. *)
Definition urlencode (d : dict pyval) : string :=
  String.concat "&"
    (map (fun kv => (quote_plus (fst kv) ++ "=" ++ quote_plus (py_str (snd kv)))%string) d).

Fixpoint insert_by_key (kv : string * pyval) (d : dict pyval) : dict pyval :=
  match d with
  | [] => [kv]
  | kv' :: d' =>
      if String.leb (fst kv) (fst kv') then kv :: d else kv' :: insert_by_key kv d'
  end.

(** Modelled from the spec: [passivbot.sort_dict_keys], which src/ does
    not hold; section 4.2 has it "sort parameters by key".  The keys are
    compared as Python compares strings, byte by byte in UTF-8. *)
Definition sort_dict_keys (d : dict pyval) : dict pyval :=
  fold_right insert_by_key [] d.

(** [date_to_ts] (lines 44-45) *)
Definition date_to_ts (date : pyval) : outcome float :=
  let? t := parse_timestamp date in
  Ok (fmul t (float_of_Z 1000)).

(** [format_tick] (lines 20-25) *)
Definition format_tick (tick : pyval) : outcome pyval :=
  let? id := subscript tick "id" in
  let? trade_id := py_int id in
  let? p := subscript tick "price" in
  let? price := py_float p in
  let? q := subscript tick "qty" in
  let? qty := py_float q in
  let? t := subscript tick "time" in
  let? timestamp := date_to_ts t in
  let? side := subscript tick "side" in
  Ok (PDict [("trade_id", PInt trade_id);
             ("price", PFloat price);
             ("qty", PFloat qty);
             ("timestamp", PFloat timestamp);
             ("is_buyer_maker", PBool (eq_str side "Sell"))]).

(** [Bybit.public_get] (lines 153-156) *)
Definition public_get (self : Bybit) (url : string) (params : dict pyval) : M pyval :=
  request "get" (base_endpoint self ++ url) params.

(** The loop of lines 161-165 at one key. *)
Definition coerce_key (params : dict pyval) (k : string) : dict pyval :=
  match dict_get params k with
  | Some (PBool b) => dict_set params k (PStr (if b then "true" else "false"))
  | Some (PFloat f) => dict_set params k (PStr (float_str f))
  | _ => params
  end.

(** Lines 160-168 of [Bybit.private_]: what the call does to the
    caller's [params] dict, given the timestamp read at line 159. *)
Definition sign_params (self : Bybit) (timestamp : Z) (params : dict pyval) : dict pyval :=
  let params := dict_update params [("api_key", PStr (key self));
                                    ("timestamp", PInt timestamp)] in
  let params := fold_left coerce_key (dict_keys params) params in
  dict_set params "sign"
    (PStr (hmac_sha256_hexdigest (secret self) (urlencode (sort_dict_keys params)))).

(** [Bybit.private_] (lines 158-171) *)
Definition private_ (self : Bybit) (type_ url : string) (params : dict pyval) : M pyval :=
  timestamp <- time_ms ;;
  request type_ (base_endpoint self ++ url) (sign_params self timestamp params).

(** [Bybit.private_get] and [Bybit.private_post] (lines 173-177) *)
Definition private_get (self : Bybit) (url : string) (params : dict pyval) : M pyval :=
  private_ self "get" url params.

Definition private_post (self : Bybit) (url : string) (params : dict pyval) : M pyval :=
  private_ self "post" url params.

(** The zero-size side of line 198 and line 200. *)
Definition placeholder : pyval :=
  PDict [("size", PFloat fzero); ("entry_price", PFloat fzero);
         ("leverage", PFloat fzero); ("liq_price", PFloat fzero)].

(** [[e for e in result if e['side'] == text][0]] (lines 186-187) *)
Definition first_with_side (text : string) (result : pyval) : outcome pyval :=
  let? es := iterate result in
  let? found :=
    ofilter_map (fun e => let? s := subscript e "side" in Ok (eq_str s text))
                (fun e => Ok e) es in
  first found.

(** [[e['data'] for e in result if e['data']['position_idx'] == idx][0]]
    (lines 203-204) *)
Definition first_with_index (idx : Z) (result : pyval) : outcome pyval :=
  let? es := iterate result in
  let? found :=
    ofilter_map (fun e => let? d := subscript e "data" in
                          let? i := subscript d "position_idx" in
                          Ok (eq_int i idx))
                (fun e => subscript e "data") es in
  first found.

(** [float(bal['result'][currency]['wallet_balance'])] (lines 188, 194) *)
Definition wallet_of (bal : pyval) (currency : string) : outcome float :=
  let? r := subscript bal "result" in
  let? c := subscript r currency in
  let? wb := subscript c "wallet_balance" in
  py_float wb.

(** [float(pos[k])] *)
Definition field_float (pos : pyval) (k : string) : outcome float :=
  let? v := subscript pos k in
  py_float v.

(** [calc(price, self.price, size, self.xk['inverse'],
    self.xk['contract_multiplier']) if price != 0.0 else 0.0]
    (lines 214-221) *)
Definition side_upnl (calc : float -> float -> float -> pyval -> pyval -> outcome float)
  (self : Bybit) (entry sz : float) : outcome float :=
  if negb (feqb entry fzero) then
    let? inv := lookup (xk self) "inverse" in
    let? cm := lookup (xk self) "contract_multiplier" in
    calc entry (price self) sz inv cm
  else Ok fzero.

(** Lines 206-224 of [Bybit.fetch_position]: the position built from the
    wallet balance and the two raw sides. *)
Definition build_position (self : Bybit) (wb : float) (long_pos shrt_pos : pyval)
  : outcome Position :=
  let? lsize := field_float long_pos "size" in
  let? lprice := field_float long_pos "entry_price" in
  let? llev := field_float long_pos "leverage" in
  let? lliq := field_float long_pos "liq_price" in
  let? ssize := field_float shrt_pos "size" in
  let? sprice := field_float shrt_pos "entry_price" in
  let? slev := field_float shrt_pos "leverage" in
  let? sliq := field_float shrt_pos "liq_price" in
  let? lupnl := side_upnl calc_long_pnl self lprice lsize in
  let? supnl := side_upnl calc_shrt_pnl self sprice (fneg ssize) in
  let total := fadd lupnl supnl in
  Ok {| wallet_balance := wb;
        long := {| size := lsize; entry_price := lprice; leverage := llev;
                   liquidation_price := lliq; upnl := lupnl |};
        shrt := {| size := fneg ssize; entry_price := sprice; leverage := slev;
                   liquidation_price := sliq; upnl := supnl |};
        equity := fadd wb total |}.

(** Lines 186-188 and 194-204: the wallet balance and the raw long and
    short records, read in the order of the source. *)
Definition raw_sides (self : Bybit) (fetched bal : pyval)
  : outcome (float * pyval * pyval) :=
  if String.eqb (market_type self) "linear_perpetual" then
    let? r := subscript fetched "result" in
    let? long_pos := first_with_side "Buy" r in
    let? r := subscript fetched "result" in
    let? shrt_pos := first_with_side "Sell" r in
    let? wb := wallet_of bal (quot self) in
    Ok (wb, long_pos, shrt_pos)
  else
    let? wb := wallet_of bal (coin self) in
    if String.eqb (market_type self) "inverse_perpetual" then
      let? r := subscript fetched "result" in
      let? side := subscript r "side" in
      if eq_str side "Buy" then
        let? long_pos := subscript fetched "result" in
        Ok (wb, long_pos, placeholder)
      else
        let? shrt_pos := subscript fetched "result" in
        Ok (wb, placeholder, shrt_pos)
    else if String.eqb (market_type self) "inverse_futures" then
      let? r := subscript fetched "result" in
      let? long_pos := first_with_index 1 r in
      let? r := subscript fetched "result" in
      let? shrt_pos := first_with_index 2 r in
      Ok (wb, long_pos, shrt_pos)
    else Raise UnboundLocalError.

(** The currency of the balance request: [self.quot] on line 184,
    [self.coin] on line 192. *)
Definition balance_currency (self : Bybit) : string :=
  if String.eqb (market_type self) "linear_perpetual" then quot self else coin self.

(** [Bybit.fetch_position] (lines 179-224) *)
Definition fetch_position (self : Bybit) : M Position :=
  url_p <- lift (lookup (endpoints self) "position") ;;
  url_b <- lift (lookup (endpoints self) "balance") ;;
  fb <- gather (private_get self url_p [("symbol", PStr (symbol self))])
               (private_get self url_b [("coin", PStr (balance_currency self))]) ;;
  lift (let? sides := raw_sides self (fst fb) (snd fb) in
        let '(wb, long_pos, shrt_pos) := sides in
        build_position self wb long_pos shrt_pos).

(** [Bybit.execute_cancellation] (lines 257-262) *)
Definition execute_cancellation (self : Bybit) (order : pyval) : M pyval :=
  url <- lift (lookup (endpoints self) "cancel_order") ;;
  id <- lift (subscript order "order_id") ;;
  o <- private_post self url [("symbol", PStr (symbol self)); ("order_id", id)] ;;
  lift (let? side := subscript order "side" in
        let? position_side := subscript order "position_side" in
        let? qty := subscript order "qty" in
        let? price := subscript order "price" in
        Ok (PDict [("symbol", PStr (symbol self));
                   ("side", side);
                   ("position_side", position_side);
                   ("qty", qty);
                   ("price", price)])).

(** Lines 274-277 of [Bybit.fetch_ticks]: the body of the second [try]. *)
Definition format_and_report (self : Bybit) (do_print : bool) (ticks : pyval)
  : M (list pyval) :=
  trades <- lift (let? r := subscript ticks "result" in
                  let? records := iterate r in
                  omap format_tick records) ;;
  (if do_print then
     t0 <- lift (first trades) ;;
     id <- lift (subscript t0 "trade_id") ;;
     t1 <- lift (first trades) ;;
     ts <- lift (subscript t1 "timestamp") ;;
     f <- lift (py_float ts) ;;
     date <- lift (ts_to_date (fdiv f (float_of_Z 1000))) ;;
     print (Printed_ [Val (PStr "fetched trades"); Val (PStr (symbol self));
                      Val id; Val (PStr date)])
   else ret tt) ;;
  ret trades.

(** Lines 265-267 of [Bybit.fetch_ticks]; [from_id] is [None] or an int. *)
Definition ticks_params (self : Bybit) (from_id : option Z) : dict pyval :=
  let params := [("symbol", PStr (symbol self)); ("limit", PInt 1000)] in
  match from_id with
  | Some n => dict_set params "from" (PInt (Z.max 0 n))
  | None => params
  end.

(** [Bybit.fetch_ticks] (lines 264-282) *)
Definition fetch_ticks (self : Bybit) (from_id : option Z) (do_print : bool)
  : M (list pyval) :=
  let params := ticks_params self from_id in
  fun w =>
    match (url <- lift (lookup (endpoints self) "ticks") ;;
           public_get self url params) w with
    | (Raise e, w1) =>
        (print (Printed [Val (PStr "error fetching ticks"); Exn e]) ;; ret []) w1
    | (RaiseBase b, w1) => (RaiseBase b, w1)
    | (Ok ticks, w1) =>
        try_except_all
          (format_and_report self do_print ticks)
          ((if do_print then
              print (Printed_ [Val (PStr "fetched no new trades");
                               Val (PStr (symbol self))])
            else ret tt) ;;
           ret [])
          w1
    end.

(** The body of the [try] of line 323. *)
Definition websocket_tick (e : pyval) : outcome pyval :=
  let? p := subscript e "price" in
  let? price := py_float p in
  let? s := subscript e "size" in
  let? qty := py_float s in
  let? side := subscript e "side" in
  Ok (PDict [("price", PFloat price);
             ("qty", PFloat qty);
             ("is_buyer_maker", PBool (eq_str side "Sell"))]).

(** The loop of lines 321-325, with the list built so far. *)
Fixpoint websocket_loop (es : list pyval) (ticks : list pyval) : M (list pyval) :=
  match es with
  | [] => ret ticks
  | e :: es' =>
      match websocket_tick e with
      | Ok t => websocket_loop es' (ticks ++ [t])
      | Raise ex =>
          print (Printed [Val (PStr "error in websocket tick"); Val e; Exn ex]) ;;
          websocket_loop es' ticks
      | RaiseBase b => lift (RaiseBase b)
      end
  end.

(** [Bybit.standardize_websocket_ticks] (lines 319-326) *)
Definition standardize_websocket_ticks (data : pyval) : M (list pyval) :=
  es <- lift (let? d := subscript data "data" in iterate d) ;;
  websocket_loop es [].

End Adapter.

(* ================================================================= *)
(** ** Reference collaborators and sample data

    One concrete instance of [Externals], used where a statement is
    evaluated on explicit inputs.  The general theorems hold for every
    instance. *)

(** The decimal number written in [len] characters of [s] from [start]. *)
Definition number_at (s : string) (start len : nat) : option Z :=
  let cs := list_ascii_of_string (substring start len s) in
  if forallb is_digit cs && Nat.eqb (List.length cs) len
  then Some (fold_left (fun acc c => 10 * acc + digit_value c) cs 0)
  else None.

(** Days from 1970-01-01 to a date of the proleptic Gregorian calendar. *)
Definition days_from_civil (y m d : Z) : Z :=
  let y' := if m <=? 2 then y - 1 else y in
  let era := y' / 400 in
  let yoe := y' - era * 400 in
  let doy := (153 * (if 2 <? m then m - 3 else m + 9) + 2) / 5 + d - 1 in
  let doe := yoe * 365 + yoe / 4 - yoe / 100 + doy in
  era * 146097 + doe - 719468.

(** The date parser on the UTC form [YYYY-MM-DDTHH:MM:SSZ], the form of
    Bybit's trade records; any other text is refused. *)
Definition iso_timestamp (date : pyval) : outcome float :=
  match date with
  | PStr s =>
      match number_at s 0 4, number_at s 5 2, number_at s 8 2,
            number_at s 11 2, number_at s 14 2, number_at s 17 2 with
      | Some y, Some mo, Some d, Some h, Some mi, Some sec =>
          if String.eqb (substring 4 1 s) "-" && String.eqb (substring 7 1 s) "-"
             && String.eqb (substring 10 1 s) "T" && String.eqb (substring 13 1 s) ":"
             && String.eqb (substring 16 1 s) ":" && String.eqb (substring 19 2 s) "Z"
          then Ok (float_of_Z (days_from_civil y mo d * 86400 + h * 3600 + mi * 60 + sec))
          else Raise (External "ParserError")
      | _, _, _, _, _, _ => Raise (External "ParserError")
      end
  | _ => Raise TypeError
  end.

(** Truth value of a Python value in [if inverse:]. *)
Definition truthy (v : pyval) : bool :=
  match v with
  | PNone => false
  | PBool b => b
  | PInt z => negb (Z.eqb z 0)
  | PFloat f => negb (feqb f fzero)
  | PStr s => negb (String.eqb s "")
  | PList l => negb (Nat.eqb (List.length l) 0)
  | PDict d => negb (Nat.eqb (List.length d) 0)
  end.

(** A pnl function in the shape of passivbot's: linear contracts earn
    [|qty| * (close - entry)], inverse ones
    [|qty| * c_mult * (1 / entry - 1 / close)]; [dir] is [false] for the
    long side and [true] for the short side, which earns the opposite. *)
Definition sample_pnl (dir : bool) (entry close qty : float) (inv c_mult : pyval)
  : outcome float :=
  let sub := SFsub prec emax in
  let one := float_of_Z 1 in
  if truthy inv then
    let? cm := py_float c_mult in
    if feqb entry fzero || feqb close fzero then Ok fzero
    else
      let d := sub (fdiv one entry) (fdiv one close) in
      Ok (fmul (fmul (SFabs qty) cm) (if dir then fneg d else d))
  else
    let d := sub close entry in
    Ok (fmul (SFabs qty) (if dir then fneg d else d)).

Fixpoint strip_zeros (cs : list ascii) : list ascii :=
  match cs with
  | c :: cs' => if Ascii.eqb c "0" then strip_zeros cs' else cs
  | [] => []
  end.

(** The exact decimal expansion of a finite float, with [.0] after an
    integral value: Python's [str] on the floats whose exact expansion is
    also their shortest one and that need no exponent. *)
Definition sample_float_str (f : float) : string :=
  match f with
  | S754_nan => "nan"
  | S754_infinity s => if s then "-inf" else "inf"
  | S754_zero s => if s then "-0.0" else "0.0"
  | S754_finite s m e =>
      let sign := if s then "-" else "" in
      if 0 <=? e then (sign ++ str_of_Z (Zpos m * 2 ^ e) ++ ".0")%string
      else
        let k := - e in
        let ip := Zpos m / 2 ^ k in
        let frac := (Zpos m mod 2 ^ k) * 5 ^ k in
        let digits := rev (strip_zeros (rev (tl (list_ascii_of_string (str_of_Z (10 ^ k + frac)))))) in
        (sign ++ str_of_Z ip ++ "." ++
         match digits with [] => "0" | _ => string_of_list_ascii digits end)%string
  end.

(** The whole seconds of a timestamp as text; [nan] and the infinities are
    refused, as [datetime.fromtimestamp] refuses them. *)
Definition sample_ts_to_date (f : float) : outcome string :=
  let? z := int_of_float f in
  Ok (str_of_Z z).

(** The reference instance over a given transport. *)
Definition sample_externals
  (transport : nat -> string -> string -> dict pyval -> outcome pyval) : Externals :=
  {| now_ms := fun n => 1609459200000 + Z.of_nat n;
     http := transport;
     parse_timestamp := iso_timestamp;
     ts_to_date := sample_ts_to_date;
     calc_long_pnl := sample_pnl false;
     calc_shrt_pnl := sample_pnl true;
     float_str := sample_float_str;
     container_str := fun _ => "";
     settles_first := fun _ => true |}.

Definition world0 : world := {| stdout := []; clock_reads := 0; requests := 0 |}.

(** A bot before [init_market_type], for a given symbol. *)
Definition sample_bot (sym : string) : Bybit :=
  {| symbol := sym; key := "KEY"; secret := "SECRET";
     coin := "BTC"; quot := "USDT";
     price := float_of_Z 40000;
     xk := [("inverse", PBool true); ("contract_multiplier", PFloat (float_of_Z 1))];
     config := [];
     inverse := false;
     hedge_mode := true;
     base_endpoint := "https://api.bybit.com";
     endpoints := [];
     market_type := "" |}.

(** A resting order as [fetch_open_orders] reads it from the vendor. *)
Definition sample_order : pyval :=
  PDict [("order_id", PStr "a1b2"); ("order_link_id", PStr "entry_4567_89");
         ("symbol", PStr "BTCUSDT"); ("price", PFloat (float_of_Z 39000));
         ("qty", PFloat (float_of_Z 2)); ("side", PStr "Buy");
         ("position_side", PStr "long")].

(** Bybit's answer to the cancellation of an order that was already
    filled or cancelled. *)
Definition order_not_found : pyval :=
  PDict [("ret_code", PInt 20001);
         ("ret_msg", PStr "order not exists or too late to cancel");
         ("ext_code", PStr "");
         ("result", PNone)].

(** A transport that answers every request with the same payload. *)
Definition always (answer : outcome pyval)
  : nat -> string -> string -> dict pyval -> outcome pyval :=
  fun _ _ _ _ => answer.

(** The records of a WebSocket message that normalize, normalized, in
    the order of arrival. *)
Fixpoint websocket_normalized (es : list pyval) : list pyval :=
  match es with
  | [] => []
  | e :: es' =>
      match websocket_tick e with
      | Ok t => t :: websocket_normalized es'
      | _ => websocket_normalized es'
      end
  end.

(** The error lines the loop prints, one per record that does not
    normalize. *)
Fixpoint websocket_errors (es : list pyval) : list line :=
  match es with
  | [] => []
  | e :: es' =>
      match websocket_tick e with
      | Ok _ => websocket_errors es'
      | Raise ex =>
          Printed [Val (PStr "error in websocket tick"); Val e; Exn ex]
          :: websocket_errors es'
      | RaiseBase _ => websocket_errors es'
      end
  end.

(** A WebSocket trade record is well formed when its price and size
    convert with [float] and it has a side. *)
Definition ws_well_formed (e : pyval) : Prop :=
  exists price qty side,
    field_float e "price" = Ok price /\
    field_float e "size" = Ok qty /\
    subscript e "side" = Ok side.

(** What the WebSocket path makes of a well-formed record: the price,
    the size as [qty], and [is_buyer_maker], true exactly when the side
    is the string "Sell". *)
Definition ws_normal (e t : pyval) : Prop :=
  exists price qty side maker,
    field_float e "price" = Ok price /\
    field_float e "size" = Ok qty /\
    subscript e "side" = Ok side /\
    (maker = true <-> side = PStr "Sell") /\
    t = PDict [("price", PFloat price); ("qty", PFloat qty);
               ("is_buyer_maker", PBool maker)].

(** A trade message of the public WebSocket topic [trade.BTCUSD]. *)
Definition sample_ws_record : pyval :=
  PDict [("timestamp", PStr "2021-01-01T00:00:00.000Z");
         ("trade_time_ms", PInt 1609459200000);
         ("symbol", PStr "BTCUSD");
         ("side", PStr "Sell");
         ("size", PInt 328);
         ("price", PInt 29000);
         ("tick_direction", PStr "MinusTick");
         ("trade_id", PStr "00c706e1-ba52-5bb0-98d0-bf694bdc69f7");
         ("cross_seq", PInt 1052816407)].

Definition sample_ws_message : pyval :=
  PDict [("topic", PStr "trade.BTCUSD"); ("data", PList [sample_ws_record])].

(** The trade record of the spec's example, a record whose price is
    JSON [null], and a REST answer that holds both. *)
Definition sample_trade : pyval :=
  PDict [("id", PInt 42); ("symbol", PStr "BTCUSD"); ("price", PStr "100.5");
         ("qty", PStr "2"); ("side", PStr "Sell");
         ("time", PStr "2021-01-01T00:00:00Z")].

Definition sample_bad_trade : pyval :=
  PDict [("id", PInt 43); ("symbol", PStr "BTCUSD"); ("price", PNone);
         ("qty", PStr "1"); ("side", PStr "Buy");
         ("time", PStr "2021-01-01T00:00:01Z")].

Definition sample_tick : pyval :=
  PDict [("trade_id", PInt 42);
         ("price", PFloat (S754_finite false 7072058789855232 (-46)));
         ("qty", PFloat (float_of_Z 2));
         ("timestamp", PFloat (float_of_Z 1609459200000));
         ("is_buyer_maker", PBool true)].

Definition trades_answer (records : list pyval) : pyval :=
  PDict [("ret_code", PInt 0); ("ret_msg", PStr "OK"); ("result", PList records)].

(** The inverse-perpetual bot on BTCUSD, as [init_market_type] leaves it. *)
Definition btcusd_bot : Bybit :=
  with_market (sample_bot "BTCUSD") "inverse_perpetual" true false
    inverse_perpetual_endpoints.

(** The world after the one request [fetch_ticks] makes, with [out]
    printed. *)
Definition after_fetch (w : world) (out : list line) : world :=
  {| stdout := stdout w ++ out;
     clock_reads := clock_reads w;
     requests := S (requests w) |}.

(** The reference collaborators over a transport that answers with the
    given trade records, and over one whose every request fails. *)
Definition rest_env (records : list pyval) : Externals :=
  sample_externals (always (Ok (trades_answer records))).

Definition offline_env : Externals :=
  sample_externals (always (Raise (External "ClientConnectorError"))).

(** [x] occurs in [v]: it is [v] or an element or a value inside it. *)
Inductive within (x : pyval) : pyval -> Prop :=
| within_here : within x x
| within_list (l : list pyval) (v : pyval) :
    In v l -> within x v -> within x (PList l)
| within_dict (d : list (string * pyval)) (k : string) (v : pyval) :
    In (k, v) d -> within x v -> within x (PDict d).

(** A hedge-mode record carries its position index under [data]. *)
Definition has_index (e : pyval) : Prop :=
  exists d i, subscript e "data" = Ok d /\ subscript d "position_idx" = Ok i.

(** [e['data']['position_idx'] == idx] holds. *)
Definition index_is (idx : Z) (e : pyval) : Prop :=
  exists d i,
    subscript e "data" = Ok d /\ subscript d "position_idx" = Ok i /\
    eq_int i idx = true.

(** The two requests of [fetch_position] in a world [w]: the position
    request is the next request of the session, signed at the next
    reading of the clock; the balance request follows it. *)
Section Requests.

Context {E : Externals}.

Definition position_answer (self : Bybit) (w : world) (url : string) : outcome pyval :=
  http (requests w) "get" (base_endpoint self ++ url)
    (sign_params self (now_ms (clock_reads w)) [("symbol", PStr (symbol self))]).

Definition balance_answer (self : Bybit) (w : world) (url : string) : outcome pyval :=
  http (S (requests w)) "get" (base_endpoint self ++ url)
    (sign_params self (now_ms (S (clock_reads w)))
       [("coin", PStr (balance_currency self))]).

End Requests.

(** A transport that answers the position request with [positions] and
    every other request with [balance]. *)
Definition position_transport (positions balance : pyval)
  : nat -> string -> string -> dict pyval -> outcome pyval :=
  fun _ _ url _ =>
    if endswith url "/position/list" then Ok positions else Ok balance.

Definition wallet_answer (currency balance : string) : pyval :=
  PDict [("ret_code", PInt 0);
         ("result", PDict [(currency, PDict [("equity", PStr balance);
                                            ("wallet_balance", PStr balance)])])].

(** A hedge-mode record of the inverse-futures position list. *)
Definition futures_record (idx : Z) (side : string) (sz : Z) (entry : string) : pyval :=
  PDict [("is_valid", PBool true);
         ("data", PDict [("position_idx", PInt idx); ("symbol", PStr "BTCUSDH21");
                         ("side", PStr side); ("size", PInt sz);
                         ("entry_price", PStr entry); ("leverage", PStr "10");
                         ("liq_price", PStr "25000")])].

Definition futures_answer (records : list pyval) : pyval :=
  PDict [("ret_code", PInt 0); ("result", PList records)].

(** The inverse-futures bot on BTCUSDH21, as [init_market_type] leaves it. *)
Definition futures_bot : Bybit :=
  with_market (sample_bot "BTCUSDH21") "inverse_futures" true true
    inverse_futures_endpoints.

Definition futures_env (records : list pyval) : Externals :=
  sample_externals (position_transport (futures_answer records) (wallet_answer "BTC" "1.5")).



Definition zero_side : SubPosition :=
  {| size := fzero; entry_price := fzero; leverage := fzero;
     liquidation_price := fzero; upnl := fzero |}.

Definition zero_position : Position :=
  {| wallet_balance := fzero; long := zero_side; shrt := zero_side; equity := fzero |}.

(** The placeholder as a short side: its size is negated. *)
Definition zero_shrt_side : SubPosition :=
  {| size := fneg fzero; entry_price := fzero; leverage := fzero;
     liquidation_price := fzero; upnl := fzero |}.

(** [d] is the [data] of the first record of [records] whose position
    index is [idx]. *)
Definition first_of_index (idx : Z) (records : list pyval) (d : pyval) : Prop :=
  exists pre e post,
    records = pre ++ e :: post /\
    ~ Exists (index_is idx) pre /\
    index_is idx e /\
    subscript e "data" = Ok d.

(** The long side of [pos] holds the size, the entry price, the leverage
    and the liquidation price of the record [rec], each converted with
    [float]; the short side holds them with the size negated. *)
Definition long_read_from (rec : pyval) (pos : Position) : Prop :=
  field_float rec "size" = Ok (size (long pos)) /\
  field_float rec "entry_price" = Ok (entry_price (long pos)) /\
  field_float rec "leverage" = Ok (leverage (long pos)) /\
  field_float rec "liq_price" = Ok (liquidation_price (long pos)).

Definition shrt_read_from (rec : pyval) (pos : Position) : Prop :=
  (exists sz, field_float rec "size" = Ok sz /\ size (shrt pos) = fneg sz) /\
  field_float rec "entry_price" = Ok (entry_price (shrt pos)) /\
  field_float rec "leverage" = Ok (leverage (shrt pos)) /\
  field_float rec "liq_price" = Ok (liquidation_price (shrt pos)).

(** The four fields of a raw side all convert with [float]. *)
Definition side_converts (rec : pyval) : Prop :=
  Forall (fun k => is_ok (field_float rec k) = true)
    ["size"; "entry_price"; "leverage"; "liq_price"].

Definition sample_futures_records : list pyval :=
  [futures_record 1 "Buy" 10 "30000"; futures_record 2 "Sell" 4 "0"].

(** The position the inverse-futures bot reads from the sample records:
    10 contracts long from 30000, 4 contracts short with no entry price. *)
Definition sample_position : Position :=
  Eval vm_compute in
    match fst (fetch_position (E := futures_env sample_futures_records)
                 futures_bot world0) with
    | Ok pos => pos
    | _ => zero_position
    end.

(** *** Signing, step by step

    The steps of section 4.2 of the spec, written after its words, to be
    compared with [sign_params], which follows the source. *)
Section SigningSteps.

Context {E : Externals}.

(** A boolean becomes "true" or "false", a float its [str]. *)
Definition coerce (v : pyval) : pyval :=
  match v with
  | PBool b => PStr (if b then "true" else "false")
  | PFloat f => PStr (float_str f)
  | _ => v
  end.

Definition coerce_all (params : dict pyval) : dict pyval :=
  map (fun kv => (fst kv, coerce (snd kv))) params.

(** The text that is signed: the coerced parameters with the api key and
    the timestamp, sorted by key and URL-encoded. *)
Definition signed_text (api_key : string) (timestamp : Z) (params : dict pyval) : string :=
  let injected :=
    dict_set (dict_set params "api_key" (PStr api_key)) "timestamp" (PInt timestamp) in
  urlencode (sort_dict_keys (coerce_all injected)).

Definition signing_steps (api_key secret_key : string) (timestamp : Z)
  (params : dict pyval) : dict pyval :=
  let injected :=
    dict_set (dict_set params "api_key" (PStr api_key)) "timestamp" (PInt timestamp) in
  dict_set (coerce_all injected) "sign"
    (PStr (hmac_sha256_hexdigest secret_key (signed_text api_key timestamp params))).

End SigningSteps.

(** The order of the keys after sorting. *)
Definition key_le (a b : string * pyval) : Prop :=
  String.leb (fst a) (fst b) = true.

(** A value that needs no coercion any more. *)
Definition is_textual (v : pyval) : bool :=
  match v with
  | PBool _ | PFloat _ => false
  | _ => true
  end.

(** The parameters of a create-order call. *)
Definition sample_params : dict pyval :=
  [("symbol", PStr "BTCUSD"); ("side", PStr "Buy"); ("order_type", PStr "Limit");
   ("qty", PFloat (float_of_Z 2)); ("close_on_trigger", PBool false);
   ("position_idx", PInt 0); ("reduce_only", PBool true);
   ("time_in_force", PStr "PostOnly"); ("price", PStr "39000.5")].

(* ================================================================= *)
(** ** The rest of the adapter *)

Definition is_lower_letter (c : ascii) : bool :=
  let n := N_of_ascii c in (97 <=? n)%N && (n <=? 122)%N.

(** [c.upper()] on an ASCII letter; other bytes are kept. *)
Definition upper_char (c : ascii) : ascii :=
  if is_lower_letter c then ascii_of_N (N_of_ascii c - 32) else c.

(** The text is ASCII: on such text the byte-wise [lower] and
    [upper_char] are Python's [str.lower] and [str.upper]. *)
Definition is_ascii (s : string) : Prop :=
  Forall (fun c => (N_of_ascii c < 128)%N) (list_ascii_of_string s).

(** [first_capitalized] (lines 16-17): [s[0].upper() + s[1:].lower()].
    A list has no [lower], a dict with string keys has no key [0] (the
    [KeyError] is written with the text of the key), a number cannot be
    subscripted. *)
Definition first_capitalized (s : pyval) : outcome string :=
  match s with
  | PStr EmptyString => Raise IndexError
  | PStr (String c s') => Ok (String (upper_char c) (lower s'))
  | PList [] => Raise IndexError
  | PList (_ :: _) => Raise AttributeError
  | PDict _ => Raise (KeyError "0")
  | _ => Raise TypeError
  end.

(** [s[n:]] *)
Definition drop (n : nat) (s : string) : string :=
  substring n (String.length s - n) s.

(** What [execute_order] returns: the confirmation dict of line 248, or
    the tuple [(o, order)] of line 255. *)
Inductive order_result : Type :=
| Accepted (confirmation : pyval)
| Rejected (o order : pyval).

Section RestOfAdapter.

Context {E : Externals}.

(** [order['custom_id'] == 'close'] stored under [reduce_only]. *)
Definition with_reduce_only (order : pyval) (params : dict pyval) : outcome (dict pyval) :=
  let? c := subscript order "custom_id" in
  Ok (dict_set params "reduce_only" (PBool (eq_str c "close"))).

(** Lines 227-243 of [Bybit.execute_order]: the parameters before the
    client order id is made. *)
Definition order_params (self : Bybit) (order : pyval) : outcome (dict pyval) :=
  let? s := subscript order "side" in
  let? side := first_capitalized s in
  let? t := subscript order "type" in
  let? order_type := first_capitalized t in
  let? q := subscript order "qty" in
  let? qty :=
    if String.eqb (market_type self) "linear_perpetual"
    then let? f := py_float q in Ok (PFloat f)
    else let? z := py_int q in Ok (PInt z) in
  let params := [("symbol", PStr (symbol self)); ("side", PStr side);
                 ("order_type", PStr order_type); ("qty", qty);
                 ("close_on_trigger", PBool false)] in
  let? params :=
    if hedge_mode self then
      let? ps := subscript order "position_side" in
      let params := dict_set params "position_idx"
                      (PInt (if eq_str ps "long" then 1 else 2)) in
      if String.eqb (market_type self) "linear_perpetual"
      then with_reduce_only order params
      else Ok params
    else
      with_reduce_only order (dict_set params "position_idx" (PInt 0)) in
  let? ot := lookup params "order_type" in
  if eq_str ot "Limit" then
    let params := dict_set params "time_in_force" (PStr "PostOnly") in
    let? p := subscript order "price" in
    Ok (dict_set params "price" (PStr (py_str p)))
  else Ok (dict_set params "time_in_force" (PStr "GoodTillCancel")).

(** The f-string of line 245, given the clock reading and the random
    number: the custom id, the timestamp's text from its ninth character
    on, and [int(random * 1000)]. *)
Definition order_link_id (custom_id : pyval) (timestamp : Z) (random : float)
  : outcome string :=
  let? r := int_of_float (fmul random (float_of_Z 1000)) in
  Ok (py_str custom_id ++ "_" ++ drop 8 (str_of_Z timestamp) ++ "_" ++ str_of_Z r)%string.

(** Lines 248-253: the confirmation read from the vendor's result. *)
Definition confirmation (result order : pyval) : outcome pyval :=
  let? sym := subscript result "symbol" in
  let? s := subscript result "side" in
  let? side := str_lower s in
  let? position_side := subscript order "position_side" in
  let? t := subscript result "order_type" in
  let? type_ := str_lower t in
  let? qty := subscript result "qty" in
  let? price := subscript result "price" in
  Ok (PDict [("symbol", sym); ("side", PStr side);
             ("position_side", position_side); ("type", PStr type_);
             ("qty", qty); ("price", price)]).

(** [Bybit.execute_order] (lines 226-255); [random] is the value
    [np.random.random()] returns in this call. *)
Definition execute_order (self : Bybit) (order : pyval) (random : float)
  : M order_result :=
  params <- lift (order_params self order) ;;
  custom_id <- lift (subscript order "custom_id") ;;
  timestamp <- time_ms ;;
  link <- lift (order_link_id custom_id timestamp random) ;;
  url <- lift (lookup (endpoints self) "create_order") ;;
  o <- private_post self url (dict_set params "order_link_id" (PStr link)) ;;
  result <- lift (subscript o "result") ;;
  if truthy result then
    c <- lift (let? r := subscript o "result" in confirmation r order) ;;
    ret (Accepted c)
  else ret (Rejected o order).

(** The dict of lines 143-150 for one record of the vendor. *)
Definition normalize_order (self : Bybit) (elm : pyval) : outcome pyval :=
  let? order_id := subscript elm "order_id" in
  let? custom_id := subscript elm "order_link_id" in
  let? sym := subscript elm "symbol" in
  let? p := subscript elm "price" in
  let? price := py_float p in
  let? q := subscript elm "qty" in
  let? qty := py_float q in
  let? s := subscript elm "side" in
  let? side := str_lower s in
  let? position_side := determine_pos_side elm in
  let? created_at_key := lookup (endpoints self) "created_at_key" in
  let? created := subscript elm created_at_key in
  let? timestamp := date_to_ts created in
  Ok (PDict [("order_id", order_id); ("custom_id", custom_id); ("symbol", sym);
             ("price", PFloat price); ("qty", PFloat qty); ("side", PStr side);
             ("position_side", PStr position_side);
             ("timestamp", PFloat timestamp)]).

(** [Bybit.fetch_open_orders] (lines 140-151) *)
Definition fetch_open_orders (self : Bybit) : M (list pyval) :=
  url <- lift (lookup (endpoints self) "open_orders") ;;
  fetched <- private_get self url [("symbol", PStr (symbol self))] ;;
  lift (let? r := subscript fetched "result" in
        let? records := iterate r in
        omap (normalize_order self) records).

(** The body of the [try] of [Bybit.init_exchange_config]
    (lines 292-315); without a known market type [res] is unbound at
    line 315. *)
Definition exchange_config_body (self : Bybit) : M unit :=
  if String.eqb (market_type self) "inverse_futures" then
    res <- gather
             (private_post self "/futures/private/position/leverage/save"
                [("symbol", PStr (symbol self)); ("position_idx", PInt 1);
                 ("buy_leverage", PInt 0); ("sell_leverage", PInt 0)])
             (private_post self "/futures/private/position/leverage/save"
                [("symbol", PStr (symbol self)); ("position_idx", PInt 2);
                 ("buy_leverage", PInt 0); ("sell_leverage", PInt 0)]) ;;
    print (Printed [Val (PList [fst res; snd res])]) ;;
    res <- private_post self "/futures/private/position/switch-mode"
             [("symbol", PStr (symbol self)); ("mode", PInt 3)] ;;
    print (Printed [Val res]) ;;
    print (Printed [Val res])
  else if String.eqb (market_type self) "linear_perpetual" then
    res <- private_post self "/private/linear/position/switch-isolated"
             [("symbol", PStr (symbol self)); ("is_isolated", PBool false);
              ("buy_leverage", PInt 0); ("sell_leverage", PInt 0)] ;;
    print (Printed [Val res])
  else if String.eqb (market_type self) "inverse_perpetual" then
    res <- private_post self "/v2/private/position/leverage/save"
             [("symbol", PStr (symbol self)); ("leverage", PInt 0)] ;;
    print (Printed [Val res])
  else lift (Raise UnboundLocalError).

(** [Bybit.init_exchange_config] (lines 290-317) *)
Definition init_exchange_config (self : Bybit) : M unit :=
  try_except (exchange_config_body self) (fun e => print (Printed [Exn e])).

End RestOfAdapter.

(** The module-level functions that share a name with a method. *)
Module Toplevel.

(** [fetch_ticks] of lines 28-41; [cc] is the ccxt client's
    [v2_public_get_trading_records].  [format_tick] stores a float under
    [timestamp], the only value line 40 divides. *)
Definition fetch_ticks {E : Externals} (cc : dict pyval -> M pyval) (sym : string)
  (from_id : option Z) (do_print : bool) : M (list pyval) :=
  let params := [("symbol", PStr sym); ("limit", PInt 1000)] in
  let params :=
    match from_id with
    | Some n => if Z.eqb n 0 then params else dict_set params "from" (PInt (Z.max 0 n))
    | None => params
    end in
  fun w =>
    match cc params w with
    | (Raise e, w1) => (print (Printed [Exn e]) ;; ret []) w1
    | (RaiseBase b, w1) => (RaiseBase b, w1)
    | (Ok fetched_trades, w1) =>
        (trades <- lift (let? r := subscript fetched_trades "result" in
                         let? records := iterate r in
                         omap format_tick records) ;;
         (if do_print then
            t0 <- lift (first trades) ;;
            id <- lift (subscript t0 "trade_id") ;;
            t1 <- lift (first trades) ;;
            ts <- lift (subscript t1 "timestamp") ;;
            ms <- lift (match ts with PFloat f => Ok f | _ => Raise TypeError end) ;;
            date <- lift (ts_to_date (fdiv ms (float_of_Z 1000))) ;;
            print (Printed_ [Val (PStr "fetched trades"); Val (PStr sym);
                             Val id; Val (PStr date)])
          else ret tt) ;;
         ret trades) w1
    end.

End Toplevel.

(** A limit order to open a long position, as the strategy hands it to
    [execute_order]. *)
Definition sample_intent : pyval :=
  PDict [("side", PStr "buy"); ("type", PStr "limit"); ("qty", PFloat (float_of_Z 2));
         ("price", PFloat (float_of_Z 39000)); ("position_side", PStr "long");
         ("custom_id", PStr "entry")].

(** The reference collaborators with a [ts_to_date] that refuses every
    timestamp, as [datetime.fromtimestamp] refuses a date past the year
    9999. *)
Definition undated_env (records : list pyval) : Externals :=
  {| now_ms := fun n => 1609459200000 + Z.of_nat n;
     http := always (Ok (trades_answer records));
     parse_timestamp := iso_timestamp;
     ts_to_date := fun _ => Raise ValueError;
     calc_long_pnl := sample_pnl false;
     calc_shrt_pnl := sample_pnl true;
     float_str := sample_float_str;
     container_str := fun _ => "";
     settles_first := fun _ => true |}.

(** A ccxt client that answers with the given trade records. *)
Definition sample_cc (records : list pyval) : dict pyval -> M pyval :=
  fun _ => ret (trades_answer records).


(** The position list of the inverse-perpetual market: one record,
    with the side of the resting position. *)
Definition perpetual_answer (side : string) (sz : Z) (entry : string) : pyval :=
  PDict [("ret_code", PInt 0);
         ("result", PDict [("symbol", PStr "BTCUSD"); ("side", PStr side);
                           ("size", PInt sz); ("entry_price", PStr entry);
                           ("leverage", PStr "10"); ("liq_price", PStr "25000")])].

Definition perpetual_env (side : string) (sz : Z) (entry : string) : Externals :=
  sample_externals (position_transport (perpetual_answer side sz entry)
                      (wallet_answer "BTC" "1.5")).

(** The reference collaborators over a transport whose position request
    times out and whose other requests are refused; of two requests in
    flight together the second completes first. *)
Definition racing_env : Externals :=
  {| now_ms := fun n => 1609459200000 + Z.of_nat n;
     http := fun _ _ url _ =>
               if endswith url "/position/list"
               then Raise (External "TimeoutError")
               else Raise (External "ClientConnectorError");
     parse_timestamp := iso_timestamp;
     ts_to_date := sample_ts_to_date;
     calc_long_pnl := sample_pnl false;
     calc_shrt_pnl := sample_pnl true;
     float_str := sample_float_str;
     container_str := fun _ => "";
     settles_first := fun _ => false |}.

(** The reference collaborators over a transport whose every request
    meets the cancellation of the task. *)
Definition cancelled_env : Externals :=
  sample_externals (always (RaiseBase CancelledError)).

(** The position of the inverse-perpetual bot when the vendor reports
    10 contracts bought at 30000. *)
Definition sample_long_position : Position :=
  Eval vm_compute in
    match fst (fetch_position (E := perpetual_env "Buy" 10 "30000")
                 btcusd_bot world0) with
    | Ok pos => pos
    | _ => zero_position
    end.

(** The characters [quote_plus] can produce. *)
Definition url_safe (c : ascii) : bool :=
  is_unreserved c || Ascii.eqb c "+" || Ascii.eqb c "%".

(** How often [c] occurs in [s]. *)
Fixpoint count_char (c : ascii) (s : string) : nat :=
  match s with
  | EmptyString => O
  | String c' s' => (if Ascii.eqb c' c then 1 else 0) + count_char c s'
  end.

(** The characters of the suffix of a client order id: digits, a minus
    sign, an underscore. *)
Definition is_suffix_char (c : ascii) : bool :=
  is_digit c || Ascii.eqb c "-" || Ascii.eqb c "_".

Section OrderRequests.

Context {E : Externals}.

(** The answer to the create-order request of [execute_order] in a world
    [w]: the clock is read once for the client order id, then once more
    for the signature. *)
Definition create_order_answer (self : Bybit) (w : world) (url : string)
  (params : dict pyval) : outcome pyval :=
  http (requests w) "post" (base_endpoint self ++ url)
    (sign_params self (now_ms (S (clock_reads w))) params).

(** The answer to the request of [fetch_open_orders]. *)
Definition open_orders_answer (self : Bybit) (w : world) (url : string) : outcome pyval :=
  http (requests w) "get" (base_endpoint self ++ url)
    (sign_params self (now_ms (clock_reads w)) [("symbol", PStr (symbol self))]).

(** The answer to the request of [execute_cancellation]. *)
Definition cancel_answer (self : Bybit) (w : world) (url : string) (id : pyval)
  : outcome pyval :=
  http (requests w) "post" (base_endpoint self ++ url)
    (sign_params self (now_ms (clock_reads w))
       [("symbol", PStr (symbol self)); ("order_id", id)]).

End OrderRequests.

(** The vendor's answers to a create-order request: accepted, and
    refused with a null result. *)
Definition order_accepted : pyval :=
  PDict [("ret_code", PInt 0); ("ret_msg", PStr "OK");
         ("result", PDict [("order_id", PStr "a1b2"); ("symbol", PStr "BTCUSD");
                           ("side", PStr "Buy"); ("order_type", PStr "Limit");
                           ("price", PStr "39000"); ("qty", PInt 2)])].

Definition order_refused : pyval :=
  PDict [("ret_code", PInt 30076); ("ret_msg", PStr "post only order would be taker");
         ("result", PNone)].

(** A resting order as the vendor lists it. *)
Definition vendor_order : pyval :=
  PDict [("order_id", PStr "a1b2"); ("order_link_id", PStr "entry_00123_456");
         ("symbol", PStr "BTCUSD"); ("price", PStr "39000"); ("qty", PInt 2);
         ("side", PStr "Buy"); ("created_at", PStr "2021-01-01T00:00:00Z")].

Definition answer_env (answer : pyval) : Externals :=
  sample_externals (always (Ok answer)).

(** The parameters [execute_order] makes of the sample intent on the
    inverse-perpetual bot, before the client order id. *)
Definition sample_order_params : dict pyval :=
  Eval vm_compute in
    match order_params (E := offline_env) btcusd_bot sample_intent with
    | Ok params => params
    | _ => []
    end.

(** A random number, 0.4567. *)
Definition sample_random : float := float_of_decimal false 4567 (-4).

(** The orders [fetch_open_orders] makes of an answer that lists the
    sample resting order. *)
Definition sample_open_orders : list pyval :=
  Eval vm_compute in
    match fst (fetch_open_orders
                 (E := answer_env (PDict [("ret_code", PInt 0);
                                          ("result", PList [vendor_order])]))
                 btcusd_bot world0) with
    | Ok orders => orders
    | _ => []
    end.

(** A text of which no character occurs in [tag] holds no part of an
    occurrence of [tag]. *)
Definition foreign_to (tag suffix : string) : Prop :=
  forall c, In c (list_ascii_of_string suffix) -> ~ In c (list_ascii_of_string tag).

(* ================================================================= *)
(** * Properties *)

Unset Implicit Arguments.

(* ----------------------------------------------------------------- *)
(** ** What raises inside [Exception] only

    Subscripting and the conversion [float] raise subclasses of
    [Exception]; only a collaborator can raise outside it. *)

Lemma of_option_inside {A : Type} (e : exn) (x : option A) (b : base_exn) :
  of_option e x <> RaiseBase b.
Proof.
  destruct x; discriminate.
Qed.

Lemma subscript_inside (v : pyval) (k : string) (b : base_exn) :
  subscript v k <> RaiseBase b.
Proof.
  destruct v; cbn [subscript]; try discriminate. apply of_option_inside.
Qed.

Lemma py_float_inside (v : pyval) (b : base_exn) : py_float v <> RaiseBase b.
Proof.
  destruct v as [| | z | | s | |]; cbn [py_float]; try discriminate.
  - destruct (float_of_Z z); discriminate.
  - apply of_option_inside.
Qed.

Lemma obind_inside {A B : Type} (x : outcome A) (f : A -> outcome B) (b : base_exn) :
  x <> RaiseBase b -> (forall a, f a <> RaiseBase b) -> obind x f <> RaiseBase b.
Proof.
  intros Hx Hf. destruct x; cbn [obind]; [apply Hf|discriminate|congruence].
Qed.

Lemma websocket_tick_inside (e : pyval) (b : base_exn) :
  websocket_tick e <> RaiseBase b.
Proof.
  unfold websocket_tick.
  repeat (apply obind_inside;
          [first [apply subscript_inside | apply py_float_inside]|intros ?]).
  discriminate.
Qed.

(* ----------------------------------------------------------------- *)
(** ** Strings *)

Lemma substring_skip (p s : string) (m : nat) :
  substring (String.length p) m (p ++ s)%string = substring 0 m s.
Proof.
  induction p as [|c p IH]; simpl; auto.
Qed.

Lemma substring_whole (s : string) : substring 0 (String.length s) s = s.
Proof.
  induction s as [|c s IH]; simpl; congruence.
Qed.

Lemma length_append (p s : string) :
  String.length (p ++ s)%string = (String.length p + String.length s)%nat.
Proof.
  induction p as [|c p IH]; simpl; auto.
Qed.

Lemma split_at (k : nat) : forall s : string,
  (k <= String.length s)%nat ->
  exists p, s = (p ++ substring k (String.length s - k) s)%string.
Proof.
  induction k as [|k IH]; intros s Hk.
  - exists EmptyString. simpl. rewrite Nat.sub_0_r, substring_whole. reflexivity.
  - destruct s as [|c s]; simpl in Hk; [lia|].
    destruct (IH s) as [p Hp]; [lia|].
    exists (String c p). simpl. congruence.
Qed.

Lemma endswith_spec (s suffix : string) :
  endswith s suffix = true <-> ends_with s suffix.
Proof.
  unfold endswith, ends_with. split.
  - destruct (Nat.leb_spec (String.length suffix) (String.length s)) as [Hle|]; [|discriminate..].
    intros H. apply String.eqb_eq in H.
    destruct (split_at (String.length s - String.length suffix)%nat s) as [p Hp]; [lia|].
    exists p.
    replace (String.length s - (String.length s - String.length suffix))%nat
      with (String.length suffix) in Hp by lia.
    congruence.
  - intros [p ->]. rewrite length_append.
    destruct (Nat.leb_spec (String.length suffix) (String.length p + String.length suffix)); [|lia].
    replace (String.length p + String.length suffix - String.length suffix)%nat
      with (String.length p) by lia.
    rewrite substring_skip, substring_whole. apply String.eqb_refl.
Qed.

Lemma prefix_spec (sub : string) : forall s : string,
  prefix sub s = true <-> exists b, s = (sub ++ b)%string.
Proof.
  induction sub as [|c sub IH]; intros s.
  - split; [intros _; exists s; reflexivity | intros _; destruct s; reflexivity].
  - destruct s as [|c' s]; simpl.
    + split; [discriminate | intros [b Hb]; discriminate].
    + destruct (ascii_dec c c') as [Heq|Hne].
      * subst c'. rewrite IH. split; intros [b Hb]; exists b; congruence.
      * split; [discriminate | intros [b Hb]; congruence].
Qed.

Lemma contains_spec (sub : string) : forall s : string,
  contains sub s = true <-> has_substring sub s.
Proof.
  unfold has_substring.
  induction s as [|c s IH]; cbn [contains]; rewrite orb_true_iff, prefix_spec.
  - split.
    + intros [[b Hb]|H]; [|discriminate..]. exists EmptyString, b. exact Hb.
    + intros [a [b H]]. left. destruct a; [exists b; exact H|discriminate].
  - rewrite IH. split.
    + intros [[b Hb]|[a [b H]]].
      * exists EmptyString, b. exact Hb.
      * exists (String c a), b. simpl. congruence.
    + intros [a [b H]]. destruct a as [|c' a].
      * left. exists b. exact H.
      * right. exists a, b. simpl in H. congruence.
Qed.

Lemma contains_false (sub s : string) :
  contains sub s = false <-> ~ has_substring sub s.
Proof.
  rewrite <- contains_spec. destruct (contains sub s); split; congruence.
Qed.

Lemma contains_reflect (sub s : string) :
  reflect (has_substring sub s) (contains sub s).
Proof.
  destruct (contains sub s) eqn:H; constructor.
  - apply contains_spec, H.
  - apply contains_false, H.
Qed.

(** A text ends with at most one of two suffixes that end differently. *)
Lemma usdt_not_usd (s : string) :
  ends_with s "USDT" -> ends_with s "USD" -> False.
Proof.
  intros H1 H2. apply endswith_spec in H1, H2. unfold endswith in *.
  destruct (Nat.leb_spec (String.length "USDT") (String.length s)) as [H4|]; [|discriminate..].
  destruct (Nat.leb_spec (String.length "USD") (String.length s)) as [H3|]; [|discriminate..].
  apply String.eqb_eq in H1, H2. simpl in *.
  destruct (split_at (String.length s - 4)%nat s) as [p Hp]; [lia|].
  replace (String.length s - (String.length s - 4))%nat with 4%nat in Hp by lia.
  rewrite H1 in Hp.
  assert (Hlen : (String.length s - 3 = String.length (p ++ "U"))%nat).
  { rewrite Hp at 1. rewrite !length_append. simpl. lia. }
  assert (Hs : s = ((p ++ "U") ++ "SDT")%string).
  { rewrite Hp at 1. clear. induction p; simpl; congruence. }
  rewrite Hlen in H2. rewrite Hs in H2.
  rewrite substring_skip in H2. discriminate.
Qed.

(* ----------------------------------------------------------------- *)
(** ** Market type *)

(** C7.  [init_market_type] always returns, and the market type it
    assigns is [linear_perpetual] exactly when the symbol ends with
    "USDT", [inverse_perpetual] exactly when it ends with "USD" and not
    with "USDT", and [inverse_futures] exactly in the remaining case. *)
Theorem init_market_type_by_suffix (self : Bybit) (w : world) :
  exists (m : MarketType) (self' : Bybit) (w' : world),
    init_market_type self w = (Ok self', w') /\
    market_type self' = market_type_name m /\
    (m = LinearPerpetual <-> ends_with (symbol self) "USDT") /\
    (m = InversePerpetual <->
       ends_with (symbol self) "USD" /\ ~ ends_with (symbol self) "USDT") /\
    (m = InverseFutures <->
       ~ ends_with (symbol self) "USDT" /\ ~ ends_with (symbol self) "USD").
Proof.
  unfold init_market_type.
  destruct (endswith (symbol self) "USDT") eqn:H4.
  - apply endswith_spec in H4.
    exists LinearPerpetual. eexists. eexists. split; [reflexivity|].
    split; [reflexivity|].
    repeat split; try discriminate; tauto.
  - assert (N4 : ~ ends_with (symbol self) "USDT").
    { rewrite <- endswith_spec. congruence. }
    destruct (endswith (symbol self) "USD") eqn:H3.
    + apply endswith_spec in H3.
      exists InversePerpetual. eexists. eexists. split; [reflexivity|].
      split; [reflexivity|].
      repeat split; try discriminate; tauto.
    + assert (N3 : ~ ends_with (symbol self) "USD").
      { rewrite <- endswith_spec. congruence. }
      exists InverseFutures. eexists. eexists. split; [reflexivity|].
      split; [reflexivity|].
      repeat split; try discriminate; tauto.
Qed.

(* ----------------------------------------------------------------- *)
(** ** Position side of a resting order *)

(** C6.  For an order whose side and custom id are strings, the position
    side follows the table over the lower-cased side and the tag found in
    the custom id: buy with "entry" gives long, buy with "close" gives
    shrt (short), sell with "entry" gives shrt, sell with "close" gives
    long; with neither tag the result is the sentinel "unknown" for a buy
    and "both" otherwise; no exception is raised. *)
Theorem determine_pos_side_table (d : dict pyval) (side id : string) :
  dict_get d "side" = Some (PStr side) ->
  dict_get d "order_link_id" = Some (PStr id) ->
  let r := determine_pos_side (PDict d) in
  (lower side = "buy" -> has_substring "entry" id -> r = Ok "long") /\
  (lower side = "buy" -> ~ has_substring "entry" id -> has_substring "close" id ->
   r = Ok "shrt") /\
  (lower side = "sell" -> has_substring "entry" id -> r = Ok "shrt") /\
  (lower side = "sell" -> ~ has_substring "entry" id -> has_substring "close" id ->
   r = Ok "long") /\
  (~ has_substring "entry" id -> ~ has_substring "close" id ->
   r = Ok (if String.eqb (lower side) "buy" then "unknown" else "both")) /\
  (exists position_side, r = Ok position_side).
Proof.
  intros Hside Hid r. subst r.
  unfold determine_pos_side, subscript, of_option.
  rewrite Hside, Hid. cbn [obind str_lower str_in].
  destruct (contains_reflect "entry" id) as [He|He];
    destruct (contains_reflect "close" id) as [Hc|Hc];
    destruct (String.eqb_spec (lower side) "buy") as [Hb|Hb];
    cbn [obind];
    repeat split; intros; try reflexivity; try tauto; try congruence;
    try (eexists; reflexivity).
Qed.

(** The table at the sample order: a "Buy" with an "entry" tag is long. *)
Lemma determine_pos_side_table_witness :
  determine_pos_side sample_order = Ok "long".
Proof.
  refine (proj1 (determine_pos_side_table
                   [("order_id", PStr "a1b2"); ("order_link_id", PStr "entry_4567_89");
                    ("symbol", PStr "BTCUSDT"); ("price", PFloat (float_of_Z 39000));
                    ("qty", PFloat (float_of_Z 2)); ("side", PStr "Buy");
                    ("position_side", PStr "long")]
                   "Buy" "entry_4567_89" eq_refl eq_refl) eq_refl _).
  exists "", "_4567_89". reflexivity.
Defined.

(* ----------------------------------------------------------------- *)
(** ** Cancellation *)

Section Cancellation.

Context {E : Externals}.

(** C10.  Whatever the vendor answers to the cancel request, and so also
    when it reports that the order was not found, [execute_cancellation]
    returns the record built from the bot's symbol and the order's side,
    position side, quantity and price. *)
Theorem execute_cancellation_any_report
  (self : Bybit) (d : dict pyval) (w : world) (url : string)
  (id side position_side qty price report : pyval) :
  dict_get (endpoints self) "cancel_order" = Some url ->
  dict_get d "order_id" = Some id ->
  dict_get d "side" = Some side ->
  dict_get d "position_side" = Some position_side ->
  dict_get d "qty" = Some qty ->
  dict_get d "price" = Some price ->
  http (requests w) "post" (base_endpoint self ++ url)
       (sign_params self (now_ms (clock_reads w))
          [("symbol", PStr (symbol self)); ("order_id", id)]) = Ok report ->
  fst (execute_cancellation self (PDict d) w) =
  Ok (PDict [("symbol", PStr (symbol self)); ("side", side);
             ("position_side", position_side); ("qty", qty); ("price", price)]).
Proof.
  intros Hurl Hid Hside Hps Hqty Hprice Hreport.
  unfold execute_cancellation, private_post, private_, request, time_ms,
    bind, lift, lookup, subscript, of_option.
  rewrite Hurl, Hid. cbn [requests clock_reads stdout].
  rewrite Hreport, Hside, Hps, Hqty, Hprice. reflexivity.
Qed.

End Cancellation.

(** The sample order cancelled on the inverse-perpetual endpoints, the
    vendor answering "order not found". *)
Lemma execute_cancellation_any_report_witness :
  fst (execute_cancellation (E := sample_externals (always (Ok order_not_found)))
         (with_market (sample_bot "BTCUSD") "inverse_perpetual" true false
            inverse_perpetual_endpoints)
         sample_order world0) =
  Ok (PDict [("symbol", PStr "BTCUSD"); ("side", PStr "Buy");
             ("position_side", PStr "long"); ("qty", PFloat (float_of_Z 2));
             ("price", PFloat (float_of_Z 39000))]).
Proof.
  exact (execute_cancellation_any_report
           (E := sample_externals (always (Ok order_not_found)))
           (with_market (sample_bot "BTCUSD") "inverse_perpetual" true false
              inverse_perpetual_endpoints)
           [("order_id", PStr "a1b2"); ("order_link_id", PStr "entry_4567_89");
            ("symbol", PStr "BTCUSDT"); ("price", PFloat (float_of_Z 39000));
            ("qty", PFloat (float_of_Z 2)); ("side", PStr "Buy");
            ("position_side", PStr "long")]
           world0 "/v2/private/order/cancel"
           (PStr "a1b2") (PStr "Buy") (PStr "long")
           (PFloat (float_of_Z 2)) (PFloat (float_of_Z 39000)) order_not_found
           eq_refl eq_refl eq_refl eq_refl eq_refl eq_refl eq_refl).
Defined.

(* ----------------------------------------------------------------- *)
(** ** WebSocket ticks *)

Lemma eq_str_spec (v : pyval) (text : string) :
  eq_str v text = true <-> v = PStr text.
Proof.
  destruct v; cbn [eq_str]; try (split; discriminate).
  rewrite String.eqb_eq. split; congruence.
Qed.

Lemma websocket_tick_normal (e t : pyval) :
  websocket_tick e = Ok t <-> ws_normal e t.
Proof.
  unfold websocket_tick, ws_normal, field_float. split.
  - destruct (subscript e "price") as [p| |]; cbn [obind]; [|discriminate..].
    destruct (py_float p) as [price| |]; cbn [obind]; [|discriminate..].
    destruct (subscript e "size") as [q| |]; cbn [obind]; [|discriminate..].
    destruct (py_float q) as [qty| |]; cbn [obind]; [|discriminate..].
    destruct (subscript e "side") as [side| |]; cbn [obind]; [|discriminate..].
    intros H. exists price, qty, side, (eq_str side "Sell").
    repeat split; try congruence; apply eq_str_spec.
  - intros (price & qty & side & maker & Hp & Hq & Hs & Hm & ->).
    destruct (subscript e "price") as [p| |]; cbn [obind] in *; [|discriminate..].
    rewrite Hp. cbn [obind].
    destruct (subscript e "size") as [q| |]; cbn [obind] in *; [|discriminate..].
    rewrite Hq. cbn [obind]. rewrite Hs. cbn [obind].
    rewrite <- eq_str_spec in Hm.
    destruct maker, (eq_str side "Sell"); try reflexivity;
      destruct Hm as [H1 H2]; try (specialize (H1 eq_refl)); try (specialize (H2 eq_refl));
      discriminate.
Qed.

Lemma ws_well_formed_normal (e : pyval) :
  ws_well_formed e <-> exists t, ws_normal e t.
Proof.
  unfold ws_well_formed, ws_normal. split.
  - intros (price & qty & side & H). eexists.
    exists price, qty, side, (eq_str side "Sell").
    repeat split; try apply H; apply eq_str_spec.
  - intros (t & price & qty & side & maker & Hp & Hq & Hs & _). exists price, qty, side. auto.
Qed.

(** The loop keeps what normalizes, in order, and prints one line for
    every other record. *)
Lemma websocket_loop_run (es : list pyval) : forall (ticks : list pyval) (w : world),
  websocket_loop es ticks w =
  (Ok (ticks ++ websocket_normalized es),
   {| stdout := stdout w ++ websocket_errors es;
      clock_reads := clock_reads w;
      requests := requests w |}).
Proof.
  induction es as [|e es IH]; intros ticks w; cbn [websocket_loop websocket_normalized websocket_errors].
  - unfold ret. rewrite !app_nil_r. destruct w; reflexivity.
  - destruct (websocket_tick e) as [t|ex|b] eqn:He.
    + rewrite IH, <- app_assoc. reflexivity.
    + unfold bind, print. rewrite IH. cbn [stdout clock_reads requests].
      rewrite <- app_assoc. reflexivity.
    + destruct (websocket_tick_inside e b He).
Qed.

Lemma websocket_normalized_all (es : list pyval) :
  Forall ws_well_formed es -> Forall2 ws_normal es (websocket_normalized es).
Proof.
  induction 1 as [|e es He _ IH]; cbn [websocket_normalized]; [constructor|].
  apply ws_well_formed_normal in He. destruct He as [t Ht].
  pose proof Ht as Hn. apply websocket_tick_normal in Ht. rewrite Ht.
  constructor; assumption.
Qed.

(** C9 (as amended).  For a message whose records are all well formed,
    normalization returns one tick per record, in order, and prints
    nothing; each tick holds exactly the keys [price], [qty] (the
    record's size) and [is_buyer_maker], which is true exactly when the
    side is "Sell": the tick carries neither a trade id nor a timestamp. *)
Theorem standardize_websocket_ticks_fields
  (d : dict pyval) (records : list pyval) (w : world) :
  dict_get d "data" = Some (PList records) ->
  Forall ws_well_formed records ->
  exists ticks,
    standardize_websocket_ticks (PDict d) w = (Ok ticks, w) /\
    Forall2 ws_normal records ticks /\
    Forall (fun t => exists fields,
                t = PDict fields /\
                dict_keys fields = ["price"; "qty"; "is_buyer_maker"] /\
                dict_get fields "trade_id" = None /\
                dict_get fields "timestamp" = None) ticks.
Proof.
  intros Hd Hwf. exists (websocket_normalized records).
  assert (Herr : websocket_errors records = []).
  { clear Hd. induction Hwf as [|e es He _ IH]; [reflexivity|].
    cbn [websocket_errors].
    apply ws_well_formed_normal in He. destruct He as [t Ht].
    apply websocket_tick_normal in Ht. rewrite Ht. exact IH. }
  pose proof (websocket_normalized_all records Hwf) as Hall.
  split; [|split].
  - unfold standardize_websocket_ticks, bind, lift, subscript, of_option.
    rewrite Hd. cbn [obind iterate]. rewrite websocket_loop_run, Herr, app_nil_r.
    destruct w; reflexivity.
  - exact Hall.
  - clear -Hall. induction Hall as [|e t es ts Hn _ IH]; constructor; [|exact IH].
    destruct Hn as (price & qty & side & maker & _ & _ & _ & _ & ->).
    eexists. split; [reflexivity|]. repeat split.
Qed.

(** The sample trade message: one tick, without trade id and timestamp. *)
Lemma standardize_websocket_ticks_fields_witness :
  exists ticks,
    standardize_websocket_ticks sample_ws_message world0 = (Ok ticks, world0) /\
    Forall2 ws_normal [sample_ws_record] ticks /\
    Forall (fun t => exists fields,
                t = PDict fields /\
                dict_keys fields = ["price"; "qty"; "is_buyer_maker"] /\
                dict_get fields "trade_id" = None /\
                dict_get fields "timestamp" = None) ticks.
Proof.
  apply (standardize_websocket_ticks_fields
           [("topic", PStr "trade.BTCUSD"); ("data", PList [sample_ws_record])]
           [sample_ws_record] world0 eq_refl).
  constructor; [|constructor].
  exists (float_of_Z 29000), (float_of_Z 328), (PStr "Sell").
  repeat split.
Defined.

(** The claim as stated fails on the sample trade message: the tick that
    comes out has no [timestamp], although the record carries one. *)
Lemma websocket_tick_without_timestamp :
  fst (standardize_websocket_ticks sample_ws_message world0) =
  Ok [PDict [("price", PFloat (float_of_Z 29000));
             ("qty", PFloat (float_of_Z 328));
             ("is_buyer_maker", PBool true)]] /\
  subscript sample_ws_record "timestamp" = Ok (PStr "2021-01-01T00:00:00.000Z") /\
  subscript (PDict [("price", PFloat (float_of_Z 29000));
                    ("qty", PFloat (float_of_Z 328));
                    ("is_buyer_maker", PBool true)]) "timestamp"
  = Raise (KeyError "timestamp").
Proof.
  repeat split.
Qed.

(* ----------------------------------------------------------------- *)
(** ** REST ticks *)


Lemma omap_forall_ok {A B : Type} (f : A -> outcome B) (xs : list A) :
  Forall (fun x => is_ok (f x) = true) xs ->
  exists ys, omap f xs = Ok ys /\ Forall2 (fun x y => f x = Ok y) xs ys.
Proof.
  induction 1 as [|x xs Hx _ [ys [IH1 IH2]]]; cbn [omap].
  - exists []. split; [reflexivity|constructor].
  - destruct (f x) as [y| |] eqn:Hfx; [|discriminate..].
    exists (y :: ys). rewrite IH1. split; [reflexivity|].
    constructor; assumption.
Qed.

Section RestTicks.

Context {E : Externals}.

Variable self : Bybit.
Variable from_id : option Z.
Variable do_print : bool.
Variable w : world.
Variable url : string.

Hypothesis ticks_endpoint : dict_get (endpoints self) "ticks" = Some url.


(** The transport answers: the result is that of the second [try]. *)
Lemma fetch_ticks_transport_answers (ticks : pyval) :
  http (requests w) "get" (base_endpoint self ++ url) (ticks_params self from_id)
  = Ok ticks ->
  fetch_ticks self from_id do_print w =
  try_except_all (format_and_report self do_print ticks)
    ((if do_print then
        print (Printed_ [Val (PStr "fetched no new trades"); Val (PStr (symbol self))])
      else ret tt) ;;
     ret [])
    (after_fetch w []).
Proof.
  intros Hhttp.
  unfold fetch_ticks, public_get, request, bind at 1, lift, lookup, of_option.
  rewrite ticks_endpoint, Hhttp. unfold after_fetch. rewrite app_nil_r. reflexivity.
Qed.


(** A batch of records that all normalize comes back normalized, record
    by record, when nothing is to be printed. *)
Lemma fetch_ticks_batch_kept (ticks : pyval) (records : list pyval) :
  do_print = false ->
  http (requests w) "get" (base_endpoint self ++ url) (ticks_params self from_id)
  = Ok ticks ->
  subscript ticks "result" = Ok (PList records) ->
  Forall (fun r => is_ok (format_tick r) = true) records ->
  exists trades,
    fetch_ticks self from_id do_print w = (Ok trades, after_fetch w []) /\
    Forall2 (fun r t => format_tick r = Ok t) records trades.
Proof.
  intros Hp Hhttp Hres Hok.
  destruct (omap_forall_ok format_tick records Hok) as [trades [Hmap Hall]].
  exists trades. split; [|exact Hall].
  rewrite (fetch_ticks_transport_answers ticks Hhttp), Hp.
  unfold try_except_all, format_and_report, bind, lift.
  rewrite Hres. cbn [obind iterate]. rewrite Hmap. reflexivity.
Qed.

End RestTicks.

(** C1 (fails on the code).  On the batch made of the spec's example
    record, which normalizes to the example tick, and of one record whose
    price is [null], which does not normalize, [fetch_ticks] returns the
    empty list instead of the one tick: the failure of one record loses
    the whole batch, and with [do_print] the line "fetched no new trades"
    is printed. *)
Theorem fetch_ticks_one_malformed_record :
  format_tick (E := rest_env [sample_trade; sample_bad_trade]) sample_trade
  = Ok sample_tick /\
  format_tick (E := rest_env [sample_trade; sample_bad_trade]) sample_bad_trade
  = Raise TypeError /\
  fst (fetch_ticks (E := rest_env [sample_trade; sample_bad_trade])
         btcusd_bot None false world0) = Ok [] /\
  fetch_ticks (E := rest_env [sample_trade; sample_bad_trade])
    btcusd_bot None true world0 =
  (Ok [], after_fetch world0 [Printed_ [Val (PStr "fetched no new trades");
                                        Val (PStr "BTCUSD")]]) /\
  fst (fetch_ticks (E := rest_env [sample_trade]) btcusd_bot None false world0)
  = Ok [sample_tick].
Proof.
  repeat split; vm_compute; reflexivity.
Qed.




(* ----------------------------------------------------------------- *)
(** ** Positions *)

Lemma within_trans (x y z : pyval) : within x y -> within y z -> within x z.
Proof.
  intros Hxy Hyz. induction Hyz as [|l v Hin _ IH|d k v Hin _ IH].
  - exact Hxy.
  - exact (@within_list x l v Hin IH).
  - exact (@within_dict x d k v Hin IH).
Qed.

Lemma dict_get_In {A : Type} (d : dict A) (k : string) (v : A) :
  dict_get d k = Some v -> In (k, v) d.
Proof.
  induction d as [|[k' v'] d IH]; cbn [dict_get]; [discriminate|].
  destruct (String.eqb_spec k' k) as [->|_].
  - intros [= ->]. left. reflexivity.
  - intros H. right. exact (IH H).
Qed.

Lemma subscript_within (v x : pyval) (k : string) :
  subscript v k = Ok x -> within x v.
Proof.
  destruct v; cbn [subscript]; try discriminate.
  destruct (dict_get d k) as [y|] eqn:Hget; cbn [of_option]; [|discriminate..].
  intros [= ->]. apply dict_get_In in Hget.
  exact (@within_dict x d k x Hget (within_here x)).
Qed.

(** An element of an iteration that can be subscripted is an element of
    a list: the keys of a dict and the characters of a string cannot. *)
Lemma iterate_within (r x y : pyval) (es : list pyval) (k : string) :
  iterate r = Ok es -> In x es -> subscript x k = Ok y -> within x r.
Proof.
  destruct r; cbn [iterate]; try discriminate; intros [= <-] Hin Hsub.
  - apply in_map_iff in Hin. destruct Hin as [c [<- _]]. discriminate.
  - exact (@within_list x l x Hin (within_here x)).
  - apply in_map_iff in Hin. destruct Hin as [c [<- _]]. discriminate.
Qed.

Lemma ofilter_map_In {A B : Type} (c : A -> outcome bool) (g : A -> outcome B)
  (xs : list A) : forall (ys : list B) (y : B),
  ofilter_map c g xs = Ok ys -> In y ys ->
  exists x, In x xs /\ c x = Ok true /\ g x = Ok y.
Proof.
  induction xs as [|x xs IH]; intros ys y; cbn [ofilter_map].
  - intros [= <-] [].
  - destruct (c x) as [[|]| |] eqn:Hc; cbn [obind]; try discriminate.
    + destruct (g x) as [y0| |] eqn:Hg; cbn [obind]; [|discriminate..].
      destruct (ofilter_map c g xs) as [ys0| |] eqn:Hrest; cbn [obind]; [|discriminate..].
      intros [= <-] [<-|Hin].
      * exists x. split; [left; reflexivity|]. split; assumption.
      * destruct (IH ys0 y eq_refl Hin) as [x' [Hx' H]].
        exists x'. split; [right; exact Hx'|exact H].
    + intros Hys Hin. destruct (IH ys y Hys Hin) as [x' [Hx' H]].
      exists x'. split; [right; exact Hx'|exact H].
Qed.

Lemma first_In {A : Type} (xs : list A) (x : A) : first xs = Ok x -> In x xs.
Proof.
  destruct xs; cbn [first]; [discriminate|]. intros [= ->]. left. reflexivity.
Qed.

Lemma first_with_side_within (text : string) (r x : pyval) :
  first_with_side text r = Ok x -> within x r.
Proof.
  unfold first_with_side.
  destruct (iterate r) as [es| |] eqn:Hit; cbn [obind]; [|discriminate..].
  destruct (ofilter_map _ _ es) as [found| |] eqn:Hf; cbn [obind]; [|discriminate..].
  intros Hfirst. apply first_In in Hfirst.
  destruct (ofilter_map_In _ _ es found x Hf Hfirst) as [e [Hin [Hc Hg]]].
  injection Hg as ->.
  destruct (subscript x "side") as [sd| |] eqn:Hs; [|discriminate..].
  exact (iterate_within r x sd es "side" Hit Hin Hs).
Qed.

Lemma first_with_index_within (idx : Z) (r x : pyval) :
  first_with_index idx r = Ok x -> within x r.
Proof.
  unfold first_with_index.
  destruct (iterate r) as [es| |] eqn:Hit; cbn [obind]; [|discriminate..].
  destruct (ofilter_map _ _ es) as [found| |] eqn:Hf; cbn [obind]; [|discriminate..].
  intros Hfirst. apply first_In in Hfirst.
  destruct (ofilter_map_In _ _ es found x Hf Hfirst) as [e [Hin [_ Hg]]].
  apply (within_trans x e r).
  - exact (subscript_within e x "data" Hg).
  - exact (iterate_within r e x es "data" Hit Hin Hg).
Qed.

Section Positions.

Context {E : Externals}.


(** What lines 206-224 put into the position. *)
Lemma build_position_fields (self : Bybit) (wb : float) (long_pos shrt_pos : pyval)
  (pos : Position) :
  build_position self wb long_pos shrt_pos = Ok pos ->
  wallet_balance pos = wb /\
  field_float long_pos "size" = Ok (size (long pos)) /\
  (exists ssize, field_float shrt_pos "size" = Ok ssize /\
                 size (shrt pos) = fneg ssize) /\
  field_float long_pos "entry_price" = Ok (entry_price (long pos)) /\
  field_float shrt_pos "entry_price" = Ok (entry_price (shrt pos)) /\
  side_upnl calc_long_pnl self (entry_price (long pos)) (size (long pos))
  = Ok (upnl (long pos)) /\
  side_upnl calc_shrt_pnl self (entry_price (shrt pos)) (size (shrt pos))
  = Ok (upnl (shrt pos)) /\
  equity pos = fadd wb (fadd (upnl (long pos)) (upnl (shrt pos))).
Proof.
  unfold build_position.
  destruct (field_float long_pos "size") as [lsize| |]; cbn [obind]; [|discriminate..].
  destruct (field_float long_pos "entry_price") as [lprice| |]; cbn [obind]; [|discriminate..].
  destruct (field_float long_pos "leverage") as [llev| |]; cbn [obind]; [|discriminate..].
  destruct (field_float long_pos "liq_price") as [lliq| |]; cbn [obind]; [|discriminate..].
  destruct (field_float shrt_pos "size") as [ssize| |]; cbn [obind]; [|discriminate..].
  destruct (field_float shrt_pos "entry_price") as [sprice| |]; cbn [obind]; [|discriminate..].
  destruct (field_float shrt_pos "leverage") as [slev| |]; cbn [obind]; [|discriminate..].
  destruct (field_float shrt_pos "liq_price") as [sliq| |]; cbn [obind]; [|discriminate..].
  destruct (side_upnl calc_long_pnl self lprice lsize) as [lupnl| |] eqn:Hl;
    cbn [obind]; [|discriminate..].
  destruct (side_upnl calc_shrt_pnl self sprice (fneg ssize)) as [supnl| |] eqn:Hs;
    cbn [obind]; [|discriminate..].
  intros [= <-]. cbn.
  repeat split; try assumption. exists ssize. split; reflexivity.
Qed.

(** [fetch_position] as a function of the two answers: they are looked
    at in the order in which the two requests complete. *)
Lemma fetch_position_gathers (self : Bybit) (w : world) (url_p url_b : string) :
  dict_get (endpoints self) "position" = Some url_p ->
  dict_get (endpoints self) "balance" = Some url_b ->
  fetch_position self w =
  (let? fb :=
     if settles_first (requests w)
     then let? fetched := position_answer self w url_p in
          let? bal := balance_answer self w url_b in
          Ok (fetched, bal)
     else let? bal := balance_answer self w url_b in
          let? fetched := position_answer self w url_p in
          Ok (fetched, bal) in
   let? sides := raw_sides self (fst fb) (snd fb) in
   let '(wb, long_pos, shrt_pos) := sides in
   build_position self wb long_pos shrt_pos,
   {| stdout := stdout w;
      clock_reads := S (S (clock_reads w));
      requests := S (S (requests w)) |}).
Proof.
  intros Hp Hb.
  unfold fetch_position, gather, private_get, private_, request, time_ms,
    bind, lift, lookup, of_option, position_answer, balance_answer.
  rewrite Hp, Hb. cbn [requests clock_reads stdout].
  destruct (settles_first (requests w));
    destruct (http (requests w) _ _ _) as [fetched|e1|b1];
    destruct (http (S (requests w)) _ _ _) as [bal|e2|b2];
    cbn [obind fst snd]; try reflexivity;
    destruct (raw_sides self fetched bal) as [[[wb lp] sp]| |]; cbn [obind];
    try reflexivity;
    destruct (build_position self wb lp sp); reflexivity.
Qed.

(** With both answers at hand their order does not matter. *)
Lemma fetch_position_run (self : Bybit) (w : world) (url_p url_b : string)
  (fetched bal : pyval) :
  dict_get (endpoints self) "position" = Some url_p ->
  dict_get (endpoints self) "balance" = Some url_b ->
  position_answer self w url_p = Ok fetched ->
  balance_answer self w url_b = Ok bal ->
  fst (fetch_position self w) =
  let? sides := raw_sides self fetched bal in
  let '(wb, long_pos, shrt_pos) := sides in
  build_position self wb long_pos shrt_pos.
Proof.
  intros Hp Hb Hf Hbal.
  rewrite (fetch_position_gathers self w url_p url_b Hp Hb), Hf, Hbal.
  destruct (settles_first (requests w)); reflexivity.
Qed.

(** A position that is returned was built from the raw sides of the two
    answers. *)
Lemma fetch_position_returns (self : Bybit) (w : world) (pos : Position) :
  fst (fetch_position self w) = Ok pos ->
  exists url_p url_b fetched bal wb long_pos shrt_pos,
    dict_get (endpoints self) "position" = Some url_p /\
    position_answer self w url_p = Ok fetched /\
    balance_answer self w url_b = Ok bal /\
    raw_sides self fetched bal = Ok (wb, long_pos, shrt_pos) /\
    build_position self wb long_pos shrt_pos = Ok pos.
Proof.
  destruct (dict_get (endpoints self) "position") as [url_p|] eqn:Hp.
  2:{ unfold fetch_position, bind, lift, lookup, of_option. rewrite Hp. discriminate. }
  destruct (dict_get (endpoints self) "balance") as [url_b|] eqn:Hb.
  2:{ unfold fetch_position, bind, lift, lookup, of_option. rewrite Hp, Hb. discriminate. }
  rewrite (fetch_position_gathers self w url_p url_b Hp Hb). cbn [fst].
  destruct (position_answer self w url_p) as [fetched| |] eqn:Hf;
    destruct (balance_answer self w url_b) as [bal| |] eqn:Hbal;
    destruct (settles_first (requests w)); cbn [obind fst snd]; try discriminate.
  all: destruct (raw_sides self fetched bal) as [[[wb lp] sp]| |] eqn:Hs; cbn [obind];
    [|discriminate..]; intros Hbuild.
  all: exists url_p, url_b, fetched, bal, wb, lp, sp; auto.
Qed.



(** C4.  In every position [fetch_position] returns, the equity is the
    wallet balance plus the sum of the two unrealized pnl, added as the
    code adds them; the unrealized pnl of a side is exactly [0.0] when
    its entry price equals zero, and otherwise it is what the supplied
    pnl function returns for the entry price, the bot's last price, the
    signed size and the [inverse] and [contract_multiplier] entries of
    [xk]. *)
Theorem fetch_position_equity (self : Bybit) (w : world) (pos : Position) :
  fst (fetch_position self w) = Ok pos ->
  equity pos = fadd (wallet_balance pos) (fadd (upnl (long pos)) (upnl (shrt pos))) /\
  (feqb (entry_price (long pos)) fzero = true -> upnl (long pos) = fzero) /\
  (feqb (entry_price (shrt pos)) fzero = true -> upnl (shrt pos) = fzero) /\
  (feqb (entry_price (long pos)) fzero = false ->
   exists inv cm,
     dict_get (xk self) "inverse" = Some inv /\
     dict_get (xk self) "contract_multiplier" = Some cm /\
     calc_long_pnl (entry_price (long pos)) (price self) (size (long pos)) inv cm
     = Ok (upnl (long pos))) /\
  (feqb (entry_price (shrt pos)) fzero = false ->
   exists inv cm,
     dict_get (xk self) "inverse" = Some inv /\
     dict_get (xk self) "contract_multiplier" = Some cm /\
     calc_shrt_pnl (entry_price (shrt pos)) (price self) (size (shrt pos)) inv cm
     = Ok (upnl (shrt pos))).
Proof.
  intros Hpos.
  destruct (fetch_position_returns self w pos Hpos)
    as (url_p & url_b & fetched & bal & wb & lp & sp & _ & _ & _ & _ & Hbuild).
  destruct (build_position_fields self wb lp sp pos Hbuild)
    as (Hwb & _ & _ & _ & _ & Hl & Hs & Heq).
  unfold side_upnl, lookup, of_option in Hl, Hs.
  split; [rewrite Hwb; exact Heq|].
  repeat split; intros Hz; rewrite Hz in *; cbn [negb] in *; try congruence.
  - destruct (dict_get (xk self) "inverse") as [inv|]; cbn [obind] in Hl; [|discriminate..].
    destruct (dict_get (xk self) "contract_multiplier") as [cm|]; cbn [obind] in Hl;
      [|discriminate..].
    exists inv, cm. auto.
  - destruct (dict_get (xk self) "inverse") as [inv|]; cbn [obind] in Hs; [|discriminate..].
    destruct (dict_get (xk self) "contract_multiplier") as [cm|]; cbn [obind] in Hs;
      [|discriminate..].
    exists inv, cm. auto.
Qed.


(** The comprehension of lines 203-204 raises nothing when every record
    carries a position index. *)
Lemma index_comprehension_ok (idx : Z) (records : list pyval) :
  Forall has_index records ->
  exists found,
    ofilter_map (fun e => let? d := subscript e "data" in
                          let? i := subscript d "position_idx" in
                          Ok (eq_int i idx))
                (fun e => subscript e "data") records = Ok found.
Proof.
  induction 1 as [|e rs (d & i & Hd & Hi) _ [found IH]]; cbn [ofilter_map].
  - exists []. reflexivity.
  - rewrite Hd. cbn [obind]. rewrite Hi. cbn [obind]. rewrite IH.
    destruct (eq_int i idx); cbn [obind]; eexists; reflexivity.
Qed.

(** The records of an answer are searched for an index one by one: the
    search finds the [data] of the first record with that index, and
    fails with [IndexError] exactly when no record has it. *)
Lemma first_with_index_search (idx : Z) (records : list pyval) :
  Forall has_index records ->
  (~ Exists (index_is idx) records /\
   first_with_index idx (PList records) = Raise IndexError) \/
  (exists pre e post d,
     records = pre ++ e :: post /\
     ~ Exists (index_is idx) pre /\
     index_is idx e /\
     subscript e "data" = Ok d /\
     first_with_index idx (PList records) = Ok d).
Proof.
  unfold first_with_index. cbn [iterate obind].
  induction 1 as [|e rs (d & i & Hd & Hi) Hrs IH].
  - left. split; [intros H; inversion H|reflexivity].
  - destruct (index_comprehension_ok idx rs Hrs) as [found Hfound].
    cbn [ofilter_map]. rewrite Hd. cbn [obind]. rewrite Hi. cbn [obind].
    rewrite Hfound in *. cbn [obind] in *.
    destruct (eq_int i idx) eqn:Heq; cbn [obind first].
    + right. exists [], e, rs, d.
      split; [reflexivity|]. split; [intros H; inversion H|].
      split; [exists d, i; auto|]. split; [exact Hd|reflexivity].
    + assert (Hno : ~ index_is idx e).
      { intros (d' & i' & Hd' & Hi' & Heq'). congruence. }
      destruct IH as [[Habs IH]|(pre & e' & post & d' & Hr & Hpre & He' & Hd' & IH)].
      * left. split; [|exact IH].
        intros H. inversion H; subst; tauto.
      * right. exists (e :: pre), e', post, d'. rewrite Hr.
        split; [reflexivity|]. split; [|auto].
        intros H. inversion H; subst; tauto.
Qed.

(** What lines 206-213 read from the two raw sides. *)
Lemma build_position_reads (self : Bybit) (wb : float) (long_pos shrt_pos : pyval)
  (pos : Position) :
  build_position self wb long_pos shrt_pos = Ok pos ->
  wallet_balance pos = wb /\ long_read_from long_pos pos /\ shrt_read_from shrt_pos pos.
Proof.
  unfold build_position, long_read_from, shrt_read_from.
  destruct (field_float long_pos "size") as [lsize| |]; cbn [obind]; [|discriminate..].
  destruct (field_float long_pos "entry_price") as [lprice| |]; cbn [obind]; [|discriminate..].
  destruct (field_float long_pos "leverage") as [llev| |]; cbn [obind]; [|discriminate..].
  destruct (field_float long_pos "liq_price") as [lliq| |]; cbn [obind]; [|discriminate..].
  destruct (field_float shrt_pos "size") as [ssize| |]; cbn [obind]; [|discriminate..].
  destruct (field_float shrt_pos "entry_price") as [sprice| |]; cbn [obind]; [|discriminate..].
  destruct (field_float shrt_pos "leverage") as [slev| |]; cbn [obind]; [|discriminate..].
  destruct (field_float shrt_pos "liq_price") as [sliq| |]; cbn [obind]; [|discriminate..].
  destruct (side_upnl calc_long_pnl self lprice lsize) as [lupnl| |];
    cbn [obind]; [|discriminate..].
  destruct (side_upnl calc_shrt_pnl self sprice (fneg ssize)) as [supnl| |];
    cbn [obind]; [|discriminate..].
  intros [= <-]. cbn.
  repeat split. exists ssize. split; reflexivity.
Qed.

(** Lines 206-224 raise nothing when the fields of both raw sides convert
    and the pnl functions answer. *)
Lemma build_position_succeeds (self : Bybit) (wb : float) (long_pos shrt_pos : pyval)
  (inv cm : pyval) :
  side_converts long_pos ->
  side_converts shrt_pos ->
  dict_get (xk self) "inverse" = Some inv ->
  dict_get (xk self) "contract_multiplier" = Some cm ->
  (forall entry sz, is_ok (calc_long_pnl entry (price self) sz inv cm) = true) ->
  (forall entry sz, is_ok (calc_shrt_pnl entry (price self) sz inv cm) = true) ->
  exists pos, build_position self wb long_pos shrt_pos = Ok pos.
Proof.
  intros Hl Hs Hinv Hcm Hlong Hshrt.
  unfold side_converts in Hl, Hs.
  repeat match goal with
         | H : Forall _ (_ :: _) |- _ => inversion H; subst; clear H
         end.
  unfold build_position, side_upnl, lookup, of_option.
  rewrite Hinv, Hcm.
  repeat match goal with
         | H : is_ok (field_float ?r ?k) = true |- _ =>
             destruct (field_float r k); [clear H|discriminate H..]
         end.
  cbn [obind].
  match goal with
  | |- context [calc_long_pnl ?e ?p ?z inv cm] =>
      pose proof (Hlong e z) as H1; destruct (calc_long_pnl e p z inv cm);
      [clear H1|discriminate H1..]
  end.
  match goal with
  | |- context [calc_shrt_pnl ?e ?p ?z inv cm] =>
      pose proof (Hshrt e z) as H2; destruct (calc_shrt_pnl e p z inv cm);
      [clear H2|discriminate H2..]
  end.
  repeat match goal with
         | |- context [if ?c then _ else _] => destruct c
         end;
    cbn [obind]; eexists; reflexivity.
Qed.

(** With the placeholder as a raw side, that side of the position is the
    zero side. *)
Lemma build_position_placeholder (self : Bybit) (wb : float) (r : pyval)
  (pos : Position) :
  (build_position self wb r placeholder = Ok pos -> shrt pos = zero_shrt_side) /\
  (build_position self wb placeholder r = Ok pos -> long pos = zero_side).
Proof.
  unfold build_position.
  change (field_float placeholder "size") with (Ok fzero).
  change (field_float placeholder "entry_price") with (Ok fzero).
  change (field_float placeholder "leverage") with (Ok fzero).
  change (field_float placeholder "liq_price") with (Ok fzero).
  cbn [obind].
  change (side_upnl calc_long_pnl self fzero fzero) with (@Ok float fzero).
  change (side_upnl calc_shrt_pnl self fzero (fneg fzero)) with (@Ok float fzero).
  destruct (field_float r "size") as [sz| |]; cbn [obind]; [|split; discriminate..].
  destruct (field_float r "entry_price") as [en| |]; cbn [obind]; [|split; discriminate..].
  destruct (field_float r "leverage"); cbn [obind]; [|split; discriminate..].
  destruct (field_float r "liq_price"); cbn [obind]; [|split; discriminate..].
  split.
  - destruct (side_upnl calc_long_pnl self en sz); cbn [obind]; [|discriminate..].
    intros [= <-]. reflexivity.
  - destruct (side_upnl calc_shrt_pnl self en (fneg sz)); cbn [obind]; [|discriminate..].
    intros [= <-]. reflexivity.
Qed.

(** On the inverse-perpetual path one raw side is the placeholder; on
    the other paths both raw sides are records of the position answer. *)
Lemma raw_sides_origin (self : Bybit) (fetched bal : pyval)
  (wb : float) (long_pos shrt_pos : pyval) :
  raw_sides self fetched bal = Ok (wb, long_pos, shrt_pos) ->
  (market_type self = "inverse_perpetual" ->
   long_pos = placeholder \/ shrt_pos = placeholder) /\
  (market_type self <> "inverse_perpetual" ->
   within long_pos fetched /\ within shrt_pos fetched).
Proof.
  unfold raw_sides.
  destruct (String.eqb_spec (market_type self) "linear_perpetual") as [Hlin|Hlin].
  - destruct (subscript fetched "result") as [r| |] eqn:Hr; cbn [obind]; [|discriminate..].
    destruct (first_with_side "Buy" r) as [lp| |] eqn:Hl; cbn [obind]; [|discriminate..].
    destruct (first_with_side "Sell" r) as [sp| |] eqn:Hs; cbn [obind]; [|discriminate..].
    destruct (wallet_of bal (quot self)); cbn [obind]; [|discriminate..].
    intros [= _ <- <-]. apply subscript_within in Hr.
    split; [intros Hmt; rewrite Hmt in Hlin; discriminate|intros _].
    split; (eapply within_trans; [|exact Hr]); eauto using first_with_side_within.
  - destruct (wallet_of bal (coin self)); cbn [obind]; [|discriminate..].
    destruct (String.eqb_spec (market_type self) "inverse_perpetual") as [Hper|Hper].
    + destruct (subscript fetched "result") as [r| |] eqn:Hr; cbn [obind]; [|discriminate..].
      destruct (subscript r "side") as [sd| |]; cbn [obind]; [|discriminate..].
      destruct (eq_str sd "Buy"); intros [= _ <- <-]; split; tauto.
    + destruct (String.eqb (market_type self) "inverse_futures"); [|discriminate].
      destruct (subscript fetched "result") as [r| |] eqn:Hr; cbn [obind]; [|discriminate..].
      destruct (first_with_index 1 r) as [lp| |] eqn:Hl; cbn [obind]; [|discriminate..].
      destruct (first_with_index 2 r) as [sp| |] eqn:Hs; cbn [obind]; [|discriminate..].
      intros [= _ <- <-]. apply subscript_within in Hr.
      split; [tauto|intros _].
      split; (eapply within_trans; [|exact Hr]); eauto using first_with_index_within.
Qed.

(** A returned position was built from the answers to the two requests. *)
Lemma fetch_position_answers (self : Bybit) (w : world) (url_p url_b : string)
  (pos : Position) :
  dict_get (endpoints self) "position" = Some url_p ->
  dict_get (endpoints self) "balance" = Some url_b ->
  fst (fetch_position self w) = Ok pos ->
  exists fetched bal wb long_pos shrt_pos,
    position_answer self w url_p = Ok fetched /\
    balance_answer self w url_b = Ok bal /\
    raw_sides self fetched bal = Ok (wb, long_pos, shrt_pos) /\
    build_position self wb long_pos shrt_pos = Ok pos.
Proof.
  intros Hp Hb Hpos.
  destruct (fetch_position_returns self w pos Hpos)
    as (url_p' & url_b' & fetched & bal & wb & lp & sp & Hp' & Hf & Hbal & Hraw & Hbuild).
  assert (url_p' = url_p) by congruence. subst url_p'.
  rewrite (fetch_position_gathers self w url_p url_b Hp Hb) in Hpos. cbn [fst] in Hpos.
  destruct (balance_answer self w url_b) as [bal'| |] eqn:Hbal';
    [|rewrite Hf in Hpos; destruct (settles_first (requests w)); discriminate Hpos..].
  rewrite Hf in Hpos.
  assert (Hrun : (let? sides := raw_sides self fetched bal' in
                  let '(wb, long_pos, shrt_pos) := sides in
                  build_position self wb long_pos shrt_pos) = Ok pos).
  { destruct (settles_first (requests w)); exact Hpos. }
  destruct (raw_sides self fetched bal') as [[[wb' lp'] sp']| |] eqn:Hraw';
    cbn [obind] in Hrun; [|discriminate..].
  exists fetched, bal', wb', lp', sp'. auto.
Qed.

(** On the inverse-futures path the raw sides are what the two searches
    of lines 203-204 find. *)
Lemma raw_sides_futures (self : Bybit) (fetched bal : pyval) (records : list pyval)
  (wb : float) (long_pos shrt_pos : pyval) :
  market_type self = "inverse_futures" ->
  subscript fetched "result" = Ok (PList records) ->
  raw_sides self fetched bal = Ok (wb, long_pos, shrt_pos) ->
  wallet_of bal (coin self) = Ok wb /\
  first_with_index 1 (PList records) = Ok long_pos /\
  first_with_index 2 (PList records) = Ok shrt_pos.
Proof.
  intros Hmt Hres. unfold raw_sides. rewrite Hmt. cbn [String.eqb Ascii.eqb Bool.eqb].
  destruct (wallet_of bal (coin self)) as [wb'| |]; cbn [obind]; [|discriminate..].
  rewrite Hres. cbn [obind].
  destruct (first_with_index 1 (PList records)) as [lp| |]; cbn [obind]; [|discriminate..].
  destruct (first_with_index 2 (PList records)) as [sp| |]; cbn [obind]; [|discriminate..].
  intros [= <- <- <-]. auto.
Qed.

(** C3 (as amended).  Given the position answer, on the inverse-futures
    path, when every record of the answer carries a position index:
    - if no record has index 1 or no record has index 2, [fetch_position]
      returns no position, and with a balance answer whose wallet balance
      is readable it is the lookup that fails, with [IndexError];
    - if both indices are present, every position that is returned has
      its long side read from the [data] of the first record of index 1
      and its short side read from the [data] of the first record of
      index 2, the size negated, and the wallet balance of the balance
      answer; a position is returned whenever the wallet balance is
      readable, the four fields of both records convert with [float] and
      the pnl functions answer.
    The placeholder is synthesized on the inverse-perpetual path only:
    there one side of every returned position is the zero side, on every
    other path both sides are read from records of the position answer. *)
Theorem fetch_position_futures_indices
  (self : Bybit) (w : world) (url_p url_b : string) (fetched : pyval) :
  dict_get (endpoints self) "position" = Some url_p ->
  dict_get (endpoints self) "balance" = Some url_b ->
  position_answer self w url_p = Ok fetched ->
  (forall records : list pyval,
     market_type self = "inverse_futures" ->
     subscript fetched "result" = Ok (PList records) ->
     Forall has_index records ->
     (~ Exists (index_is 1) records \/ ~ Exists (index_is 2) records ->
      (forall pos, fst (fetch_position self w) <> Ok pos) /\
      (forall bal wb,
         balance_answer self w url_b = Ok bal ->
         wallet_of bal (coin self) = Ok wb ->
         fst (fetch_position self w) = Raise IndexError)) /\
     (Exists (index_is 1) records -> Exists (index_is 2) records ->
      exists d1 d2,
        first_of_index 1 records d1 /\
        first_of_index 2 records d2 /\
        (forall pos,
           fst (fetch_position self w) = Ok pos ->
           long_read_from d1 pos /\
           shrt_read_from d2 pos /\
           exists bal,
             balance_answer self w url_b = Ok bal /\
             wallet_of bal (coin self) = Ok (wallet_balance pos)) /\
        (forall bal wb inv cm,
           balance_answer self w url_b = Ok bal ->
           wallet_of bal (coin self) = Ok wb ->
           side_converts d1 ->
           side_converts d2 ->
           dict_get (xk self) "inverse" = Some inv ->
           dict_get (xk self) "contract_multiplier" = Some cm ->
           (forall entry sz,
              is_ok (calc_long_pnl entry (price self) sz inv cm) = true) ->
           (forall entry sz,
              is_ok (calc_shrt_pnl entry (price self) sz inv cm) = true) ->
           exists pos, fst (fetch_position self w) = Ok pos))) /\
  (forall pos,
     fst (fetch_position self w) = Ok pos ->
     (market_type self = "inverse_perpetual" ->
      long pos = zero_side \/ shrt pos = zero_shrt_side) /\
     (market_type self <> "inverse_perpetual" ->
      exists long_pos shrt_pos,
        within long_pos fetched /\
        within shrt_pos fetched /\
        long_read_from long_pos pos /\
        shrt_read_from shrt_pos pos)).
Proof.
  intros Hp Hb Hans. split.
  - intros records Hmt Hres Hidx.
    assert (Hrun : forall bal wb,
               balance_answer self w url_b = Ok bal ->
               wallet_of bal (coin self) = Ok wb ->
               fst (fetch_position self w) =
               let? long_pos := first_with_index 1 (PList records) in
               let? shrt_pos := first_with_index 2 (PList records) in
               build_position self wb long_pos shrt_pos).
    { intros bal wb Hbal Hwb.
      rewrite (fetch_position_run self w url_p url_b fetched bal Hp Hb Hans Hbal).
      unfold raw_sides. rewrite Hmt. cbn [String.eqb Ascii.eqb Bool.eqb].
      rewrite Hwb. cbn [obind]. rewrite Hres. cbn [obind].
      destruct (first_with_index 1 (PList records)); cbn [obind]; [|reflexivity..].
      destruct (first_with_index 2 (PList records)); reflexivity. }
    assert (Hfound : forall pos,
               fst (fetch_position self w) = Ok pos ->
               exists bal long_pos shrt_pos,
                 balance_answer self w url_b = Ok bal /\
                 wallet_of bal (coin self) = Ok (wallet_balance pos) /\
                 first_with_index 1 (PList records) = Ok long_pos /\
                 first_with_index 2 (PList records) = Ok shrt_pos /\
                 long_read_from long_pos pos /\
                 shrt_read_from shrt_pos pos).
    { intros pos Hpos.
      destruct (fetch_position_answers self w url_p url_b pos Hp Hb Hpos)
        as (fetched' & bal & wb & lp & sp & Hans' & Hbal & Hraw & Hbuild).
      assert (fetched' = fetched) by congruence. subst fetched'.
      destruct (raw_sides_futures self fetched bal records wb lp sp Hmt Hres Hraw)
        as (Hwb & H1 & H2).
      destruct (build_position_reads self wb lp sp pos Hbuild) as (Hw & Hl & Hs).
      exists bal, lp, sp. rewrite Hw.
      exact (conj Hbal (conj Hwb (conj H1 (conj H2 (conj Hl Hs))))). }
    destruct (first_with_index_search 1 records Hidx)
      as [[Hno1 H1]|(pre1 & e1 & post1 & d1 & Hr1 & Hpre1 & He1 & Hd1 & H1)];
    destruct (first_with_index_search 2 records Hidx)
      as [[Hno2 H2]|(pre2 & e2 & post2 & d2 & Hr2 & Hpre2 & He2 & Hd2 & H2)].
    1-3: split; [intros _|tauto]; split;
      [intros pos Hpos;
       destruct (Hfound pos Hpos) as (bal & lp & sp & _ & _ & Hl & Hs & _); congruence
      |intros bal wb Hbal Hwb; rewrite (Hrun bal wb Hbal Hwb), H1; cbn [obind];
       try rewrite H2; reflexivity].
    split.
    + intros [Hno|Hno]; exfalso; apply Hno.
      * rewrite Hr1. apply Exists_app. right. left. exact He1.
      * rewrite Hr2. apply Exists_app. right. left. exact He2.
    + intros _ _. exists d1, d2.
      split; [exists pre1, e1, post1; auto|].
      split; [exists pre2, e2, post2; auto|].
      split.
      * intros pos Hpos.
        destruct (Hfound pos Hpos) as (bal & lp & sp & Hbal & Hwb & Hl & Hs & Hlr & Hsr).
        assert (lp = d1) by congruence. assert (sp = d2) by congruence. subst lp sp.
        split; [exact Hlr|]. split; [exact Hsr|]. exists bal. auto.
      * intros bal wb inv cm Hbal Hwb Hc1 Hc2 Hinv Hcm Hlong Hshrt.
        rewrite (Hrun bal wb Hbal Hwb), H1, H2. cbn [obind].
        exact (build_position_succeeds self wb d1 d2 inv cm
                 Hc1 Hc2 Hinv Hcm Hlong Hshrt).
  - intros pos Hpos.
    destruct (fetch_position_answers self w url_p url_b pos Hp Hb Hpos)
      as (fetched' & bal & wb & lp & sp & Hans' & _ & Hraw & Hbuild).
    assert (fetched' = fetched) by congruence. subst fetched'.
    destruct (raw_sides_origin self fetched bal wb lp sp Hraw) as [Hper Hother].
    split.
    + intros Hmt. destruct (Hper Hmt) as [-> | ->].
      * left. exact (proj2 (build_position_placeholder self wb sp pos) Hbuild).
      * right. exact (proj1 (build_position_placeholder self wb lp pos) Hbuild).
    + intros Hmt. destruct (Hother Hmt) as [Hl Hs].
      destruct (build_position_reads self wb lp sp pos Hbuild) as (_ & Hlr & Hsr).
      exists lp, sp. auto.
Qed.

End Positions.

(** Floats do not add associatively, so the order of the two additions
    of line 222 and line 223 is part of what the equity is. *)
Lemma fadd_not_associative :
  fadd (float_of_Z (10 ^ 16)) (fadd (float_of_Z 1) (float_of_Z 1))
  = float_of_Z (10 ^ 16 + 2) /\
  fadd (fadd (float_of_Z (10 ^ 16)) (float_of_Z 1)) (float_of_Z 1)
  = float_of_Z (10 ^ 16).
Proof.
  split; vm_compute; reflexivity.
Qed.

(** The sample position of the inverse-futures bot: the short side has
    no entry price and so no unrealized pnl. *)
Lemma fetch_position_equity_witness :
  equity sample_position
  = fadd (wallet_balance sample_position)
      (fadd (upnl (long sample_position)) (upnl (shrt sample_position))) /\
  upnl (shrt sample_position) = fzero.
Proof.
  pose proof (fetch_position_equity (E := futures_env sample_futures_records)
                futures_bot world0 sample_position eq_refl) as (Heq & _ & Hs & _).
  split; [exact Heq|]. apply Hs. reflexivity.
Defined.


(** With both records in the answer the sample position is read from
    them: from the first record of each index, which are records of the
    answer; with the record of index 2 left out no position is returned. *)
Lemma fetch_position_futures_indices_witness :
  (exists d1 d2,
     first_of_index 1 sample_futures_records d1 /\
     first_of_index 2 sample_futures_records d2 /\
     long_read_from d1 sample_position /\
     shrt_read_from d2 sample_position) /\
  (exists long_pos shrt_pos,
     within long_pos (futures_answer sample_futures_records) /\
     within shrt_pos (futures_answer sample_futures_records) /\
     long_read_from long_pos sample_position /\
     shrt_read_from shrt_pos sample_position) /\
  fst (fetch_position (E := futures_env [futures_record 1 "Buy" 10 "30000"])
         futures_bot world0) = Raise IndexError.
Proof.
  destruct (fetch_position_futures_indices
              (E := futures_env sample_futures_records)
              futures_bot world0 "/futures/private/position/list"
              "/v2/private/wallet/balance"
              (futures_answer sample_futures_records)
              eq_refl eq_refl eq_refl) as [Hfutures Horigin].
  split; [|split].
  - destruct (Hfutures sample_futures_records eq_refl eq_refl) as [_ Hboth].
    + repeat constructor; eexists; eexists; split; reflexivity.
    + destruct Hboth as (d1 & d2 & H1 & H2 & Hpos & _).
      * left. eexists. eexists. repeat split.
      * right. left. eexists. eexists. repeat split.
      * destruct (Hpos sample_position eq_refl) as (Hl & Hs & _).
        exists d1, d2. exact (conj H1 (conj H2 (conj Hl Hs))).
  - apply (proj2 (Horigin sample_position eq_refl)). discriminate.
  - destruct (fetch_position_futures_indices
                (E := futures_env [futures_record 1 "Buy" 10 "30000"])
                futures_bot world0 "/futures/private/position/list"
                "/v2/private/wallet/balance"
                (futures_answer [futures_record 1 "Buy" 10 "30000"])
                eq_refl eq_refl eq_refl) as [Hmissing _].
    destruct (Hmissing [futures_record 1 "Buy" 10 "30000"] eq_refl eq_refl)
      as [Hnone _].
    + repeat constructor; eexists; eexists; split; reflexivity.
    + refine (proj2 (Hnone _) (wallet_answer "BTC" "1.5")
                (float_of_decimal false 15 (-1)) eq_refl eq_refl).
      right. intros Hex. inversion Hex as [? ? (d & i & Hd & Hi & Heq)|? ? Hrest]; subst.
      * injection Hd as <-. injection Hi as <-. discriminate Heq.
      * inversion Hrest.
Defined.

(** The claim as stated fails: an answer that holds the record of index
    1 only gives no position with a zero-size short side, the lookup of
    index 2 raises [IndexError]. *)
Lemma fetch_position_missing_index_fails :
  first_with_index 1 (PList [futures_record 1 "Buy" 10 "30000"])
  = subscript (futures_record 1 "Buy" 10 "30000") "data" /\
  fst (fetch_position (E := futures_env [futures_record 1 "Buy" 10 "30000"])
         futures_bot world0) = Raise IndexError.
Proof.
  split; reflexivity.
Qed.

(* ----------------------------------------------------------------- *)
(** ** Request signing *)

Lemma dict_set_keys_In {A : Type} (d : dict A) (k k' : string) (v : A) :
  In k' (dict_keys (dict_set d k v)) <-> In k' (dict_keys d) \/ k' = k.
Proof.
  induction d as [|[k0 v0] d IH]; cbn [dict_set dict_keys map fst].
  - cbn. intuition congruence.
  - destruct (String.eqb_spec k0 k) as [->|Hne]; cbn [dict_keys map fst In].
    + intuition congruence.
    + unfold dict_keys in IH. rewrite IH. tauto.
Qed.

Lemma dict_set_wf {A : Type} (d : dict A) (k : string) (v : A) :
  dict_wf d -> dict_wf (dict_set d k v).
Proof.
  unfold dict_wf. induction d as [|[k0 v0] d IH]; cbn [dict_set dict_keys map fst].
  - intros _. constructor; [intros []|constructor].
  - intros Hnd. inversion Hnd as [|? ? Hnotin Hrest]; subst.
    destruct (String.eqb_spec k0 k) as [->|Hne]; cbn [dict_keys map fst].
    + constructor; assumption.
    + constructor; [|exact (IH Hrest)].
      intros Hin. apply (dict_set_keys_In d k k0 v) in Hin.
      destruct Hin as [Hin|Heq]; [exact (Hnotin Hin)|exact (Hne Heq)].
Qed.

Lemma dict_get_set_same {A : Type} (d : dict A) (k : string) (v : A) :
  dict_get (dict_set d k v) k = Some v.
Proof.
  induction d as [|[k0 v0] d IH]; cbn [dict_set dict_get].
  - rewrite String.eqb_refl. reflexivity.
  - destruct (String.eqb k0 k) eqn:Hk; cbn [dict_get]; rewrite Hk; auto.
Qed.

Lemma dict_get_set_other {A : Type} (d : dict A) (k k' : string) (v : A) :
  k <> k' -> dict_get (dict_set d k v) k' = dict_get d k'.
Proof.
  intros Hne. induction d as [|[k0 v0] d IH]; cbn [dict_set dict_get].
  - destruct (String.eqb_spec k k'); [contradiction|reflexivity].
  - destruct (String.eqb_spec k0 k) as [->|Hk]; cbn [dict_get].
    + destruct (String.eqb_spec k k'); [contradiction|reflexivity].
    + rewrite IH. reflexivity.
Qed.

Lemma dict_get_skip {A : Type} (done todo : dict A) (k : string) :
  ~ In k (dict_keys done) -> dict_get (done ++ todo) k = dict_get todo k.
Proof.
  induction done as [|[k0 v0] done IH]; cbn [app dict_get dict_keys map fst In];
    [reflexivity|].
  intros Hnotin. destruct (String.eqb_spec k0 k) as [->|_]; [tauto|].
  apply IH. tauto.
Qed.

Lemma dict_set_skip {A : Type} (done todo : dict A) (k : string) (v : A) :
  ~ In k (dict_keys done) -> dict_set (done ++ todo) k v = done ++ dict_set todo k v.
Proof.
  induction done as [|[k0 v0] done IH]; cbn [app dict_set dict_keys map fst In];
    [reflexivity|].
  intros Hnotin. destruct (String.eqb_spec k0 k) as [->|_]; [tauto|].
  rewrite IH; [reflexivity|tauto].
Qed.

Section Signing.

Context {E : Externals}.

Lemma coerce_all_keys (d : dict pyval) : dict_keys (coerce_all d) = dict_keys d.
Proof.
  unfold coerce_all, dict_keys. rewrite map_map. reflexivity.
Qed.

(** One turn of the loop of lines 161-165 coerces the value under the
    key it visits. *)
Lemma coerce_key_step (done todo : dict pyval) (k : string) (v : pyval) :
  ~ In k (dict_keys done) ->
  coerce_key (done ++ (k, v) :: todo) k = done ++ (k, coerce v) :: todo.
Proof.
  intros Hnotin. unfold coerce_key.
  rewrite (dict_get_skip done _ k Hnotin). cbn [dict_get].
  rewrite String.eqb_refl.
  destruct v; cbn [coerce]; try reflexivity;
    rewrite (dict_set_skip done _ k _ Hnotin); cbn [dict_set];
    rewrite String.eqb_refl; reflexivity.
Qed.

(** The whole loop coerces every value and keeps keys and order. *)
Lemma coerce_loop (todo : dict pyval) : forall done : dict pyval,
  dict_wf (done ++ todo) ->
  fold_left coerce_key (dict_keys todo) (coerce_all done ++ todo)
  = coerce_all (done ++ todo).
Proof.
  induction todo as [|[k v] todo IH]; intros done Hwf.
  - cbn [dict_keys map fold_left]. rewrite !app_nil_r. reflexivity.
  - cbn [dict_keys map fst fold_left].
    assert (Hnotin : ~ In k (dict_keys (coerce_all done))).
    { rewrite coerce_all_keys. unfold dict_wf, dict_keys in *.
      rewrite map_app in Hwf. cbn [map fst] in Hwf.
      apply NoDup_remove_2 in Hwf. intros Hin. apply Hwf.
      apply in_or_app. left. exact Hin. }
    rewrite (coerce_key_step _ todo k v Hnotin).
    replace (coerce_all done ++ (k, coerce v) :: todo)
      with (coerce_all (done ++ [(k, v)]) ++ todo).
    2:{ unfold coerce_all. rewrite map_app, <- app_assoc. reflexivity. }
    fold (dict_keys todo). rewrite IH.
    + rewrite <- app_assoc. reflexivity.
    + rewrite <- app_assoc. exact Hwf.
Qed.

Lemma coerce_all_textual (d : dict pyval) :
  Forall (fun kv => is_textual (snd kv) = true) (coerce_all d).
Proof.
  unfold coerce_all. apply Forall_forall. intros kv Hin.
  apply in_map_iff in Hin. destruct Hin as [[k v] [<- _]].
  destruct v; reflexivity.
Qed.

Lemma insert_by_key_perm (kv : string * pyval) (d : dict pyval) :
  Permutation (kv :: d) (insert_by_key kv d).
Proof.
  induction d as [|kv' d IH]; cbn [insert_by_key]; [reflexivity|].
  destruct (String.leb (fst kv) (fst kv')); [reflexivity|].
  rewrite perm_swap. constructor. exact IH.
Qed.

Lemma sort_dict_keys_perm (d : dict pyval) : Permutation d (sort_dict_keys d).
Proof.
  induction d as [|kv d IH]; cbn [sort_dict_keys fold_right]; [constructor|].
  rewrite <- insert_by_key_perm. constructor. exact IH.
Qed.

Lemma insert_by_key_sorted (kv : string * pyval) (d : dict pyval) :
  Sorted key_le d -> Sorted key_le (insert_by_key kv d).
Proof.
  induction 1 as [|kv' d Hs IH Hhd]; cbn [insert_by_key].
  - repeat constructor.
  - destruct (String.leb (fst kv) (fst kv')) eqn:Hle.
    + constructor; [constructor; assumption|]. constructor. exact Hle.
    + constructor; [exact IH|].
      assert (Hge : key_le kv' kv).
      { unfold key_le. destruct (String.leb_total (fst kv) (fst kv')); congruence. }
      destruct Hhd as [|kv'' d' Hh]; cbn [insert_by_key].
      * constructor. exact Hge.
      * destruct (String.leb (fst kv) (fst kv'')); constructor; assumption.
Qed.

Lemma sort_dict_keys_sorted (d : dict pyval) : Sorted key_le (sort_dict_keys d).
Proof.
  induction d as [|kv d IH]; cbn [sort_dict_keys fold_right]; [constructor|].
  apply insert_by_key_sorted. exact IH.
Qed.

(** The source and the steps of the spec agree on a well-formed dict. *)
Lemma sign_params_steps (self : Bybit) (timestamp : Z) (params : dict pyval) :
  dict_wf params ->
  sign_params self timestamp params
  = signing_steps (key self) (secret self) timestamp params.
Proof.
  intros Hwf. unfold sign_params, signing_steps, signed_text, dict_update.
  cbn [fold_left fst snd].
  set (injected := dict_set (dict_set params "api_key" _) "timestamp" _).
  assert (Hloop : fold_left coerce_key (dict_keys injected) injected
                  = coerce_all injected).
  { apply (coerce_loop injected []). cbn [app].
    unfold injected. apply dict_set_wf, dict_set_wf, Hwf. }
  rewrite Hloop. reflexivity.
Qed.

(** C5.  The request of [private_] carries the caller's parameters after
    these steps, in which only the parameters, the api key, the secret
    and the timestamp read from the clock take part: the api key and the
    integer timestamp are put under [api_key] and [timestamp]; every
    boolean becomes "true" or "false" and every float its [str], so no
    boolean or float is left; the parameters are sorted by key, as a
    permutation of themselves, and URL-encoded; the HMAC-SHA256 of that
    text under the secret, in hexadecimal, is put under [sign].  Equal
    parameters, keys and timestamps give equal signed parameters,
    whatever the bot, the world, the method and the URL. *)
Theorem private_signing
  (self : Bybit) (type_ url : string) (params : dict pyval) (w : world) :
  dict_wf params ->
  let timestamp := now_ms (clock_reads w) in
  let injected :=
    dict_set (dict_set params "api_key" (PStr (key self)))
             "timestamp" (PInt timestamp) in
  let signed := sign_params self timestamp params in
  fst (private_ self type_ url params w)
  = http (requests w) type_ (base_endpoint self ++ url) signed /\
  signed = signing_steps (key self) (secret self) timestamp params /\
  dict_get injected "api_key" = Some (PStr (key self)) /\
  dict_get injected "timestamp" = Some (PInt timestamp) /\
  Forall (fun kv => is_textual (snd kv) = true) (coerce_all injected) /\
  Sorted key_le (sort_dict_keys (coerce_all injected)) /\
  Permutation (coerce_all injected) (sort_dict_keys (coerce_all injected)) /\
  dict_get signed "sign"
  = Some (PStr (hmac_sha256_hexdigest (secret self)
                  (urlencode (sort_dict_keys (coerce_all injected))))) /\
  (forall (self' : Bybit) (w' : world),
     key self' = key self -> secret self' = secret self ->
     now_ms (clock_reads w') = timestamp ->
     sign_params self' (now_ms (clock_reads w')) params = signed).
Proof.
  intros Hwf timestamp injected signed.
  assert (Hsteps : signed = signing_steps (key self) (secret self) timestamp params).
  { apply sign_params_steps, Hwf. }
  repeat split.
  - exact Hsteps.
  - unfold injected. rewrite dict_get_set_other by discriminate.
    apply dict_get_set_same.
  - apply dict_get_set_same.
  - apply coerce_all_textual.
  - apply sort_dict_keys_sorted.
  - apply sort_dict_keys_perm.
  - rewrite Hsteps. unfold signing_steps. apply dict_get_set_same.
  - intros self' w' Hk Hs Ht. rewrite Hsteps, Ht.
    rewrite (sign_params_steps self' timestamp params Hwf), Hk, Hs. reflexivity.
Qed.

End Signing.

Lemma sample_params_wf : dict_wf sample_params.
Proof.
  unfold dict_wf, sample_params, dict_keys. cbn [map fst].
  repeat (constructor; [cbn [In]; intuition discriminate|]). constructor.
Qed.

(** The create-order parameters signed for the sample bot at the first
    reading of the clock. *)
Lemma private_signing_witness :
  sign_params (E := offline_env) btcusd_bot 1609459200000 sample_params
  = signing_steps (E := offline_env) "KEY" "SECRET" 1609459200000 sample_params /\
  dict_get (sign_params (E := offline_env) btcusd_bot 1609459200000 sample_params) "sign"
  = Some (PStr "86f031412e81dde7e2143b42605e7eeaf0cb8d2f951f38f55c1b55f91b80126e").
Proof.
  pose proof (private_signing (E := offline_env) btcusd_bot "post"
                "/v2/private/order/create" sample_params world0 sample_params_wf)
    as (_ & Hsteps & _ & _ & _ & _ & _ & Hsign & _).
  split; [exact Hsteps|]. refine (eq_trans Hsign _). vm_compute. reflexivity.
Defined.

(** The text that is signed for the sample parameters. *)
Example signed_text_sample :
  signed_text (E := offline_env) "KEY" 1609459200000 sample_params
  = "api_key=KEY&close_on_trigger=false&order_type=Limit&position_idx=0&price=39000.5&qty=2.0&reduce_only=true&side=Buy&symbol=BTCUSD&time_in_force=PostOnly&timestamp=1609459200000".
Proof.
  vm_compute. reflexivity.
Qed.

(** The test vectors of SHA-256 and of HMAC-SHA256. *)
Example sha256_abc :
  Sha256.hex (Sha256.digest (Sha256.bytes_of_string "abc"))
  = "ba7816bf8f01cfea414140de5dae2223b00361a396177a9cb410ff61f20015ad".
Proof.
  vm_compute. reflexivity.
Qed.

Example hmac_sha256_fox :
  hmac_sha256_hexdigest "key" "The quick brown fox jumps over the lazy dog"
  = "f7bc83f430538424b13298e6aa6fb143ef4d59a14946175997479dbc2d1a3cd8".
Proof.
  vm_compute. reflexivity.
Qed.

(** The example of the spec: the REST record normalizes to the tick with
    price 100.5, quantity 2.0 and timestamp 1609459200000.0. *)
Example format_tick_sample :
  format_tick (E := offline_env) sample_trade = Ok sample_tick /\
  float_of_string "100.5" = Some (S754_finite false 7072058789855232 (-46)) /\
  (7072058789855232 = 201 * 2 ^ 45)%Z.
Proof.
  repeat split.
Qed.

(* ================================================================= *)
(** * Further properties of the adapter *)

(* ----------------------------------------------------------------- *)
(** ** Capitalization of the vendor's tokens *)

Lemma lower_upper_char (c : ascii) : lower_char (upper_char c) = lower_char c.
Proof.
  destruct c as [[] [] [] [] [] [] [] []]; reflexivity.
Qed.

Lemma upper_upper_char (c : ascii) : upper_char (upper_char c) = upper_char c.
Proof.
  destruct c as [[] [] [] [] [] [] [] []]; reflexivity.
Qed.

Lemma lower_lower_char (c : ascii) : lower_char (lower_char c) = lower_char c.
Proof.
  destruct c as [[] [] [] [] [] [] [] []]; reflexivity.
Qed.

Lemma lower_lower (s : string) : lower (lower s) = lower s.
Proof.
  induction s as [|c s IH]; cbn [lower]; [reflexivity|].
  rewrite lower_lower_char, IH. reflexivity.
Qed.

Lemma lower_length (s : string) : String.length (lower s) = String.length s.
Proof.
  induction s as [|c s IH]; cbn [lower String.length]; congruence.
Qed.

(** X1.  On a non-empty ASCII text [first_capitalized] succeeds, keeps
    the length, is idempotent, and changes the case only: lower-casing
    its result gives the lower-cased input, so the token the vendor
    echoes, lower-cased again by [execute_order] and
    [fetch_open_orders], is the lower-cased token that was sent. *)
Theorem first_capitalized_case_only (s : string) :
  s <> "" -> is_ascii s ->
  exists t,
    first_capitalized (PStr s) = Ok t /\
    lower t = lower s /\
    String.length t = String.length s /\
    first_capitalized (PStr t) = Ok t.
Proof.
  intros Hne _. destruct s as [|c s]; [congruence|].
  exists (String (upper_char c) (lower s)). cbn [first_capitalized lower String.length].
  rewrite lower_upper_char, lower_lower, lower_length, upper_upper_char.
  repeat split.
Qed.

Lemma first_capitalized_case_only_witness :
  exists t,
    first_capitalized (PStr "bUY") = Ok t /\
    lower t = lower "bUY" /\
    String.length t = String.length "bUY" /\
    first_capitalized (PStr t) = Ok t.
Proof.
  apply (first_capitalized_case_only "bUY").
  - discriminate.
  - unfold is_ascii. cbn. repeat constructor.
Defined.

(* ----------------------------------------------------------------- *)
(** ** Position side: every side that is not a buy *)

(** X2.  [determine_pos_side] has no row of its own for "sell": an
    order whose lower-cased side is anything but "buy" is classified as
    a sell is, "entry" giving shrt, "close" without "entry" giving long,
    and neither giving "both". *)
Theorem determine_pos_side_not_buy (d : dict pyval) (side id : string) :
  dict_get d "side" = Some (PStr side) ->
  dict_get d "order_link_id" = Some (PStr id) ->
  lower side <> "buy" ->
  (has_substring "entry" id -> determine_pos_side (PDict d) = Ok "shrt") /\
  (~ has_substring "entry" id -> has_substring "close" id ->
   determine_pos_side (PDict d) = Ok "long") /\
  (~ has_substring "entry" id -> ~ has_substring "close" id ->
   determine_pos_side (PDict d) = Ok "both").
Proof.
  intros Hside Hid Hnb.
  unfold determine_pos_side, subscript, of_option.
  rewrite Hside, Hid. cbn [obind str_lower str_in].
  destruct (String.eqb_spec (lower side) "buy") as [Hb|_]; [contradiction|].
  destruct (contains_reflect "entry" id) as [He|He];
    destruct (contains_reflect "close" id) as [Hc|Hc];
    cbn [obind]; repeat split; intros; try reflexivity; tauto.
Qed.

(** An order the vendor reports with the side "None". *)
Lemma determine_pos_side_not_buy_witness :
  determine_pos_side
    (PDict [("side", PStr "None"); ("order_link_id", PStr "close_123_4")])
  = Ok "long".
Proof.
  refine (proj1 (proj2 (determine_pos_side_not_buy
            [("side", PStr "None"); ("order_link_id", PStr "close_123_4")]
            "None" "close_123_4" eq_refl eq_refl _)) _ _).
  - discriminate.
  - apply contains_false. reflexivity.
  - exists "", "_123_4". reflexivity.
Defined.

(* ----------------------------------------------------------------- *)
(** ** Market type: what [init_market_type] leaves behind *)

(** X4.  After [init_market_type] the instance has an endpoint for every
    logical name the other methods look up, the balance endpoint being
    the same on every market; [inverse] and [config['inverse']] are false
    exactly on the linear market; an inverse-perpetual bot is never in
    hedge mode; and a second call changes nothing any more. *)
Theorem init_market_type_endpoints (self : Bybit) (w : world) :
  exists (self' : Bybit) (w' : world),
    init_market_type self w = (Ok self', w') /\
    Forall (fun name => exists url, dict_get (endpoints self') name = Some url)
           ["position"; "open_orders"; "create_order"; "cancel_order";
            "ticks"; "websocket"; "created_at_key"; "balance"] /\
    dict_get (endpoints self') "balance" = Some "/v2/private/wallet/balance" /\
    inverse self' = negb (String.eqb (market_type self') "linear_perpetual") /\
    dict_get (config self') "inverse" = Some (PBool (inverse self')) /\
    (market_type self' = "inverse_perpetual" -> hedge_mode self' = false) /\
    fst (init_market_type self' w') = Ok self'.
Proof.
  unfold init_market_type.
  destruct (endswith (symbol self) "USDT") eqn:H4;
    [|destruct (endswith (symbol self) "USD") eqn:H3];
    (eexists; eexists; split; [reflexivity|]);
    cbn [with_market symbol endpoints market_type inverse config hedge_mode];
    rewrite ?H4, ?H3;
    (split; [repeat constructor; eexists; reflexivity|]);
    (split; [reflexivity|]); (split; [reflexivity|]);
    (split; [apply dict_get_set_same|]);
    (split; [try reflexivity; discriminate|]);
    unfold bind, print, ret, with_market;
    cbn [fst symbol endpoints market_type inverse config hedge_mode key secret coin quot
         price xk base_endpoint];
    f_equal; f_equal.
  all: set (c := config self); clearbody c;
    induction c as [|[k v] c IH]; cbn [dict_set];
    [rewrite String.eqb_refl; reflexivity|];
    destruct (String.eqb k "inverse") eqn:Hk; cbn [dict_set]; rewrite Hk;
    [reflexivity|congruence].
Qed.

(* ----------------------------------------------------------------- *)
(** ** REST ticks: what a caller can rely on *)


Section TicksFurther.

Context {E : Externals}.


(** X7.  With [do_print], a batch of records that all normalize is still
    lost when [ts_to_date] refuses the time of the first tick: the result
    is the empty list and the line printed is "fetched no new trades". *)
Theorem fetch_ticks_unprintable_batch_lost
  (self : Bybit) (from_id : option Z) (w : world) (url : string)
  (ticks r0 t0 id : pyval) (rest trades : list pyval) (ms : float) (e : exn) :
  dict_get (endpoints self) "ticks" = Some url ->
  http (requests w) "get" (base_endpoint self ++ url) (ticks_params self from_id)
  = Ok ticks ->
  subscript ticks "result" = Ok (PList (r0 :: rest)) ->
  omap format_tick (r0 :: rest) = Ok (t0 :: trades) ->
  subscript t0 "trade_id" = Ok id ->
  subscript t0 "timestamp" = Ok (PFloat ms) ->
  ts_to_date (fdiv ms (float_of_Z 1000)) = Raise e ->
  fetch_ticks self from_id true w =
  (Ok [], after_fetch w [Printed_ [Val (PStr "fetched no new trades");
                                   Val (PStr (symbol self))]]) /\
  fetch_ticks self from_id false w = (Ok (t0 :: trades), after_fetch w []).
Proof.
  intros Hurl Hhttp Hres Hmap Hid Hts Hdate. split.
  - rewrite (fetch_ticks_transport_answers self from_id true w url Hurl ticks Hhttp).
    unfold try_except_all, format_and_report, bind, lift.
    rewrite Hres. cbn [obind iterate]. rewrite Hmap. cbn [first].
    rewrite Hid, Hts. cbn [py_float]. rewrite Hdate.
    unfold print, ret, after_fetch. cbn [stdout clock_reads requests].
    rewrite app_nil_r. reflexivity.
  - rewrite (fetch_ticks_transport_answers self from_id false w url Hurl ticks Hhttp).
    unfold try_except_all, format_and_report, bind, lift.
    rewrite Hres. cbn [obind iterate]. rewrite Hmap. reflexivity.
Qed.

(** X8.  The module-level [fetch_ticks] guards the transport only: when
    the client answers with an empty batch it returns the empty list
    without [do_print] and raises [IndexError] with it, where the method
    returns the empty list in both cases. *)
Theorem toplevel_fetch_ticks_empty_batch
  (cc : dict pyval -> M pyval) (sym : string) (from_id : option Z)
  (w w1 : world) (fetched : pyval) :
  (forall params, cc params w = (Ok fetched, w1)) ->
  subscript fetched "result" = Ok (PList []) ->
  Toplevel.fetch_ticks cc sym from_id false w = (Ok [], w1) /\
  Toplevel.fetch_ticks cc sym from_id true w = (Raise IndexError, w1).
Proof.
  intros Hcc Hres. unfold Toplevel.fetch_ticks.
  split; rewrite Hcc; unfold bind, lift, ret; rewrite Hres; reflexivity.
Qed.

End TicksFurther.

(** The sample batch with a [ts_to_date] that refuses its time. *)
Lemma fetch_ticks_unprintable_batch_lost_witness :
  fetch_ticks (E := undated_env [sample_trade]) btcusd_bot None true world0 =
  (Ok [], after_fetch world0 [Printed_ [Val (PStr "fetched no new trades");
                                        Val (PStr "BTCUSD")]]) /\
  fetch_ticks (E := undated_env [sample_trade]) btcusd_bot None false world0
  = (Ok [sample_tick], after_fetch world0 []).
Proof.
  exact (fetch_ticks_unprintable_batch_lost (E := undated_env [sample_trade])
           btcusd_bot None world0 "/v2/public/trading-records"
           (trades_answer [sample_trade]) sample_trade sample_tick (PInt 42) [] []
           (float_of_Z 1609459200000) ValueError
           eq_refl eq_refl eq_refl eq_refl eq_refl eq_refl eq_refl).
Defined.


Lemma toplevel_fetch_ticks_empty_batch_witness :
  Toplevel.fetch_ticks (E := offline_env) (sample_cc []) "BTCUSD" None false world0
  = (Ok [], world0) /\
  Toplevel.fetch_ticks (E := offline_env) (sample_cc []) "BTCUSD" None true world0
  = (Raise IndexError, world0).
Proof.
  exact (toplevel_fetch_ticks_empty_batch (E := offline_env) (sample_cc []) "BTCUSD"
           None world0 world0 (trades_answer [])
           (fun _ => eq_refl) eq_refl).
Defined.

(* ----------------------------------------------------------------- *)
(** ** WebSocket ticks: one record at a time *)





(* ----------------------------------------------------------------- *)
(** ** Positions: effects and the one-way market *)

Section PositionsFurther.

Context {E : Externals}.

(** X10.  With its two endpoints known, [fetch_position] always sends
    exactly two requests, reads the clock twice and prints nothing.  It
    catches no exception: when one of the two requests fails, its
    exception reaches the caller, whichever request it is; when both
    fail, the caller meets the exception of the request that completes
    first, as [asyncio.gather] propagates the first exception raised.
    An exception outside [Exception] is passed on in the same way. *)
Theorem fetch_position_effects (self : Bybit) (w : world) (url_p url_b : string) :
  dict_get (endpoints self) "position" = Some url_p ->
  dict_get (endpoints self) "balance" = Some url_b ->
  snd (fetch_position self w) =
  {| stdout := stdout w;
     clock_reads := S (S (clock_reads w));
     requests := S (S (requests w)) |} /\
  (forall e bal,
     position_answer self w url_p = Raise e ->
     balance_answer self w url_b = Ok bal ->
     fst (fetch_position self w) = Raise e) /\
  (forall fetched e,
     position_answer self w url_p = Ok fetched ->
     balance_answer self w url_b = Raise e ->
     fst (fetch_position self w) = Raise e) /\
  (forall e1 e2,
     position_answer self w url_p = Raise e1 ->
     balance_answer self w url_b = Raise e2 ->
     fst (fetch_position self w)
     = Raise (if settles_first (requests w) then e1 else e2)) /\
  (forall b,
     position_answer self w url_p = RaiseBase b /\
     is_ok (balance_answer self w url_b) = true \/
     is_ok (position_answer self w url_p) = true /\
     balance_answer self w url_b = RaiseBase b ->
     fst (fetch_position self w) = RaiseBase b).
Proof.
  intros Hp Hb.
  rewrite (fetch_position_gathers self w url_p url_b Hp Hb). cbn [fst snd].
  split; [reflexivity|]. repeat split.
  - intros e bal -> ->. destruct (settles_first (requests w)); reflexivity.
  - intros fetched e -> ->. destruct (settles_first (requests w)); reflexivity.
  - intros e1 e2 -> ->. destruct (settles_first (requests w)); reflexivity.
  - intros b [[-> Hok]|[Hok ->]];
      [destruct (balance_answer self w url_b)|destruct (position_answer self w url_p)];
      try discriminate Hok;
      destruct (settles_first (requests w)); reflexivity.
Qed.

Lemma side_upnl_no_entry
  (calc : float -> float -> float -> pyval -> pyval -> outcome float)
  (self : Bybit) (sz : float) :
  side_upnl calc self fzero sz = Ok fzero.
Proof.
  reflexivity.
Qed.

(** X11.  On the inverse-perpetual market the one record of the answer
    is the long side exactly when its side is the string "Buy"; the other
    side is the zero-size placeholder: a short side of size [-0.0], a long
    side of size [0.0], with entry price, leverage, liquidation price and
    unrealized pnl all [0.0].  A record with any other side, "None" for
    no position included, is read as the short side. *)
Theorem fetch_position_one_way
  (self : Bybit) (w : world) (url_p : string) (fetched r side : pyval)
  (pos : Position) :
  market_type self = "inverse_perpetual" ->
  dict_get (endpoints self) "position" = Some url_p ->
  position_answer self w url_p = Ok fetched ->
  subscript fetched "result" = Ok r ->
  subscript r "side" = Ok side ->
  fst (fetch_position self w) = Ok pos ->
  (side = PStr "Buy" ->
   field_float r "size" = Ok (size (long pos)) /\
   shrt pos = {| size := fneg fzero; entry_price := fzero; leverage := fzero;
                 liquidation_price := fzero; upnl := fzero |}) /\
  (side <> PStr "Buy" ->
   (exists sz, field_float r "size" = Ok sz /\ size (shrt pos) = fneg sz) /\
   long pos = zero_side).
Proof.
  intros Hmt Hurl Hans Hres Hside Hpos.
  destruct (fetch_position_returns self w pos Hpos)
    as (url_p' & url_b & fetched' & bal & wb & lp & sp & Hurl' & Hans' & _ & Hraw & Hbuild).
  assert (url_p' = url_p) by congruence. subst url_p'.
  assert (fetched' = fetched) by congruence. subst fetched'.
  unfold raw_sides in Hraw. rewrite Hmt in Hraw.
  cbn [String.eqb Ascii.eqb Bool.eqb] in Hraw.
  destruct (wallet_of bal (coin self)); cbn [obind] in Hraw; [|discriminate..].
  rewrite Hres in Hraw. cbn [obind] in Hraw. rewrite Hside in Hraw. cbn [obind] in Hraw.
  pose proof (eq_str_spec side "Buy") as Hbuy.
  destruct (eq_str side "Buy"); injection Hraw as <- <- <-.
  - split; [|intros Hne; exfalso; apply Hne, Hbuy; reflexivity].
    intros _.
    destruct (build_position_fields self _ _ _ pos Hbuild)
      as (_ & Hl & _).
    split; [exact Hl|].
    unfold build_position in Hbuild.
    destruct (field_float r "size") as [sz| |]; cbn [obind] in Hbuild; [|discriminate..].
    destruct (field_float r "entry_price") as [en| |]; cbn [obind] in Hbuild; [|discriminate..].
    destruct (field_float r "leverage"); cbn [obind] in Hbuild; [|discriminate..].
    destruct (field_float r "liq_price"); cbn [obind] in Hbuild; [|discriminate..].
    change (field_float placeholder "size") with (Ok fzero) in Hbuild.
    change (field_float placeholder "entry_price") with (Ok fzero) in Hbuild.
    change (field_float placeholder "leverage") with (Ok fzero) in Hbuild.
    change (field_float placeholder "liq_price") with (Ok fzero) in Hbuild.
    cbn [obind] in Hbuild.
    destruct (side_upnl calc_long_pnl self en sz); cbn [obind] in Hbuild; [|discriminate..].
    rewrite side_upnl_no_entry in Hbuild. cbn [obind] in Hbuild.
    injection Hbuild as <-. reflexivity.
  - split; [intros ->; destruct Hbuy as [_ Hbuy]; specialize (Hbuy eq_refl); discriminate|].
    intros _.
    destruct (build_position_fields self _ _ _ pos Hbuild)
      as (_ & _ & Hs & _).
    split; [exact Hs|].
    unfold build_position in Hbuild.
    change (field_float placeholder "size") with (Ok fzero) in Hbuild.
    change (field_float placeholder "entry_price") with (Ok fzero) in Hbuild.
    change (field_float placeholder "leverage") with (Ok fzero) in Hbuild.
    change (field_float placeholder "liq_price") with (Ok fzero) in Hbuild.
    cbn [obind] in Hbuild.
    destruct (field_float r "size") as [sz| |]; cbn [obind] in Hbuild; [|discriminate..].
    destruct (field_float r "entry_price") as [en| |]; cbn [obind] in Hbuild; [|discriminate..].
    destruct (field_float r "leverage"); cbn [obind] in Hbuild; [|discriminate..].
    destruct (field_float r "liq_price"); cbn [obind] in Hbuild; [|discriminate..].
    rewrite side_upnl_no_entry in Hbuild. cbn [obind] in Hbuild.
    destruct (side_upnl calc_shrt_pnl self en (fneg sz)); cbn [obind] in Hbuild;
      [|discriminate..].
    injection Hbuild as <-. reflexivity.
Qed.

End PositionsFurther.

(** The position request times out and the balance request is refused,
    the refusal first: the caller meets the refusal. *)
Lemma fetch_position_effects_witness :
  snd (fetch_position (E := racing_env) btcusd_bot world0) =
  {| stdout := []; clock_reads := 2; requests := 2 |} /\
  fst (fetch_position (E := racing_env) btcusd_bot world0)
  = Raise (External "ClientConnectorError").
Proof.
  pose proof (fetch_position_effects (E := racing_env) btcusd_bot world0
                "/v2/private/position/list" "/v2/private/wallet/balance"
                eq_refl eq_refl) as (Hw & _ & _ & Hboth & _).
  split; [exact Hw|].
  exact (Hboth (External "TimeoutError") (External "ClientConnectorError")
           eq_refl eq_refl).
Defined.

(** Ten contracts bought: the short side is the placeholder. *)
Lemma fetch_position_one_way_witness :
  field_float (PDict [("symbol", PStr "BTCUSD"); ("side", PStr "Buy");
                      ("size", PInt 10); ("entry_price", PStr "30000");
                      ("leverage", PStr "10"); ("liq_price", PStr "25000")]) "size"
  = Ok (size (long sample_long_position)) /\
  shrt sample_long_position
  = {| size := fneg fzero; entry_price := fzero; leverage := fzero;
       liquidation_price := fzero; upnl := fzero |}.
Proof.
  refine (proj1 (fetch_position_one_way (E := perpetual_env "Buy" 10 "30000")
                   btcusd_bot world0 "/v2/private/position/list"
                   (perpetual_answer "Buy" 10 "30000") _ (PStr "Buy")
                   sample_long_position eq_refl eq_refl eq_refl eq_refl eq_refl eq_refl)
                eq_refl).
Defined.

(* ----------------------------------------------------------------- *)
(** ** Signing: what happens to the caller's parameters *)

Section SigningFurther.

Context {E : Externals}.

Lemma dict_get_coerce_all (d : dict pyval) (k : string) :
  dict_get (coerce_all d) k = option_map coerce (dict_get d k).
Proof.
  induction d as [|[k0 v0] d IH]; cbn [coerce_all map dict_get fst snd]; [reflexivity|].
  destruct (String.eqb k0 k); [reflexivity|exact IH].
Qed.

(** X12.  Signing keeps every parameter of the caller under its key,
    coerced to text when it is a boolean or a float, and overrides what
    the caller may have put under [api_key] and [timestamp]: these always
    hold the bot's key and the clock reading. *)
Theorem sign_params_keeps_parameters
  (self : Bybit) (timestamp : Z) (params : dict pyval) (k : string) :
  dict_wf params ->
  k <> "api_key" -> k <> "timestamp" -> k <> "sign" ->
  dict_get (sign_params self timestamp params) k
  = option_map coerce (dict_get params k) /\
  dict_get (sign_params self timestamp params) "api_key" = Some (PStr (key self)) /\
  dict_get (sign_params self timestamp params) "timestamp" = Some (PInt timestamp).
Proof.
  intros Hwf Hk1 Hk2 Hk3.
  rewrite (sign_params_steps self timestamp params Hwf). unfold signing_steps.
  repeat split.
  - rewrite dict_get_set_other by congruence.
    rewrite dict_get_coerce_all.
    rewrite !dict_get_set_other by congruence. reflexivity.
  - rewrite dict_get_set_other by discriminate.
    rewrite dict_get_coerce_all.
    rewrite dict_get_set_other by discriminate.
    rewrite dict_get_set_same. reflexivity.
  - rewrite dict_get_set_other by discriminate.
    rewrite dict_get_coerce_all, dict_get_set_same. reflexivity.
Qed.

End SigningFurther.

(** The quantity of the sample parameters, a float, is sent as text. *)
Lemma sign_params_keeps_parameters_witness :
  dict_get (sign_params (E := offline_env) btcusd_bot 1609459200000 sample_params) "qty"
  = Some (PStr "2.0").
Proof.
  refine (eq_trans (proj1 (sign_params_keeps_parameters (E := offline_env) btcusd_bot
                             1609459200000 sample_params "qty" sample_params_wf _ _ _)) _).
  - discriminate.
  - discriminate.
  - discriminate.
  - reflexivity.
Defined.

(* ----------------------------------------------------------------- *)
(** ** URL encoding: separators cannot be injected *)

Lemma url_safe_hex (c : ascii) :
  url_safe (hex_digit (N_of_ascii c / 16)) = true /\
  url_safe (hex_digit (N_of_ascii c mod 16)) = true.
Proof.
  destruct c as [[] [] [] [] [] [] [] []]; split; reflexivity.
Qed.

(** Every character [quote_plus] writes is unreserved, a plus sign or a
    percent sign. *)
Lemma quote_plus_url_safe (s : string) :
  Forall (fun c => url_safe c = true) (list_ascii_of_string (quote_plus s)).
Proof.
  induction s as [|c s IH]; cbn [quote_plus]; [constructor|].
  destruct (is_unreserved c) eqn:Hu.
  - cbn [list_ascii_of_string]. constructor; [|exact IH].
    unfold url_safe. rewrite Hu. reflexivity.
  - destruct (Ascii.eqb c " ").
    + cbn [list_ascii_of_string]. constructor; [reflexivity|exact IH].
    + cbn [list_ascii_of_string]. destruct (url_safe_hex c) as [H1 H2].
      repeat (constructor; [reflexivity || assumption|]). exact IH.
Qed.

Lemma count_char_app (c : ascii) (a b : string) :
  count_char c (a ++ b)%string = (count_char c a + count_char c b)%nat.
Proof.
  induction a as [|c' a IH]; cbn [append count_char]; [reflexivity|].
  rewrite IH. lia.
Qed.

Lemma count_char_unsafe (c : ascii) (s : string) :
  url_safe c = false -> count_char c (quote_plus s) = 0%nat.
Proof.
  intros Hc. pose proof (quote_plus_url_safe s) as Hs.
  induction (quote_plus s) as [|c' q IH]; cbn [count_char]; [reflexivity|].
  cbn [list_ascii_of_string] in Hs. inversion Hs as [|? ? Hc' Hq]; subst.
  rewrite (IH Hq).
  destruct (Ascii.eqb_spec c' c) as [->|_]; [congruence|reflexivity].
Qed.

Section Encoding.

Context {E : Externals}.

(** X13.  Whatever the keys and the values hold, the text [urlencode]
    produces has exactly one equals sign for each parameter and one
    ampersand between two parameters: a key or a value that holds such a
    character, or a space, cannot add or split a parameter of the signed
    text. *)
Theorem urlencode_separators (d : dict pyval) :
  count_char "=" (urlencode d) = List.length d /\
  count_char "&" (urlencode d) = pred (List.length d) /\
  count_char " " (urlencode d) = 0%nat.
Proof.
  unfold urlencode.
  induction d as [|[k v] d (IH1 & IH2 & IH3)]; [repeat split|].
  cbn [map fst snd List.length pred].
  destruct d as [|kv d].
  - cbn [map String.concat List.length].
    rewrite !count_char_app, !count_char_unsafe by reflexivity.
    repeat split.
  - cbn [map] in *. cbn [String.concat].
    cbn [String.concat] in IH1, IH2, IH3.
    rewrite !count_char_app, !count_char_unsafe by reflexivity.
    rewrite IH1, IH2, IH3. cbn [List.length pred count_char Ascii.eqb Bool.eqb].
    repeat split; lia.
Qed.

End Encoding.

(* ----------------------------------------------------------------- *)
(** ** Exchange configuration *)

Section ExchangeConfig.

Context {E : Externals}.

(** X14.  [init_exchange_config] lets no subclass of [Exception]
    escape, whatever the transport does and whatever the market type is,
    an unknown one included: when none of its requests is met by an
    exception outside [Exception], it returns, having sent at most three
    requests and printed at least one line, the vendor's answer or the
    exception.  An exception outside [Exception] passes the clause of
    line 316: when the requests meet the cancellation of the task, on
    each of the three markets the call raises it and prints nothing. *)
Theorem init_exchange_config_catches_exceptions (self : Bybit) (w : world) :
  ((forall n type_ url params b,
      (requests w <= n < 3 + requests w)%nat ->
      http n type_ url params <> RaiseBase b) ->
   exists w' : world,
     init_exchange_config self w = (Ok tt, w') /\
     (requests w' <= 3 + requests w)%nat /\
     (List.length (stdout w) < List.length (stdout w'))%nat) /\
  (forall b,
     (forall n type_ url params, http n type_ url params = RaiseBase b) ->
     market_type self = "inverse_futures" \/
     market_type self = "linear_perpetual" \/
     market_type self = "inverse_perpetual" ->
     fst (init_exchange_config self w) = RaiseBase b /\
     stdout (snd (init_exchange_config self w)) = stdout w).
Proof.
  split.
  - intros Hinside.
    unfold init_exchange_config, exchange_config_body, try_except, gather,
      private_post, private_, request, time_ms, bind, lift, print, obind.
    cbn [requests clock_reads stdout].
    repeat match goal with
           | |- context [match ?x with _ => _ end] =>
               match x with
               | context [match _ with _ => _ end] => fail 1
               | _ => destruct x eqn:?
               end
           end;
      cbn [obind] in *; try discriminate;
      try match goal with
          | H : http ?n ?t ?u ?p = RaiseBase ?b |- _ =>
              exfalso; apply (Hinside n t u p b); [lia|exact H]
          end;
      eexists; (split; [reflexivity|]); cbn [requests stdout];
      rewrite ?length_app; cbn [List.length]; lia.
  - intros b Hall Hmt.
    unfold init_exchange_config, exchange_config_body, try_except, gather,
      private_post, private_, request, time_ms, bind, lift, print.
    cbn [requests clock_reads stdout].
    destruct Hmt as [-> | [-> | ->]]; cbn [String.eqb Ascii.eqb Bool.eqb];
      rewrite !Hall; cbn [obind]; destruct (settles_first (requests w));
      split; reflexivity.
Qed.

End ExchangeConfig.

(** The inverse-perpetual bot with the task cancelled at the request, and
    with the transport down. *)
Lemma init_exchange_config_catches_exceptions_witness :
  fst (init_exchange_config (E := cancelled_env) btcusd_bot world0)
  = RaiseBase CancelledError /\
  exists w' : world,
    init_exchange_config (E := offline_env) btcusd_bot world0 = (Ok tt, w') /\
    (requests w' <= 3 + requests world0)%nat /\
    (List.length (stdout world0) < List.length (stdout w'))%nat.
Proof.
  split.
  - apply (proj2 (init_exchange_config_catches_exceptions (E := cancelled_env)
                    btcusd_bot world0) CancelledError).
    + reflexivity.
    + right. right. reflexivity.
  - apply (proj1 (init_exchange_config_catches_exceptions (E := offline_env)
                    btcusd_bot world0)).
    intros n type_ url params b _. discriminate.
Defined.

(* ----------------------------------------------------------------- *)
(** ** Orders *)

(** The scrutinee an outcome depends on first. *)
Ltac head_scrutinee t :=
  lazymatch t with
  | obind ?x _ => head_scrutinee x
  | (if ?b then _ else _) => head_scrutinee b
  | (match ?x with _ => _ end) => head_scrutinee x
  | _ => constr:(t)
  end.

(** Runs a computation that returned [Ok] step by step, keeping the
    equation of every step. *)
Ltac invert_ok H :=
  repeat (cbn [obind lookup of_option dict_get dict_set eq_str
               String.eqb Ascii.eqb Bool.eqb] in H;
          lazymatch type of H with
          | Ok _ = Ok _ => fail
          | ?lhs = Ok _ =>
              let x := head_scrutinee lhs in
              destruct x eqn:?; cbn [obind] in H; try discriminate H
          end).

Lemma omap_ok_Forall2 {A B : Type} (f : A -> outcome B) (xs : list A) :
  forall ys, omap f xs = Ok ys -> Forall2 (fun x y => f x = Ok y) xs ys.
Proof.
  induction xs as [|x xs IH]; cbn [omap]; intros ys.
  - intros [= <-]. constructor.
  - destruct (f x) as [y| |] eqn:Hx; cbn [obind]; [|discriminate..].
    destruct (omap f xs) as [ys'| |]; cbn [obind]; [|discriminate..].
    intros [= <-]. constructor; [exact Hx|]. apply IH. reflexivity.
Qed.

Lemma str_of_Z_chars (z : Z) :
  Forall (fun c => is_suffix_char c = true) (list_ascii_of_string (str_of_Z z)).
Proof.
  assert (Hu : forall d, Forall (fun c => is_suffix_char c = true)
                           (list_ascii_of_string (NilEmpty.string_of_uint d))).
  { induction d; cbn [NilEmpty.string_of_uint list_ascii_of_string];
      constructor; auto. }
  assert (Hz : forall d, Forall (fun c => is_suffix_char c = true)
                           (list_ascii_of_string (NilZero.string_of_uint d))).
  { destruct d; try apply Hu. repeat constructor. }
  unfold str_of_Z, NilZero.string_of_int.
  destruct (Z.to_int z); [apply Hz|].
  cbn [list_ascii_of_string]. constructor; [reflexivity|apply Hz].
Qed.

Lemma substring_chars (P : ascii -> Prop) (s : string) : forall n m : nat,
  Forall P (list_ascii_of_string s) ->
  Forall P (list_ascii_of_string (substring n m s)).
Proof.
  induction s as [|c s IH]; intros n m Hs.
  - destruct n, m; constructor.
  - cbn [list_ascii_of_string] in Hs. inversion Hs as [|? ? Hc Hrest]; subst.
    destruct n as [|n]; [destruct m as [|m]|]; cbn [substring list_ascii_of_string].
    + constructor.
    + constructor; [exact Hc|]. apply IH, Hrest.
    + apply IH, Hrest.
Qed.

Lemma append_chars (a b : string) :
  list_ascii_of_string (a ++ b)%string
  = list_ascii_of_string a ++ list_ascii_of_string b.
Proof.
  induction a as [|c a IH]; cbn [append list_ascii_of_string app]; congruence.
Qed.

Lemma prefix_foreign (suffix : string) (x : string) : forall tag : string,
  foreign_to tag suffix -> prefix tag (x ++ suffix) = prefix tag x.
Proof.
  induction x as [|b x IH]; intros tag Hf.
  - cbn [append]. destruct tag as [|a tag]; [destruct suffix; reflexivity|].
    destruct suffix as [|b suffix]; [reflexivity|]. cbn [prefix].
    destruct (ascii_dec a b) as [->|_]; [|reflexivity..].
    exfalso. apply (Hf b); left; reflexivity.
  - destruct tag as [|a tag]; [reflexivity|]. cbn [append prefix].
    destruct (ascii_dec a b); [|reflexivity..].
    apply IH. intros c Hc Hin. apply (Hf c Hc). right. exact Hin.
Qed.

Lemma contains_foreign (tag suffix : string) :
  tag <> "" -> foreign_to tag suffix -> contains tag suffix = false.
Proof.
  intros Hne. induction suffix as [|b suffix IH]; intros Hf.
  - destruct tag; [congruence|reflexivity].
  - cbn [contains].
    rewrite IH.
    + destruct tag as [|a tag]; [congruence|]. cbn [prefix].
      destruct (ascii_dec a b) as [->|_]; [|reflexivity..].
      exfalso. apply (Hf b); left; reflexivity.
    + intros c Hc. apply Hf. right. exact Hc.
Qed.

Lemma contains_append_foreign (tag suffix : string) (x : string) :
  tag <> "" -> foreign_to tag suffix ->
  contains tag (x ++ suffix) = contains tag x.
Proof.
  intros Hne Hf. induction x as [|b x IH].
  - cbn [append]. rewrite (contains_foreign tag suffix Hne Hf).
    destruct tag; [congruence|reflexivity].
  - change (String b x ++ suffix)%string with (String b (x ++ suffix)).
    cbn [contains]. rewrite IH.
    change (String b (x ++ suffix)) with (String b x ++ suffix)%string.
    rewrite (prefix_foreign suffix (String b x) tag Hf). reflexivity.
Qed.

Lemma suffix_foreign (tag suffix : string) :
  Forall (fun c => is_suffix_char c = false) (list_ascii_of_string tag) ->
  Forall (fun c => is_suffix_char c = true) (list_ascii_of_string suffix) ->
  foreign_to tag suffix.
Proof.
  intros Ht Hs c Hc Hin.
  rewrite Forall_forall in Ht, Hs. specialize (Ht c Hin). specialize (Hs c Hc).
  congruence.
Qed.

Section Orders.

Context {E : Externals}.

(** The client order id is the custom id followed by an underscore and
    characters that are digits, minus signs or underscores. *)
Lemma order_link_id_suffix (custom link : string) (timestamp : Z) (random : float) :
  order_link_id (PStr custom) timestamp random = Ok link ->
  exists suffix,
    link = (custom ++ suffix)%string /\
    Forall (fun c => is_suffix_char c = true) (list_ascii_of_string suffix).
Proof.
  unfold order_link_id.
  destruct (int_of_float _) as [r| |]; cbn [obind]; [|discriminate..].
  intros [= <-]. cbn [py_str].
  exists (String "_" (drop 8 (str_of_Z timestamp) ++ String "_" (str_of_Z r))).
  split; [reflexivity|].
  cbn [list_ascii_of_string]. constructor; [reflexivity|].
  rewrite append_chars. apply Forall_app. split.
  - unfold drop. apply substring_chars, str_of_Z_chars.
  - cbn [list_ascii_of_string]. constructor; [reflexivity|apply str_of_Z_chars].
Qed.

(** X15.  The client order id [execute_order] makes from a custom id
    classifies as the custom id does: for the vendor's record of the
    order, [determine_pos_side] answers what it answers for the custom id
    alone, since the time and the random number add digits and
    underscores only and so neither add nor hide an "entry" or a
    "close". *)
Theorem order_link_id_classified
  (custom link side : string) (timestamp : Z) (random : float) (d : dict pyval) :
  order_link_id (PStr custom) timestamp random = Ok link ->
  dict_get d "side" = Some (PStr side) ->
  dict_get d "order_link_id" = Some (PStr link) ->
  determine_pos_side (PDict d)
  = determine_pos_side (PDict [("side", PStr side); ("order_link_id", PStr custom)]).
Proof.
  intros Hlink Hside Hid.
  destruct (order_link_id_suffix custom link timestamp random Hlink)
    as (suffix & -> & Hchars).
  assert (He : contains "entry" (custom ++ suffix) = contains "entry" custom).
  { apply contains_append_foreign; [discriminate|].
    apply suffix_foreign; [repeat constructor|exact Hchars]. }
  assert (Hc : contains "close" (custom ++ suffix) = contains "close" custom).
  { apply contains_append_foreign; [discriminate|].
    apply suffix_foreign; [repeat constructor|exact Hchars]. }
  unfold determine_pos_side, subscript, of_option.
  rewrite Hside, Hid. cbn [dict_get String.eqb Ascii.eqb Bool.eqb obind str_lower str_in].
  rewrite He, Hc. reflexivity.
Qed.

(** X16.  In the parameters of a create-order call the time in force
    follows the capitalized order type: "Limit" gives "PostOnly" and the
    price of the order as text, every other type gives "GoodTillCancel"
    and no price. *)
Theorem order_params_time_in_force
  (self : Bybit) (order : pyval) (params : dict pyval) :
  order_params self order = Ok params ->
  exists t raw_type,
    subscript order "type" = Ok raw_type /\
    first_capitalized raw_type = Ok t /\
    dict_get params "order_type" = Some (PStr t) /\
    (t = "Limit" ->
     dict_get params "time_in_force" = Some (PStr "PostOnly") /\
     exists p, subscript order "price" = Ok p /\
               dict_get params "price" = Some (PStr (py_str p))) /\
    (t <> "Limit" ->
     dict_get params "time_in_force" = Some (PStr "GoodTillCancel") /\
     dict_get params "price" = None).
Proof.
  intros H. unfold order_params, with_reduce_only in H.
  invert_ok H; injection H as <-;
    (eexists; eexists; split; [reflexivity|]; split; [eassumption|]);
    cbn [dict_get dict_set String.eqb Ascii.eqb Bool.eqb];
    (split; [reflexivity|]);
    match goal with
    | Hl : String.eqb _ "Limit" = true |- _ => apply String.eqb_eq in Hl
    | Hl : String.eqb _ "Limit" = false |- _ => apply String.eqb_neq in Hl
    end;
    (split; intros Ht; [|try contradiction]; try contradiction);
    (split; [reflexivity|]); try reflexivity;
    eexists; split; reflexivity.
Qed.

(** X17.  A create-order call carries position index 0 and a
    [reduce_only] flag outside hedge mode; in hedge mode the index is 1
    for the position side "long" and 2 for every other, and [reduce_only]
    is sent on the linear market only.  The quantity is sent as a float
    on the linear market and as an integer on the inverse ones.
    [reduce_only], where sent, is true exactly for the custom id
    "close". *)
Theorem order_params_position_index
  (self : Bybit) (order : pyval) (params : dict pyval) :
  order_params self order = Ok params ->
  (hedge_mode self = false ->
   dict_get params "position_idx" = Some (PInt 0)) /\
  (hedge_mode self = true ->
   exists ps, subscript order "position_side" = Ok ps /\
     dict_get params "position_idx"
     = Some (PInt (if eq_str ps "long" then 1 else 2))) /\
  (hedge_mode self = true -> market_type self <> "linear_perpetual" ->
   dict_get params "reduce_only" = None) /\
  (hedge_mode self = false \/ market_type self = "linear_perpetual" ->
   exists c, subscript order "custom_id" = Ok c /\
     dict_get params "reduce_only" = Some (PBool (eq_str c "close"))) /\
  (market_type self = "linear_perpetual" ->
   exists f, dict_get params "qty" = Some (PFloat f)) /\
  (market_type self <> "linear_perpetual" ->
   exists z, dict_get params "qty" = Some (PInt z)).
Proof.
  intros H. unfold order_params, with_reduce_only in H.
  invert_ok H; injection H as <-;
    cbn [dict_get dict_set String.eqb Ascii.eqb Bool.eqb];
    repeat match goal with
           | Hx : String.eqb _ _ = true |- _ => apply String.eqb_eq in Hx
           | Hx : String.eqb _ _ = false |- _ => apply String.eqb_neq in Hx
           end;
    repeat split; intros;
    repeat match goal with
           | Hx : _ \/ _ |- _ => destruct Hx
           end;
    try congruence; try reflexivity;
    try (eexists; split; reflexivity);
    try (eexists; reflexivity).
Qed.

(** X18.  When the vendor answers a create-order request,
    [execute_order] decides on the truth value of the answer's [result]
    alone: a result that is null, empty or zero gives back the answer
    together with the order as it was handed in, and no exception; any
    other result gives the confirmation, whose position side is the
    order's own, not the vendor's. *)
Theorem execute_order_outcome
  (self : Bybit) (order : pyval) (random : float) (w : world)
  (params : dict pyval) (custom_id o result : pyval) (link url : string) :
  order_params self order = Ok params ->
  subscript order "custom_id" = Ok custom_id ->
  order_link_id custom_id (now_ms (clock_reads w)) random = Ok link ->
  dict_get (endpoints self) "create_order" = Some url ->
  create_order_answer self w url (dict_set params "order_link_id" (PStr link)) = Ok o ->
  subscript o "result" = Ok result ->
  (truthy result = false ->
   fst (execute_order self order random w) = Ok (Rejected o order)) /\
  (truthy result = true ->
   forall conf, confirmation result order = Ok conf ->
     fst (execute_order self order random w) = Ok (Accepted conf) /\
     subscript conf "position_side" = subscript order "position_side").
Proof.
  intros Hparams Hcustom Hlink Hurl Hans Hres.
  assert (Hrun : fst (execute_order self order random w) =
                 if truthy result
                 then let? c := confirmation result order in Ok (Accepted c)
                 else Ok (Rejected o order)).
  { unfold execute_order, private_post, private_, request, time_ms,
      bind, lift, ret, lookup, of_option.
    rewrite Hparams, Hcustom. cbn [clock_reads requests stdout].
    rewrite Hlink, Hurl. cbn [clock_reads requests stdout].
    unfold create_order_answer in Hans. rewrite Hans, Hres.
    destruct (truthy result); [|reflexivity..].
    cbn [obind]. destruct (confirmation result order); reflexivity. }
  rewrite Hrun. split; intros Ht; rewrite Ht; [reflexivity|].
  intros conf Hconf. rewrite Hconf. split; [reflexivity|].
  unfold confirmation in Hconf. invert_ok Hconf. injection Hconf as <-.
  reflexivity.
Qed.

(** X19.  [fetch_open_orders] returns one order for each record of the
    answer, in the same order: with the vendor's order id, with the
    vendor's [order_link_id] as [custom_id], with the side in lower case
    and with the position side [determine_pos_side] gives for the
    record. *)
Theorem fetch_open_orders_records
  (self : Bybit) (w : world) (url : string) (fetched : pyval)
  (records orders : list pyval) :
  dict_get (endpoints self) "open_orders" = Some url ->
  open_orders_answer self w url = Ok fetched ->
  subscript fetched "result" = Ok (PList records) ->
  fst (fetch_open_orders self w) = Ok orders ->
  Forall2 (fun elm order =>
             exists side position_side,
               subscript elm "side" = Ok (PStr side) /\
               determine_pos_side elm = Ok position_side /\
               subscript order "side" = Ok (PStr (lower side)) /\
               subscript order "position_side" = Ok (PStr position_side) /\
               subscript order "order_id" = subscript elm "order_id" /\
               subscript order "custom_id" = subscript elm "order_link_id")
          records orders.
Proof.
  intros Hurl Hans Hres.
  unfold fetch_open_orders, private_get, private_, request, time_ms,
    bind, lift, lookup, of_option.
  rewrite Hurl. cbn [clock_reads requests stdout].
  unfold open_orders_answer in Hans. rewrite Hans. cbn [fst].
  rewrite Hres. cbn [obind iterate]. intros Hmap.
  apply omap_ok_Forall2 in Hmap.
  apply (Forall2_impl _ (R1 := fun x y => normalize_order self x = Ok y)); [|exact Hmap].
  intros elm order Hn. unfold normalize_order in Hn.
  invert_ok Hn. injection Hn as <-.
  match goal with
  | Hs : str_lower ?v = Ok _ |- _ => destruct v; try discriminate Hs; injection Hs as <-
  end.
  eexists; eexists. repeat split; try eassumption; try reflexivity.
  all: cbn [subscript of_option dict_get String.eqb Ascii.eqb Bool.eqb]; congruence.
Qed.

(** X20.  [execute_cancellation] reads the order id before it sends the
    request and the other fields after the answer: an order without
    [order_id] raises [KeyError] and nothing is sent, but an order that
    lacks its side raises [KeyError] after the cancel request was sent
    and answered. *)
Theorem execute_cancellation_reads_late
  (self : Bybit) (d : dict pyval) (w : world) (url : string) :
  dict_get (endpoints self) "cancel_order" = Some url ->
  dict_get d "side" = None ->
  (dict_get d "order_id" = None ->
   execute_cancellation self (PDict d) w = (Raise (KeyError "order_id"), w)) /\
  (forall id report,
     dict_get d "order_id" = Some id ->
     cancel_answer self w url id = Ok report ->
     execute_cancellation self (PDict d) w =
     (Raise (KeyError "side"),
      {| stdout := stdout w;
         clock_reads := S (clock_reads w);
         requests := S (requests w) |})).
Proof.
  intros Hurl Hside. split.
  - intros Hid.
    unfold execute_cancellation, bind, lift, lookup, subscript, of_option.
    rewrite Hurl, Hid. reflexivity.
  - intros id report Hid Hans.
    unfold execute_cancellation, private_post, private_, request, time_ms,
      bind, lift, lookup, subscript, of_option.
    rewrite Hurl, Hid. cbn [requests clock_reads stdout].
    unfold cancel_answer in Hans. rewrite Hans, Hside. reflexivity.
Qed.

End Orders.

(** X6.  Without [do_print], a batch of records that all normalize comes
    back whole: one tick for each record, in the order of the batch, each
    the normalization of its record; nothing is printed. *)
Theorem fetch_ticks_keeps_batch
  (E : Externals) (self : Bybit) (from_id : option Z) (w : world) (url : string)
  (ticks : pyval) (records : list pyval) :
  dict_get (endpoints self) "ticks" = Some url ->
  http (requests w) "get" (base_endpoint self ++ url) (ticks_params self from_id)
  = Ok ticks ->
  subscript ticks "result" = Ok (PList records) ->
  Forall (fun r => is_ok (format_tick r) = true) records ->
  exists trades,
    fetch_ticks self from_id false w = (Ok trades, after_fetch w []) /\
    Forall2 (fun r t => format_tick r = Ok t) records trades /\
    List.length trades = List.length records.
Proof.
  intros Hurl Hhttp Hres Hok.
  destruct (fetch_ticks_batch_kept self from_id false w url Hurl ticks records
              eq_refl Hhttp Hres Hok) as [trades [Hrun Hall]].
  exists trades. split; [exact Hrun|]. split; [exact Hall|].
  symmetry. exact (Forall2_length Hall).
Qed.

Lemma fetch_ticks_keeps_batch_witness :
  exists trades,
    fetch_ticks (E := rest_env [sample_trade]) btcusd_bot None false world0
    = (Ok trades, after_fetch world0 []) /\
    Forall2 (fun r t => format_tick (E := rest_env [sample_trade]) r = Ok t)
            [sample_trade] trades /\
    List.length trades = List.length [sample_trade].
Proof.
  apply (fetch_ticks_keeps_batch (rest_env [sample_trade]) btcusd_bot None
           world0 "/v2/public/trading-records"
           (trades_answer [sample_trade]) [sample_trade] eq_refl eq_refl eq_refl).
  repeat constructor.
Defined.

(** The id made for the custom id "entry" classifies as "entry" does. *)
Lemma order_link_id_classified_witness :
  determine_pos_side vendor_order
  = determine_pos_side (PDict [("side", PStr "Buy"); ("order_link_id", PStr "entry")]).
Proof.
  exact (order_link_id_classified (E := offline_env) "entry" "entry_00123_456" "Buy"
           1609459200123 sample_random
           [("order_id", PStr "a1b2"); ("order_link_id", PStr "entry_00123_456");
            ("symbol", PStr "BTCUSD"); ("price", PStr "39000"); ("qty", PInt 2);
            ("side", PStr "Buy"); ("created_at", PStr "2021-01-01T00:00:00Z")]
           eq_refl eq_refl eq_refl).
Defined.

(** The sample limit order: post-only, with its price as text. *)
Lemma order_params_time_in_force_witness :
  exists t raw_type,
    subscript sample_intent "type" = Ok raw_type /\
    first_capitalized raw_type = Ok t /\
    dict_get sample_order_params "order_type" = Some (PStr t) /\
    (t = "Limit" ->
     dict_get sample_order_params "time_in_force" = Some (PStr "PostOnly") /\
     exists p, subscript sample_intent "price" = Ok p /\
               dict_get sample_order_params "price"
               = Some (PStr (py_str (E := offline_env) p))) /\
    (t <> "Limit" ->
     dict_get sample_order_params "time_in_force" = Some (PStr "GoodTillCancel") /\
     dict_get sample_order_params "price" = None).
Proof.
  exact (order_params_time_in_force (E := offline_env) btcusd_bot sample_intent
           sample_order_params eq_refl).
Defined.

(** The sample order on the inverse-perpetual bot, which is never in
    hedge mode: index 0 and an integer quantity. *)
Lemma order_params_position_index_witness :
  dict_get sample_order_params "position_idx" = Some (PInt 0) /\
  exists z, dict_get sample_order_params "qty" = Some (PInt z).
Proof.
  pose proof (order_params_position_index (E := offline_env) btcusd_bot sample_intent
                sample_order_params eq_refl) as (H0 & _ & _ & _ & _ & Hq).
  split; [apply H0; reflexivity|apply Hq; discriminate].
Defined.

(** The sample order refused by the vendor: the answer and the order
    come back. *)
Lemma execute_order_outcome_witness :
  fst (execute_order (E := answer_env order_refused) btcusd_bot sample_intent
         sample_random world0)
  = Ok (Rejected order_refused sample_intent).
Proof.
  refine (proj1 (execute_order_outcome (E := answer_env order_refused) btcusd_bot
                   sample_intent sample_random world0 sample_order_params
                   (PStr "entry") order_refused PNone "entry_00000_456"
                   "/v2/private/order/create"
                   eq_refl eq_refl eq_refl eq_refl eq_refl eq_refl) eq_refl).
Defined.

(** The sample resting order as [fetch_open_orders] returns it. *)
Lemma fetch_open_orders_records_witness :
  Forall2 (fun elm order =>
             exists side position_side,
               subscript elm "side" = Ok (PStr side) /\
               determine_pos_side elm = Ok position_side /\
               subscript order "side" = Ok (PStr (lower side)) /\
               subscript order "position_side" = Ok (PStr position_side) /\
               subscript order "order_id" = subscript elm "order_id" /\
               subscript order "custom_id" = subscript elm "order_link_id")
          [vendor_order] sample_open_orders.
Proof.
  exact (fetch_open_orders_records
           (E := answer_env (PDict [("ret_code", PInt 0);
                                    ("result", PList [vendor_order])]))
           btcusd_bot world0 "/v2/private/order"
           (PDict [("ret_code", PInt 0); ("result", PList [vendor_order])])
           [vendor_order] sample_open_orders eq_refl eq_refl eq_refl eq_refl).
Defined.

(** An order that has an id but no side: the cancel request is sent and
    answered before the call fails. *)
Lemma execute_cancellation_reads_late_witness :
  execute_cancellation (E := answer_env order_not_found) btcusd_bot
    (PDict [("order_id", PStr "a1b2")]) world0
  = (Raise (KeyError "side"), {| stdout := []; clock_reads := 1; requests := 1 |}).
Proof.
  exact (proj2 (execute_cancellation_reads_late (E := answer_env order_not_found)
                  btcusd_bot [("order_id", PStr "a1b2")] world0
                  "/v2/private/order/cancel" eq_refl eq_refl)
           (PStr "a1b2") order_not_found eq_refl eq_refl).
Defined.
